(** * PicGen: request orchestration and caching core

    A shallow embedding of [utils/image_cache.py] (class [ImageCache]) and of
    [core/image_tool.py] (class [ImageTool]), together with the parts of the
    Python library these two files rely on ([hashlib.md5], [json.dumps],
    [str] methods, [random.randint], [raise_for_status]).

    Conventions.
    - A Python [str] is a [string]: one [ascii] per code point, so the model
      covers the text whose code points are below 256 (ASCII and Latin-1,
      which is where the accented letters of Spanish prompts live).
    - A Python [bytes] value is a [list Z] of numbers in [0, 256).
    - A [dict] is an association list in insertion order.
    - An exception is a value of type [exn]; a function that can raise
      returns a [result].
    - Everything the code asks of the outside world (the network, the clock,
      the random generator, the file system) is supplied by an explicit
      environment, and every request, sleep, translation and upload is
      recorded in a trace of [event]s.
    - Log lines are left out; the loop of [edit_image] leaves an [Attempt]
      event where it logs the model it is about to try.
    - Calls are made one after the other: the thread pool of the batch mode
      is outside the model. *)

From Stdlib Require Import ZArith List String Ascii Bool Lia Permutation.
From Stdlib Require Import DecimalString Sorted Setoid OrderedTypeEx.
Import ListNotations.

Local Open Scope string_scope.
Local Open Scope Z_scope.

(* ================================================================== *)
(** ** Python strings *)

Module PyStr.

Definition ord (c : ascii) : Z := Z.of_N (N_of_ascii c).
Definition chr (n : Z) : ascii := ascii_of_N (Z.to_N n).

(** [needle in hay] *)
Fixpoint contains (needle hay : string) : bool :=
  String.prefix needle hay ||
  match hay with
  | EmptyString => false
  | String _ rest => contains needle rest
  end.

(** [bool(s)] *)
Definition truthy (s : string) : bool :=
  match s with EmptyString => false | _ => true end.

(** [all(ord(c) < 128 for c in s)] *)
Fixpoint is_ascii (s : string) : bool :=
  match s with
  | EmptyString => true
  | String c rest => (ord c <? 128) && is_ascii rest
  end.

(** [s[:n]] *)
Fixpoint take (n : nat) (s : string) : string :=
  match n, s with
  | S n', String c rest => String c (take n' rest)
  | _, _ => EmptyString
  end.

Fixpoint map (f : ascii -> ascii) (s : string) : string :=
  match s with
  | EmptyString => EmptyString
  | String c rest => String (f c) (map f rest)
  end.

Fixpoint filter (p : ascii -> bool) (s : string) : string :=
  match s with
  | EmptyString => EmptyString
  | String c rest => if p c then String c (filter p rest) else filter p rest
  end.

(** [c.isspace()], which is also the class [\s] of [re] *)
Definition isspace (c : ascii) : bool :=
  let n := ord c in
  ((9 <=? n) && (n <=? 13)) || ((28 <=? n) && (n <=? 32))
  || (n =? 133) || (n =? 160).

(** the class [\w] of [re] on [str] patterns: alphanumerics and [_] *)
Definition isword (c : ascii) : bool :=
  let n := ord c in
  ((48 <=? n) && (n <=? 57)) || ((65 <=? n) && (n <=? 90)) || (n =? 95)
  || ((97 <=? n) && (n <=? 122))
  || (n =? 170) || (n =? 178) || (n =? 179) || (n =? 181) || (n =? 185)
  || (n =? 186) || ((188 <=? n) && (n <=? 190))
  || ((192 <=? n) && (n <=? 214)) || ((216 <=? n) && (n <=? 246))
  || ((248 <=? n) && (n <=? 255)).

(** [c.lower()] *)
Definition lower_char (c : ascii) : ascii :=
  let n := ord c in
  if ((65 <=? n) && (n <=? 90))
     || ((192 <=? n) && (n <=? 222) && negb (n =? 215))
  then chr (n + 32) else c.

Definition lower (s : string) : string := map lower_char s.

Fixpoint lstrip (s : string) : string :=
  match s with
  | String c rest => if isspace c then lstrip rest else s
  | EmptyString => EmptyString
  end.

Fixpoint rstrip (s : string) : string :=
  match s with
  | EmptyString => EmptyString
  | String c rest =>
      match rstrip rest with
      | EmptyString => if isspace c then EmptyString else String c EmptyString
      | r => String c r
      end
  end.

(** [s.strip()] *)
Definition strip (s : string) : string := rstrip (lstrip s).

(** [s.replace(a, b)] for single characters [a] and [b] *)
Definition replace_char (a b : ascii) (s : string) : string :=
  map (fun c => if Ascii.eqb c a then b else c) s.

(** [str(n)] for an [int] *)
Definition of_int (n : Z) : string := NilZero.string_of_int (Z.to_int n).

Definition hex_digit (n : Z) : ascii :=
  if n <? 10 then chr (48 + n) else chr (87 + n).

(** two lower-case hexadecimal digits of a byte *)
Definition hex2 (b : Z) : string :=
  String (hex_digit (b / 16)) (String (hex_digit (b mod 16)) EmptyString).

(** [s.encode()]: UTF-8 *)
Fixpoint encode (s : string) : list Z :=
  match s with
  | EmptyString => []
  | String c rest =>
      let n := ord c in
      if n <? 128 then n :: encode rest
      else Z.lor 192 (Z.shiftr n 6) :: Z.lor 128 (Z.land n 63) :: encode rest
  end.

End PyStr.

(* ================================================================== *)
(** ** [hashlib.md5] (RFC 1321) *)

Module Hashlib.

Definition wrap32 (x : Z) : Z := x mod 2 ^ 32.
Definition lnot32 (x : Z) : Z := Z.lxor x 0xffffffff.
Definition rotl32 (x c : Z) : Z :=
  Z.lor (wrap32 (Z.shiftl x c)) (Z.shiftr x (32 - c)).

Definition K : list Z :=
[ 0xd76aa478; 0xe8c7b756; 0x242070db; 0xc1bdceee;
  0xf57c0faf; 0x4787c62a; 0xa8304613; 0xfd469501;
  0x698098d8; 0x8b44f7af; 0xffff5bb1; 0x895cd7be;
  0x6b901122; 0xfd987193; 0xa679438e; 0x49b40821;
  0xf61e2562; 0xc040b340; 0x265e5a51; 0xe9b6c7aa;
  0xd62f105d; 0x02441453; 0xd8a1e681; 0xe7d3fbc8;
  0x21e1cde6; 0xc33707d6; 0xf4d50d87; 0x455a14ed;
  0xa9e3e905; 0xfcefa3f8; 0x676f02d9; 0x8d2a4c8a;
  0xfffa3942; 0x8771f681; 0x6d9d6122; 0xfde5380c;
  0xa4beea44; 0x4bdecfa9; 0xf6bb4b60; 0xbebfbc70;
  0x289b7ec6; 0xeaa127fa; 0xd4ef3085; 0x04881d05;
  0xd9d4d039; 0xe6db99e5; 0x1fa27cf8; 0xc4ac5665;
  0xf4292244; 0x432aff97; 0xab9423a7; 0xfc93a039;
  0x655b59c3; 0x8f0ccc92; 0xffeff47d; 0x85845dd1;
  0x6fa87e4f; 0xfe2ce6e0; 0xa3014314; 0x4e0811a1;
  0xf7537e82; 0xbd3af235; 0x2ad7d2bb; 0xeb86d391 ].

Definition shifts : list Z :=
[ 7; 12; 17; 22; 7; 12; 17; 22; 7; 12; 17; 22; 7; 12; 17; 22;
  5; 9; 14; 20; 5; 9; 14; 20; 5; 9; 14; 20; 5; 9; 14; 20;
  4; 11; 16; 23; 4; 11; 16; 23; 4; 11; 16; 23; 4; 11; 16; 23;
  6; 10; 15; 21; 6; 10; 15; 21; 6; 10; 15; 21; 6; 10; 15; 21 ].

(** little-endian bytes of a number, and back *)
Fixpoint le_bytes (n : nat) (x : Z) : list Z :=
  match n with
  | O => []
  | S n' => x mod 256 :: le_bytes n' (x / 256)
  end.

Fixpoint le_word (bs : list Z) : Z :=
  match bs with
  | [] => 0
  | b :: rest => b + 256 * le_word rest
  end.

Definition pad (msg : list Z) : list Z :=
  let len := Z.of_nat (List.length msg) in
  msg ++ [0x80] ++ repeat 0 (Z.to_nat ((55 - len) mod 64))
      ++ le_bytes 8 ((8 * len) mod 2 ^ 64).

Fixpoint chunks (fuel size : nat) (l : list Z) : list (list Z) :=
  match fuel, l with
  | S fuel', _ :: _ => firstn size l :: chunks fuel' size (skipn size l)
  | _, _ => []
  end.

Definition state : Type := Z * Z * Z * Z.

Definition round (M : list Z) (st : state) (i : nat) : state :=
  let '(a, b, c, d) := st in
  let iz := Z.of_nat i in
  let '(f, g) :=
    if iz <? 16 then (Z.lor (Z.land b c) (Z.land (lnot32 b) d), iz)
    else if iz <? 32 then
      (Z.lor (Z.land d b) (Z.land (lnot32 d) c), (5 * iz + 1) mod 16)
    else if iz <? 48 then (Z.lxor b (Z.lxor c d), (3 * iz + 5) mod 16)
    else (Z.lxor c (Z.lor b (lnot32 d)), (7 * iz) mod 16) in
  let f' := wrap32 (f + a + nth i K 0 + nth (Z.to_nat g) M 0) in
  (d, wrap32 (b + rotl32 f' (nth i shifts 0)), b, c).

Definition block (st : state) (bytes : list Z) : state :=
  let M := List.map le_word (chunks 16 4 bytes) in
  let '(a0, b0, c0, d0) := st in
  let '(a, b, c, d) := fold_left (round M) (seq 0 64) st in
  (wrap32 (a0 + a), wrap32 (b0 + b), wrap32 (c0 + c), wrap32 (d0 + d)).

Definition digest (msg : list Z) : list Z :=
  let padded := pad msg in
  let '(a, b, c, d) :=
    fold_left block (chunks (List.length padded) 64 padded)
      (0x67452301, 0xefcdab89, 0x98badcfe, 0x10325476) in
  le_bytes 4 a ++ le_bytes 4 b ++ le_bytes 4 c ++ le_bytes 4 d.

(** [hashlib.md5(msg).hexdigest()] *)
Definition md5_hexdigest (msg : list Z) : string :=
  String.concat EmptyString (List.map PyStr.hex2 (digest msg)).

End Hashlib.

(* ================================================================== *)
(** ** Python values, dictionaries and [json.dumps] *)

(** The values that travel through the request parameters. *)
Inductive value : Type :=
| VNone
| VBool (b : bool)
| VInt (n : Z)
| VStr (s : string).

(** A [dict] with [str] keys, in insertion order. *)
Definition pydict : Type := list (string * value).

Module Dict.

(** [d.get(key, default)] *)
Fixpoint get (d : pydict) (key : string) (default : value) : value :=
  match d with
  | [] => default
  | (k, v) :: rest => if String.eqb k key then v else get rest key default
  end.

Definition keys (d : pydict) : list string := List.map fst d.

(** [key in d] *)
Definition has (d : pydict) (key : string) : bool :=
  existsb (fun k => String.eqb k key) (keys d).

(** keys of a [dict] are pairwise distinct *)
Fixpoint distinct (ks : list string) : bool :=
  match ks with
  | [] => true
  | k :: rest => negb (existsb (String.eqb k) rest) && distinct rest
  end.

(** [d[key] = v]: the value of a key that is there is replaced where it
    stands, a new key goes to the end *)
Fixpoint set (d : pydict) (key : string) (v : value) : pydict :=
  match d with
  | [] => [(key, v)]
  | (k, v0) :: rest =>
      if String.eqb k key then (k, v) :: rest else (k, v0) :: set rest key v
  end.

(** [d.update(u)], which is [for key, value in u.items(): d[key] = value] *)
Definition update (d u : pydict) : pydict :=
  fold_left (fun acc kv => set acc (fst kv) (snd kv)) u d.

End Dict.

Module Json.

Definition quote : string := String (PyStr.chr 34) EmptyString.

Definition u_escape (n : Z) : string :=
  "\u00" ++ PyStr.hex2 n.

(** one character of [py_encode_basestring_ascii] *)
Definition escape_char (c : ascii) : string :=
  let n := PyStr.ord c in
  if n =? 34 then String (PyStr.chr 92) quote
  else if n =? 92 then "\\"
  else if n =? 8 then "\b"
  else if n =? 12 then "\f"
  else if n =? 10 then "\n"
  else if n =? 13 then "\r"
  else if n =? 9 then "\t"
  else if (32 <=? n) && (n <=? 126) then String c EmptyString
  else u_escape n.

Fixpoint escape (s : string) : string :=
  match s with
  | EmptyString => EmptyString
  | String c rest => escape_char c ++ escape rest
  end.

Definition encode_str (s : string) : string := quote ++ escape s ++ quote.

Definition dumps_value (v : value) : string :=
  match v with
  | VNone => "null"
  | VBool true => "true"
  | VBool false => "false"
  | VInt n => PyStr.of_int n
  | VStr s => encode_str s
  end.

(** [sorted(d.items())]: a stable insertion sort on the keys *)
Fixpoint insert (kv : string * value) (l : pydict) : pydict :=
  match l with
  | [] => [kv]
  | kv' :: rest =>
      if String.leb (fst kv) (fst kv') then kv :: l
      else kv' :: insert kv rest
  end.

Fixpoint sort_items (d : pydict) : pydict :=
  match d with
  | [] => []
  | kv :: rest => insert kv (sort_items rest)
  end.

Definition dumps_item (kv : string * value) : string :=
  encode_str (fst kv) ++ ": " ++ dumps_value (snd kv).

(** [json.dumps(d, sort_keys=True)] *)
Definition dumps_sorted (d : pydict) : string :=
  "{" ++ String.concat ", " (List.map dumps_item (sort_items d)) ++ "}".

(** one character of [py_encode_basestring], used when [ensure_ascii] is
    false: only the quote, the backslash and the control characters are
    escaped *)
Definition escape_char_raw (c : ascii) : string :=
  let n := PyStr.ord c in
  if n =? 34 then String (PyStr.chr 92) quote
  else if n =? 92 then "\\"
  else if n =? 8 then "\b"
  else if n =? 12 then "\f"
  else if n =? 10 then "\n"
  else if n =? 13 then "\r"
  else if n =? 9 then "\t"
  else if n <? 32 then u_escape n
  else String c EmptyString.

Fixpoint escape_raw (s : string) : string :=
  match s with
  | EmptyString => EmptyString
  | String c rest => escape_char_raw c ++ escape_raw rest
  end.

Definition encode_str_raw (s : string) : string :=
  quote ++ escape_raw s ++ quote.

Definition dumps_value_raw (v : value) : string :=
  match v with
  | VStr s => encode_str_raw s
  | _ => dumps_value v
  end.

Definition newline : string := String (PyStr.chr 10) EmptyString.

(** [json.dumps(d, indent=2, ensure_ascii=False)] *)
Definition dumps_indent (d : pydict) : string :=
  match d with
  | [] => "{}"
  | _ =>
      "{" ++ newline ++ "  "
      ++ String.concat ("," ++ newline ++ "  ")
           (List.map
              (fun kv => encode_str_raw (fst kv) ++ ": "
                         ++ dumps_value_raw (snd kv))
              d)
      ++ newline ++ "}"
  end.

End Json.

(* ================================================================== *)
(** ** The file system, as the two classes use it *)

Module Os.

(** What the code asks of the file system.  Paths are the strings the
    code passes around; nothing is assumed about how the operations
    behave, so every statement below holds for any file system. *)
Class Filesystem (FS : Type) : Type := {
  (** [Path(p).exists()] *)
  path_exists : FS -> string -> bool;
  (** [os.remove(p)]: the file system afterwards, and [false] when the
      call raised [OSError] *)
  os_remove : FS -> string -> FS * bool;
  (** [open(p, 'wb')] followed by the writes: the file system afterwards,
      and [false] when [IOError] was raised *)
  write_file : FS -> string -> list Z -> FS * bool;
  (** [str(Path(d) / f)] *)
  path_join : string -> string -> string
}.

(** A small file system for examples: the set of paths that exist, and
    the paths that cannot be removed or written.  Its [path_join] puts a
    slash between the two, which is what [pathlib] prints when the
    directory is written the way [pathlib] itself prints it (no leading
    [./], no trailing slash) and the file name is a plain name; the
    examples use such names only. *)
Record disk : Type := {
  files : list string;
  locked : list string
}.

Definition mem (p : string) (l : list string) : bool :=
  existsb (String.eqb p) l.

Definition disk_remove (d : disk) (p : string) : disk * bool :=
  if mem p (files d) && negb (mem p (locked d))
  then ({| files := List.filter (fun q => negb (String.eqb p q)) (files d);
           locked := locked d |}, true)
  else (d, false).

Definition disk_write (d : disk) (p : string) (body : list Z) : disk * bool :=
  if mem p (locked d) then (d, false)
  else ({| files := p :: files d; locked := locked d |}, true).

#[export] Instance disk_fs : Filesystem disk := {
  path_exists d p := mem p (files d);
  os_remove := disk_remove;
  write_file := disk_write;
  path_join d f := d ++ "/" ++ f
}.

End Os.
Export Os.

(* ================================================================== *)
(** ** [utils/image_cache.py]: class [ImageCache] *)

Module ImageCache.

(** Two clocks are read.  SQLite writes [CURRENT_TIMESTAMP], the date and
    the time of day in UTC, to the second; [clean_cache] takes
    [datetime.now()], the date and the time of day of the machine's own
    time zone.  A reading is the number of seconds from a fixed date to the
    date and time that the clock shows.  SQLite compares the two as text,
    both written year first and in fixed width, so it compares the
    readings; a reading of [datetime.now()] counts a second that has begun
    as a whole one, since the text with a fraction sorts after the text
    without. *)
Definition utc_reading : Type := Z.
Definition local_reading : Type := Z.

(** One row of the table [image_cache]. *)
Record row : Type := {
  prompt_hash : string;
  filepath : string;
  last_accessed : utc_reading
}.

(** The table, in rowid order. *)
Definition table : Type := list row.

(** The [ImageCache] object with the database it is connected to. *)
Record t : Type := {
  db : table;
  max_age_days : Z
}.

(** *** The SQL statements *)

Definition has_hash (h : string) (r : row) : bool :=
  String.eqb (prompt_hash r) h.

(** [PRIMARY KEY]: no two rows share [prompt_hash] *)
Definition primary_key_ok (tb : table) : bool :=
  Dict.distinct (List.map prompt_hash tb).

(** [SELECT filepath FROM image_cache WHERE prompt_hash = ?], [fetchone] *)
Definition select_filepath (tb : table) (h : string) : option string :=
  option_map filepath (List.find (has_hash h) tb).

(** [UPDATE image_cache SET last_accessed = CURRENT_TIMESTAMP
     WHERE prompt_hash = ?] *)
Definition update_last_accessed (tb : table) (h : string)
           (now : utc_reading) : table :=
  List.map (fun r =>
    if has_hash h r
    then {| prompt_hash := prompt_hash r; filepath := filepath r;
            last_accessed := now |}
    else r) tb.

(** [DELETE FROM image_cache WHERE prompt_hash = ?] *)
Definition delete (tb : table) (h : string) : table :=
  List.filter (fun r => negb (has_hash h r)) tb.

(** [INSERT OR REPLACE INTO image_cache (prompt_hash, filepath,
     last_accessed) VALUES (?, ?, CURRENT_TIMESTAMP)]: the row in conflict
    goes, the new row gets a fresh rowid *)
Definition insert_or_replace (tb : table) (h fp : string)
           (now : utc_reading) : table :=
  (delete tb h
     ++ [{| prompt_hash := h; filepath := fp; last_accessed := now |}])%list.

(** [SELECT prompt_hash, filepath FROM image_cache WHERE last_accessed < ?],
    where the parameter is a [datetime] of the local clock: the reading
    that the UTC clock left in the row is compared with a reading of the
    local clock *)
Definition select_older (tb : table) (cutoff : local_reading) : table :=
  List.filter (fun r => last_accessed r <? cutoff) tb.

(** *** The methods *)

Definition _get_hash (prompt : string) (parameters : pydict) : string :=
  let content := prompt ++ "_" ++ Json.dumps_sorted parameters in
  Hashlib.md5_hexdigest (PyStr.encode content).

Section Methods.
Context {FS : Type} `{Filesystem FS}.

Definition get (self : t) (fs : FS) (now : utc_reading)
           (prompt : string) (parameters : pydict) : option string * t :=
  let prompt_hash := _get_hash prompt parameters in
  match select_filepath (db self) prompt_hash with
  | Some result =>
      if path_exists fs result
      then (Some result,
            {| db := update_last_accessed (db self) prompt_hash now;
               max_age_days := max_age_days self |})
      else (None, self)
  | None => (None, self)
  end.

Definition store (self : t) (now : utc_reading)
           (prompt : string) (parameters : pydict) (filepath : string) : t :=
  let prompt_hash := _get_hash prompt parameters in
  {| db := insert_or_replace (db self) prompt_hash filepath now;
     max_age_days := max_age_days self |}.

(** What [clean_cache] leaves behind.  [returned] is the value of the
    call; [deleted_count] is the local counter at the end of the body,
    which the method writes to the log. *)
Record cleaned : Type := {
  returned : value;
  deleted_count : Z;
  cache_after : t;
  fs_after : FS
}.

(** first loop: the rows that are too old *)
Fixpoint remove_old (rows : table) (tb : table) (fs : FS) (count : Z)
  : table * FS * Z :=
  match rows with
  | [] => (tb, fs, count)
  | r :: rest =>
      let fs1 :=
        if path_exists fs (filepath r)
        then fst (os_remove fs (filepath r))   (* OSError is only logged *)
        else fs in
      remove_old rest (delete tb (prompt_hash r)) fs1 (count + 1)
  end.

(** second loop: the rows whose file is gone *)
Fixpoint remove_missing (rows : table) (tb : table) (fs : FS) (count : Z)
  : table * Z :=
  match rows with
  | [] => (tb, count)
  | r :: rest =>
      if negb (path_exists fs (filepath r))
      then remove_missing rest (delete tb (prompt_hash r)) fs (count + 1)
      else remove_missing rest tb fs count
  end.

Definition seconds_per_day : Z := 86400.

(** [now] is [datetime.now()], a reading of the local clock, and so is
    [cutoff_date] *)
Definition clean_cache (self : t) (fs : FS) (now : local_reading) (days : Z)
  : cleaned :=
  let age_limit := if 0 <? days then days else max_age_days self in
  let deleted_count := 0 in
  let cutoff_date : local_reading := now - age_limit * seconds_per_day in
  let '(tb1, fs1, deleted_count) :=
    remove_old (select_older (db self) cutoff_date) (db self) fs
               deleted_count in
  let '(tb2, deleted_count) := remove_missing tb1 tb1 fs1 deleted_count in
  {| returned := VNone;
     deleted_count := deleted_count;
     cache_after := {| db := tb2; max_age_days := max_age_days self |};
     fs_after := fs1 |}.

(** [ImageCache(cache_dir, max_age_days)] on the database file found in
    [cache_dir]; [persisted] is empty when the file is created. *)
Definition __init__ (persisted : table) (fs : FS) (now : local_reading)
           (max_age_days : Z) : t * FS :=
  let self := {| db := persisted; max_age_days := max_age_days |} in
  let c := clean_cache self fs now max_age_days in
  (cache_after c, fs_after c).

End Methods.

End ImageCache.

(* ================================================================== *)
(** ** [random.randint] and [urllib.parse.quote_plus] *)

Module Random.

(** [_randbelow(n)]: a number in [0, n), here as a function of the
    generator's draw *)
Definition randbelow (n : Z) (draw : Z) : Z := draw mod n.

(** [randint(a, b)] is [randrange(a, b + 1)] *)
Definition randint (a b : Z) (draw : Z) : Z :=
  a + randbelow (b - a + 1) draw.

End Random.

Module Urllib.

Definition always_safe (c : ascii) : bool :=
  let n := PyStr.ord c in
  ((48 <=? n) && (n <=? 57)) || ((65 <=? n) && (n <=? 90))
  || ((97 <=? n) && (n <=? 122))
  || (n =? 95) || (n =? 46) || (n =? 45) || (n =? 126).

Definition HEX_digit (n : Z) : ascii :=
  if n <? 10 then PyStr.chr (48 + n) else PyStr.chr (55 + n).

Definition percent (b : Z) : string :=
  String "%" (String (HEX_digit (b / 16))
                     (String (HEX_digit (b mod 16)) EmptyString)).

Fixpoint quote_plus (s : string) : string :=
  match s with
  | EmptyString => EmptyString
  | String c rest =>
      (if always_safe c then String c EmptyString
       else if PyStr.ord c =? 32 then "+"
       else String.concat EmptyString
              (List.map percent (PyStr.encode (String c EmptyString))))
      ++ quote_plus rest
  end.

End Urllib.

(* ================================================================== *)
(** ** [core/image_tool.py]: class [ImageTool] *)

Module ImageTool.

Definition BASE_URL : string := "https://image.pollinations.ai/prompt/".

(** What [config_manager.get] answers for the keys the class reads.
    [width], [height] and [model] go into the request as they are. *)
Record Config : Type := {
  width : value;
  height : value;
  model : value;
  max_retries : Z;
  timeout : Z;
  output_dir : string;
  image_format : string;
  enable_cache : bool;
  add_logo : bool;
  model_edicion : string;
  POLLINATIONS_API_KEY : option string;
  GOFILE_API_TOKEN : option string;
  GOFILE_FOLDER_ID : option string
}.

Record Stats : Type := {
  images_generated : Z;
  cache_hits : Z;
  total_generation_time : Z;
  errors : Z
}.

(** The [ImageTool] object. *)
Record t : Type := {
  config_manager : Config;
  cache : option ImageCache.t;
  stats : Stats
}.

Definition api_token (self : t) : option string :=
  POLLINATIONS_API_KEY (config_manager self).
Definition gofile_token (self : t) : option string :=
  GOFILE_API_TOKEN (config_manager self).
Definition gofile_folder (self : t) : option string :=
  GOFILE_FOLDER_ID (config_manager self).

(** [bool(x)] for an [Optional[str]] *)
Definition truthy (x : option string) : bool :=
  match x with
  | Some s => PyStr.truthy s
  | None => false
  end.

(** *** The outside world *)

(** A reply is asked for with [stream=True]: [requests.get] comes back
    once the status line and the headers are in, and the body is read
    when the code asks for it ([text], [iter_content]).  [content] is the
    bytes that arrive; [readable] is [false] when the read of the body
    raises (the stream breaks: [ChunkedEncodingError] and the like). *)
Record Response : Type := {
  status_code : Z;
  content_type : option string;   (* the header, when the reply has one *)
  content : list Z;
  readable : bool
}.

(** What one [requests.get] comes back with. *)
Inductive http_outcome : Type :=
| Reply (r : Response)
| RequestException.             (* timeout, reset, DNS failure, ... *)

(** The exceptions that leave the methods.  [ConnectionError] is the
    built-in one, which [_make_request] raises itself; [BodyReadError]
    stands for the exception of [requests] that a broken read of a body
    raises, which is an [IOError] and no built-in [ConnectionError]. *)
Inductive exn : Type :=
| ConnectionError
| ValueError (content_type : string)
| IOError
| BodyReadError.

Inductive result (A : Type) : Type :=
| Return (a : A)
| Raise (e : exn).
Arguments Return {A} a.
Arguments Raise {A} e.

Inductive event : Type :=
| Get (url : string) (params : pydict) (headers : list (string * string))
| Sleep (seconds : Z)
| Translate (q : string)
| Upload (image_path : string)
| Attempt (model : string).     (* one turn of the loop of [edit_image] *)

(** [response.raise_for_status()] raises [HTTPError] for these codes *)
Definition raise_for_status (status : Z) : bool :=
  (400 <=? status) && (status <? 600).

Definition auth_headers (self : t) : list (string * string) :=
  match api_token self with
  | Some tok => if PyStr.truthy tok then [("Authorization", "Bearer " ++ tok)]
                else []
  | None => []
  end.

(** *** [_make_request] *)

Section MakeRequest.
Variable max_retries : Z.
Variable url : string.
Variable params : pydict.
Variable headers : list (string * string).
(** the outcome of the request of each attempt *)
Variable server : nat -> http_outcome.

Definition backoff (attempt : nat) : list event :=
  if Z.of_nat attempt <? max_retries - 1
  then [Sleep (2 ^ Z.of_nat attempt)]
  else [].

(** the [for] loop, and the [raise ConnectionError] behind it *)
Fixpoint attempts (range : list nat) : result Response * list event :=
  match range with
  | [] => (Raise ConnectionError, [])
  | attempt :: rest =>
      match server attempt with
      | Reply response =>
          if raise_for_status (status_code response) then
            (* except HTTPError: the log line reads [e.response.text]
               first; an exception raised in the handler is caught by
               no clause and leaves the function *)
            if negb (readable response)
            then (Raise BodyReadError, [Get url params headers])
            else if status_code response <? 500
            then (Raise ConnectionError, [Get url params headers])
            else
              let '(r, tr) := attempts rest in
              (r, Get url params headers :: backoff attempt ++ tr)
          else
            let content_type :=
              match content_type response with
              | Some ct => ct
              | None => EmptyString
              end in
            if negb (PyStr.contains "image" content_type)
               && negb (PyStr.contains "octet-stream" content_type)
            then (Raise (ValueError content_type), [Get url params headers])
            else (Return response, [Get url params headers])
      | RequestException =>
          let '(r, tr) := attempts rest in
          (r, Get url params headers :: backoff attempt ++ tr)
      end
  end.

Definition make_request_loop : result Response * list event :=
  attempts (seq 0 (Z.to_nat max_retries)).

End MakeRequest.

Definition _make_request (self : t) (url : string) (params : pydict)
           (headers : list (string * string)) (server : nat -> http_outcome)
  : result Response * list event :=
  make_request_loop (max_retries (config_manager self)) url params headers
                    server.

(** *** The helpers *)

Definition keep_in_filename (c : ascii) : bool :=
  PyStr.isword c || PyStr.isspace c || (PyStr.ord c =? 45).

(** [timestamp] is [datetime.now().strftime('%Y%m%d_%H%M%S')] *)
Definition _generate_filename (self : t) (prompt : string)
           (timestamp : string) : string :=
  let clean_prompt :=
    PyStr.take 50
      (PyStr.replace_char " " "_"
         (PyStr.strip (PyStr.filter keep_in_filename (PyStr.lower prompt)))) in
  clean_prompt ++ "_" ++ timestamp ++ "."
    ++ PyStr.lower (image_format (config_manager self)).

(** [reply] is what the translation service answers: the translated
    text, or nothing when the call fails in any way *)
Definition _translate_prompt (text : string) (reply : option string)
  : string * list event :=
  let text := PyStr.take 490 text in
  if negb (PyStr.is_ascii text) then
    match reply with
    | Some translated => (translated, [Translate text])
    | None => (text, [Translate text])
    end
  else (text, []).

(** [reply] is the direct link GoFile hands out, or nothing when the
    exchange fails *)
Definition _upload_to_gofile (self : t) (image_path : string)
           (reply : option string) : option string * list event :=
  if negb (truthy (gofile_token self)) || negb (truthy (gofile_folder self))
  then (None, [])
  else (reply, [Upload image_path]).

Section Methods.
Context {FS : Type} `{Filesystem FS}.

(** The file is opened and the chunks that arrive are written; when the
    stream breaks the exception of the read is an [IOError] too, and it is
    raised again after the log line. *)
Definition _save_image (self : t) (fs : FS) (response : Response)
           (filename : string) : result string * FS :=
  let output_path := path_join (output_dir (config_manager self)) filename in
  let '(fs', ok) := write_file fs output_path (content response) in
  if ok then
    if readable response then (Return output_path, fs')
    else (Raise BodyReadError, fs')
  else (Raise IOError, fs').

(** What the world supplies to one call of [generate_image]. *)
Record GenEnv : Type := {
  gen_draw : Z;                       (* behind [random.randint] *)
  gen_lookup_time : ImageCache.utc_reading;
                                      (* CURRENT_TIMESTAMP in [get] *)
  gen_translation : option string;
  gen_server : nat -> http_outcome;
  gen_timestamp : string;
  gen_store_time : ImageCache.utc_reading;
                                      (* CURRENT_TIMESTAMP in [store] *)
  gen_duration : Z                    (* time.time() - start_time *)
}.

Definition generate_params (self : t) (kwargs : pydict) (draw : Z)
  : pydict :=
  [ ("width", Dict.get kwargs "width" (width (config_manager self)));
    ("height", Dict.get kwargs "height" (height (config_manager self)));
    ("model", Dict.get kwargs "model" (model (config_manager self)));
    ("seed", Dict.get kwargs "seed"
               (VInt (Random.randint 0 1000000000 draw)));
    ("nologo", VBool (negb (add_logo (config_manager self)))) ].

Definition with_stats (self : t) (c : option ImageCache.t) (s : Stats) : t :=
  {| config_manager := config_manager self; cache := c; stats := s |}.

Definition count_cache_hit (s : Stats) : Stats :=
  {| images_generated := images_generated s;
     cache_hits := cache_hits s + 1;
     total_generation_time := total_generation_time s;
     errors := errors s |}.

Definition count_generated (s : Stats) (duration : Z) : Stats :=
  {| images_generated := images_generated s + 1;
     cache_hits := cache_hits s;
     total_generation_time := total_generation_time s + duration;
     errors := errors s |}.

Definition count_error (s : Stats) : Stats :=
  {| images_generated := images_generated s;
     cache_hits := cache_hits s;
     total_generation_time := total_generation_time s;
     errors := errors s + 1 |}.

Definition generate_image (self : t) (fs : FS) (prompt : string)
           (kwargs : pydict) (env : GenEnv)
  : option string * t * FS * list event :=
  let params := generate_params self kwargs (gen_draw env) in
  let '(cached_path, cache1) :=
    match cache self with
    | Some c =>
        let '(r, c') :=
          ImageCache.get c fs (gen_lookup_time env) prompt params in
        (r, Some c')
    | None => (None, None)
    end in
  if truthy cached_path then
    (cached_path, with_stats self cache1 (count_cache_hit (stats self)),
     fs, [])
  else
    let '(translated_prompt, ev1) :=
      _translate_prompt prompt (gen_translation env) in
    let encoded_prompt := Urllib.quote_plus translated_prompt in
    let url := BASE_URL ++ encoded_prompt in
    let headers := auth_headers self in
    let '(res, ev2) := _make_request self url params headers
                                     (gen_server env) in
    match res with
    | Return response =>
        let filename :=
          _generate_filename self translated_prompt (gen_timestamp env) in
        match _save_image self fs response filename with
        | (Return saved_path, fs') =>
            if PyStr.truthy saved_path then
              let cache2 :=
                option_map
                  (fun c => ImageCache.store c (gen_store_time env)
                                             prompt params saved_path)
                  cache1 in
              (Some saved_path,
               with_stats self cache2
                 (count_generated (stats self) (gen_duration env)),
               fs', (ev1 ++ ev2)%list)
            else
              (None, with_stats self cache1 (stats self), fs',
               (ev1 ++ ev2)%list)
        | (Raise _, fs') =>
            (None, with_stats self cache1 (count_error (stats self)), fs',
             (ev1 ++ ev2)%list)
        end
    | Raise _ =>
        (None, with_stats self cache1 (count_error (stats self)), fs,
         (ev1 ++ ev2)%list)
    end.

(** *** [edit_image] *)

Record model_entry : Type := {
  param : string;
  prompt_prefix : string
}.

Definition model_params : list (string * model_entry) :=
  [ ("kontext", {| param := "image"; prompt_prefix := EmptyString |});
    ("flux", {| param := "reference";
                prompt_prefix := "based on reference image, " |});
    ("flux-kontext", {| param := "image"; prompt_prefix := EmptyString |}) ].

(** [model_params[name]], when [name in model_params] *)
Definition model_params_get (name : string) : option model_entry :=
  option_map snd
    (List.find (fun kv => String.eqb (fst kv) name) model_params).

Record method : Type := {
  method_model : string;
  method_param : string;
  method_prompt_prefix : string
}.

Definition methods_to_try (preferred_model : string) : list string :=
  preferred_model
    :: List.filter (fun m => negb (String.eqb m preferred_model))
                   (List.map fst model_params).

Definition methods (preferred_model : string) : list method :=
  flat_map
    (fun model_name =>
       match model_params_get model_name with
       | Some e => [ {| method_model := model_name;
                        method_param := param e;
                        method_prompt_prefix := prompt_prefix e |} ]
       | None => []
       end)
    (methods_to_try preferred_model).

(** What the world supplies to one call of [edit_image]; the things
    asked once per model are indexed by the turn of the loop. *)
Record EditEnv : Type := {
  edit_upload : option string;
  edit_translation : option string;
  edit_draw : nat -> Z;
  edit_server : nat -> nat -> http_outcome;
  edit_timestamp : nat -> string
}.

Definition edit_params (self : t) (m : method) (public_url : string)
           (kwargs : pydict) (draw : Z) : pydict :=
  [ ("model", VStr (method_model m));
    (method_param m, VStr public_url);
    ("seed", Dict.get kwargs "seed"
               (VInt (Random.randint 0 1000000000 draw)));
    ("width", Dict.get kwargs "width" (width (config_manager self)));
    ("height", Dict.get kwargs "height" (height (config_manager self)));
    ("nologo", VBool (negb (add_logo (config_manager self)))) ].

(** the body of the loop over [methods], for the model [m] *)
Definition edit_attempt (self : t) (fs : FS) (public_url : string)
           (translated_prompt : string) (kwargs : pydict) (env : EditEnv)
           (turn : nat) (m : method) : result string * FS * list event :=
  let final_prompt := method_prompt_prefix m ++ translated_prompt in
  let encoded_prompt := Urllib.quote_plus final_prompt in
  let url := BASE_URL ++ encoded_prompt in
  let params := edit_params self m public_url kwargs
                            (edit_draw env turn) in
  let headers := auth_headers self in
  let '(res, ev) := _make_request self url params headers
                                  (edit_server env turn) in
  match res with
  | Return response =>
      let filename :=
        _generate_filename self
          ("edit_" ++ method_model m ++ "_" ++ translated_prompt)
          (edit_timestamp env turn) in
      let '(saved, fs') := _save_image self fs response filename in
      (saved, fs', Attempt (method_model m) :: ev)
  | Raise e => (Raise e, fs, Attempt (method_model m) :: ev)
  end.

(** the loop over [methods]: a success returns at once, a failure is
    caught and the loop goes on; [None] when the loop runs to its end *)
Fixpoint try_methods (self : t) (fs : FS) (public_url : string)
         (translated_prompt : string) (kwargs : pydict) (env : EditEnv)
         (turn : nat) (ms : list method)
  : option string * FS * list event :=
  match ms with
  | [] => (None, fs, [])
  | m :: rest =>
      match edit_attempt self fs public_url translated_prompt kwargs env
                         turn m with
      | (Return saved_path, fs', ev) => (Some saved_path, fs', ev)
      | (Raise _, fs', ev) =>
          let '(r, fs'', tr) :=
            try_methods self fs' public_url translated_prompt kwargs
                        env (S turn) rest in
          (r, fs'', (ev ++ tr)%list)
      end
  end.

Definition edit_image (self : t) (fs : FS) (prompt image_path : string)
           (kwargs : pydict) (env : EditEnv)
  : option string * t * FS * list event :=
  if negb (path_exists fs image_path) then (None, self, fs, [])
  else
    let '(public_url, ev0) :=
      _upload_to_gofile self image_path (edit_upload env) in
    match public_url with
    | Some public_url =>
        if negb (PyStr.truthy public_url) then (None, self, fs, ev0)
        else
          let '(translated_prompt, ev1) :=
            _translate_prompt prompt (edit_translation env) in
          let preferred_model := model_edicion (config_manager self) in
          let '(r, fs', ev2) :=
            try_methods self fs public_url translated_prompt kwargs env
                        0 (methods preferred_model) in
          match r with
          | Some saved_path =>
              (Some saved_path, self, fs', (ev0 ++ ev1 ++ ev2)%list)
          | None =>
              (None,
               with_stats self (cache self) (count_error (stats self)),
               fs', (ev0 ++ ev1 ++ ev2)%list)
          end
    | None => (None, self, fs, ev0)
    end.

(** *** The object over a session *)

(** [ImageTool(config_manager, script_dir)]: [persisted] is the table
    found in the database file, empty when there is none yet. *)
Definition __init__ (config : Config) (persisted : ImageCache.table)
           (fs : FS) (now : ImageCache.local_reading) : t * FS :=
  if enable_cache config then
    let '(c, fs') := ImageCache.__init__ persisted fs now 30 in
    ({| config_manager := config; cache := Some c;
        stats := {| images_generated := 0; cache_hits := 0;
                    total_generation_time := 0; errors := 0 |} |}, fs')
  else
    ({| config_manager := config; cache := None;
        stats := {| images_generated := 0; cache_hits := 0;
                    total_generation_time := 0; errors := 0 |} |}, fs).

(** What can happen to the object after its creation. *)
Inductive call : Type :=
| Generate (prompt : string) (kwargs : pydict) (env : GenEnv)
| Edit (prompt image_path : string) (kwargs : pydict) (env : EditEnv)
| CleanCache (now : ImageCache.local_reading)
                            (* [t.cache.clean_cache(0) if t.cache] *)
| Outside (fs' : FS).       (* files come and go between two calls *)

Definition step (w : t * FS) (c : call) : t * FS :=
  let '(self, fs) := w in
  match c with
  | Generate prompt kwargs env =>
      let '(_, self', fs', _) := generate_image self fs prompt kwargs env in
      (self', fs')
  | Edit prompt image_path kwargs env =>
      let '(_, self', fs', _) :=
        edit_image self fs prompt image_path kwargs env in
      (self', fs')
  | CleanCache now =>
      match cache self with
      | Some c =>
          let r := ImageCache.clean_cache c fs now 0 in
          (with_stats self (Some (ImageCache.cache_after r)) (stats self),
           ImageCache.fs_after r)
      | None => w
      end
  | Outside fs' => (self, fs')
  end.

Definition run (calls : list call) (w : t * FS) : t * FS :=
  fold_left step calls w.

Definition is_generate (c : call) : bool :=
  match c with Generate _ _ _ => true | _ => false end.

(** the number of calls of [generate_image] among [calls] *)
Definition generate_calls (calls : list call) : Z :=
  Z.of_nat (List.length (List.filter is_generate calls)).

End Methods.

(** *** Reading a trace *)

Definition is_get (e : event) : bool :=
  match e with Get _ _ _ => true | _ => false end.

Definition requests_made (tr : list event) : Z :=
  Z.of_nat (List.length (List.filter is_get tr)).

Fixpoint sleeps (tr : list event) : list Z :=
  match tr with
  | [] => []
  | Sleep n :: rest => n :: sleeps rest
  | _ :: rest => sleeps rest
  end.

Fixpoint attempted (tr : list event) : list string :=
  match tr with
  | [] => []
  | Attempt m :: rest => m :: attempted rest
  | _ :: rest => attempted rest
  end.

End ImageTool.

(* ================================================================== *)
(** ** [utils/config_manager.py]: class [ConfigManager] *)

Module ConfigManager.

(** What becomes of the JSON file of the configuration in the cases that
    [_load_config] gets through.  [Missing]: [full_config_path.exists()] is
    false.  [Unreadable]: [open] or the read raises [IOError], or
    [json.load] raises [JSONDecodeError]; these two are what the [except]
    clause catches.  [Loaded]: the file holds a JSON object, here one whose
    values are [null], booleans, integers or strings. *)
Inductive config_file : Type :=
| Missing
| Unreadable
| Loaded (user_config : pydict).

(** What is at the path when the object is made: a file as above, or one
    on which [_load_config] raises, since the [except] clause does not
    catch the exception.  [NotUtf8]: the bytes are not UTF-8, and the read
    raises [UnicodeDecodeError], a [ValueError] that is no
    [JSONDecodeError].  [NotADict]: the JSON is a number, [null] or a
    boolean, and [default_config.update] raises [TypeError].  (A JSON
    string or list is not modelled: [update] takes some of them.) *)
Inductive config_source : Type :=
| Handled (file : config_file)
| NotUtf8
| NotADict.

(** The [ConfigManager] object. *)
Record t : Type := {
  config_path : string;
  script_dir : string;
  config : pydict
}.

Definition default_config : pydict :=
  [ ("width", VInt 1024); ("height", VInt 768); ("model", VStr "flux");
    ("max_retries", VInt 3); ("timeout", VInt 120);
    ("output_dir", VStr "./generated_images"); ("image_format", VStr "PNG");
    ("enable_cache", VBool true); ("batch_size", VInt 5);
    ("model_edicion", VStr "kontext") ].

(** [os.getenv(env_var, default_value)]; [environ] is the environment once
    [load_dotenv] has read the [.env] file *)
Definition _get_env_key (environ : string -> option string)
           (env_var : string) (default_value : value) : value :=
  match environ env_var with
  | Some s => VStr s
  | None => default_value
  end.

(** the method on a file it gets through; on the other files it raises,
    see [__init__] *)
Definition _load_config (file : config_file)
           (environ : string -> option string) : pydict :=
  let default_config :=
    match file with
    | Loaded user_config => Dict.update default_config user_config
    | Unreadable => default_config
    | Missing => default_config
    end in
  let default_config :=
    Dict.set default_config "POLLINATIONS_API_KEY"
      (_get_env_key environ "POLLINATIONS_API_KEY"
         (Dict.get default_config "api_token" VNone)) in
  let default_config :=
    Dict.set default_config "GOFILE_API_TOKEN"
      (_get_env_key environ "GOFILE_API_TOKEN"
         (Dict.get default_config "gofile_api_token" VNone)) in
  let default_config :=
    Dict.set default_config "GOFILE_FOLDER_ID"
      (_get_env_key environ "GOFILE_FOLDER_ID"
         (Dict.get default_config "gofile_folder_id" VNone)) in
  default_config.

(** [bool(v)] *)
Definition truthy (v : value) : bool :=
  match v with
  | VNone => false
  | VBool b => b
  | VInt n => negb (n =? 0)
  | VStr s => PyStr.truthy s
  end.

(** [_log_credential_status], which only writes to the log: [false] when
    it raises.  The line for an API token that is set slices it,
    [api_token[:6]], and that is a [TypeError] when the token is a number
    or [true]; the two tokens of GoFile are only tested. *)
Definition _log_credential_status (config : pydict) : bool :=
  let api_token := Dict.get config "POLLINATIONS_API_KEY" VNone in
  if truthy api_token then
    match api_token with
    | VStr _ => true
    | _ => false
    end
  else true.

(** [ConfigManager(config_path, script_dir)]: there is no object when
    [_load_config] or [_log_credential_status] raises *)
Definition __init__ (config_path script_dir : string)
           (source : config_source) (environ : string -> option string)
  : option t :=
  match source with
  | Handled file =>
      let config := _load_config file environ in
      if _log_credential_status config then
        Some {| config_path := config_path; script_dir := script_dir;
                config := config |}
      else None
  | NotUtf8 => None
  | NotADict => None
  end.

Definition get (self : t) (key : string) (default : value) : value :=
  Dict.get (config self) key default.

(** The settings go into the object first; an error while the file is
    written is caught and logged. *)
Definition save_config {FS : Type} `{Filesystem FS}
           (self : t) (fs : FS) (new_settings : pydict) : t * FS :=
  let full_config_path := path_join (script_dir self) (config_path self) in
  let config := Dict.update (config self) new_settings in
  let '(fs', _) :=
    write_file fs full_config_path
               (PyStr.encode (Json.dumps_indent config)) in
  ({| config_path := config_path self; script_dir := script_dir self;
      config := config |}, fs').

End ConfigManager.

(* ================================================================== *)
(** ** [ui/cli.py]: the callers *)

Module Cli.
Import ImageTool.

(** [handle_generate]; [line] is what [input] returns *)
Definition handle_generate {FS : Type} `{Filesystem FS}
           (image_tool : ImageTool.t) (fs : FS) (line : string) (env : GenEnv)
  : ImageTool.t * FS * list event :=
  let prompt := PyStr.strip line in
  if PyStr.truthy prompt then
    let '(_, image_tool', fs', tr) :=
      generate_image image_tool fs prompt [] env in
    (image_tool', fs', tr)
  else (image_tool, fs, []).

End Cli.

(* ================================================================== *)
(** ** The vocabulary of the properties *)

Module Spec.
Import ImageTool.

(** [needle] occurs in [hay] *)
Definition substring_of (needle hay : string) : Prop :=
  exists pre post, hay = pre ++ needle ++ post.

(** the content type a reply declares; [''] when it declares none *)
Definition declared_content_type (r : Response) : string :=
  match content_type r with
  | Some ct => ct
  | None => EmptyString
  end.

(** the content type passes the test of [_make_request] *)
Definition is_image (content_type : string) : bool :=
  negb (negb (PyStr.contains "image" content_type)
        && negb (PyStr.contains "octet-stream" content_type)).

(** an attempt that is retried: a transport failure, or an [HTTPError]
    whose status is 500 or more (so from 500 to 599) and whose body could
    be read for the log line *)
Definition retryable (o : http_outcome) : bool :=
  match o with
  | RequestException => true
  | Reply r =>
      raise_for_status (status_code r) && (500 <=? status_code r)
      && readable r
  end.

(** [k] failed attempts, each one followed by its sleep *)
Definition retry_rounds (url : string) (params : pydict)
           (headers : list (string * string)) (k : nat) : list event :=
  flat_map
    (fun attempt => [Get url params headers; Sleep (2 ^ Z.of_nat attempt)])
    (seq 0 k).

(** [2^0, ..., 2^(k-1)] *)
Definition powers_of_two (k : nat) : list Z :=
  List.map (fun attempt => 2 ^ Z.of_nat attempt) (seq 0 k).

(** the events of the attempts in [range] when every one of them is
    retried *)
Definition retried (max_retries : Z) (url : string) (params : pydict)
           (headers : list (string * string)) (range : list nat)
  : list event :=
  flat_map
    (fun attempt => Get url params headers :: backoff max_retries attempt)
    range.

(** the order of [sorted] on the items of a dictionary *)
Definition key_le (a b : string * value) : Prop :=
  String.leb (fst a) (fst b) = true.

(** every path in the table is a non-empty string *)
Definition paths_truthy (tb : ImageCache.table) : bool :=
  forallb (fun r => PyStr.truthy (ImageCache.filepath r)) tb.

(** the file system after the first loop of [clean_cache] has gone through
    [rows]: the file of every row that is there is handed to [os.remove] *)
Definition unlink {FS : Type} `{Filesystem FS}
           (rows : ImageCache.table) (fs : FS) : FS :=
  fold_left
    (fun fs r =>
       if path_exists fs (ImageCache.filepath r)
       then fst (os_remove fs (ImageCache.filepath r))
       else fs)
    rows fs.

(** the age limit of a sweep, in days, and the reading of the local clock
    it leads to *)
Definition age_limit (self : ImageCache.t) (days : Z) : Z :=
  if 0 <? days then days else ImageCache.max_age_days self.

Definition cutoff (self : ImageCache.t) (now days : Z) : Z :=
  now - age_limit self days * 86400.

(** the reading in the row is below [limit] *)
Definition older_than (limit : Z) (r : ImageCache.row) : bool :=
  ImageCache.last_accessed r <? limit.

(** what the local clock shows when the UTC clock shows [utc], in a time
    zone that is [utc_offset] seconds ahead of UTC *)
Definition local_clock (utc_offset : Z) (utc : ImageCache.utc_reading)
  : ImageCache.local_reading :=
  utc + utc_offset.

(** the seconds since the row was last used, when the UTC clock shows
    [utc] *)
Definition age (utc : ImageCache.utc_reading) (r : ImageCache.row) : Z :=
  utc - ImageCache.last_accessed r.

(** the row is older than the age limit of the sweep *)
Definition too_old (self : ImageCache.t) (utc : ImageCache.utc_reading)
           (days : Z) (r : ImageCache.row) : bool :=
  age_limit self days * 86400 <? age utc r.

(** the state of the table that the methods keep up: the key is a key and
    no stored path is the empty string *)
Definition table_ok (tb : ImageCache.table) : bool :=
  paths_truthy tb && ImageCache.primary_key_ok tb.

Definition cache_ok (self : ImageTool.t) : bool :=
  match ImageTool.cache self with
  | Some c => table_ok (ImageCache.db c)
  | None => true
  end.

(** the models [edit_image] knows, in the order of [model_params] *)
Definition known_models : list string := List.map fst model_params.






(** the seed that a parameter set carries *)
Definition seed_of (params : pydict) : value := Dict.get params "seed" VNone.

(** the answer of the fetch to a reply that it does not retry *)
Definition settle (r : Response) : result Response :=
  if raise_for_status (status_code r) then
    if readable r then Raise ConnectionError else Raise BodyReadError
  else if is_image (declared_content_type r) then Return r
  else Raise (ValueError (declared_content_type r)).

(** every character of [s] passes [p] *)
Fixpoint all_chars (p : ascii -> bool) (s : string) : bool :=
  match s with
  | EmptyString => true
  | String c rest => p c && all_chars p rest
  end.

(** a lower-case hexadecimal digit *)
Definition hex_char (c : ascii) : bool :=
  let n := PyStr.ord c in
  ((48 <=? n) && (n <=? 57)) || ((97 <=? n) && (n <=? 102)).

(** a character that [quote_plus] lets through or writes *)
Definition url_char (c : ascii) : bool :=
  Urllib.always_safe c || (PyStr.ord c =? 43) || (PyStr.ord c =? 37).

(** a character that can stand in the cleaned prompt of a file name: a word
    character, a hyphen, or white space other than the space *)
Definition filename_char (c : ascii) : bool :=
  keep_in_filename c && negb (PyStr.ord c =? 32).

(** the keys of the table with their paths *)
Definition entries (tb : ImageCache.table) : list (string * string) :=
  List.map (fun r => (ImageCache.prompt_hash r, ImageCache.filepath r)) tb.

(** the keys and the paths the object has in its cache, when it has one *)
Definition cache_entries (self : ImageTool.t)
  : option (list (string * string)) :=
  option_map (fun c => entries (ImageCache.db c)) (ImageTool.cache self).

(** the time slept *)
Definition total (l : list Z) : Z := fold_right Z.add 0 l.

(** the calls that can count an error *)
Definition can_fail {FS : Type} (c : @call FS) : bool :=
  match c with
  | Generate _ _ _ => true
  | Edit _ _ _ _ => true
  | _ => false
  end.

Definition failable_calls {FS : Type} (calls : list (@call FS)) : Z :=
  Z.of_nat (List.length (List.filter can_fail calls)).


(** the object that was read from the file of the configuration; nothing
    when the file is missing, cannot be opened or read, or is not JSON *)
Definition user_config (file : ConfigManager.config_file) : pydict :=
  match file with
  | ConfigManager.Loaded u => u
  | _ => []
  end.



(** a credential: the variable of the environment when it is set, else
    what the file has under [fallback], else [None] *)
Definition credential (file : ConfigManager.config_file)
           (environ : string -> option string) (env_var fallback : string)
  : value :=
  match environ env_var with
  | Some s => VStr s
  | None => Dict.get (user_config file) fallback VNone
  end.

(** the events of a trace that pass [p] *)
Definition count (p : event -> bool) (tr : list event) : Z :=
  Z.of_nat (List.length (List.filter p tr)).

Definition is_translate (e : event) : bool :=
  match e with Translate _ => true | _ => false end.

Definition is_upload (e : event) : bool :=
  match e with Upload _ => true | _ => false end.

(** the calls of the translation service, and the uploads *)
Definition translations (tr : list event) : Z := count is_translate tr.
Definition uploads (tr : list event) : Z := count is_upload tr.

(** the longest one fetch can sleep: [2^0 + ... + 2^(n-2)] *)
Definition sleep_budget (max_retries : Z) : Z :=
  2 ^ (Z.max 1 max_retries - 1) - 1.

(** the keys of [u] that [d] does not have *)
Definition new_keys (d u : pydict) : list string :=
  List.filter (fun k => negb (Dict.has d k)) (Dict.keys u).

End Spec.

(* ================================================================== *)
(** ** Concrete objects for the examples *)

Module Sample.
Import ImageTool.

(** the defaults of [ConfigManager._load_config], with the output directory
    as [pathlib] prints it, GoFile credentials and no API token *)
Definition config : Config :=
  {| width := VInt 1024; height := VInt 768; model := VStr "flux";
     max_retries := 3; timeout := 120;
     output_dir := "generated_images"; image_format := "PNG";
     enable_cache := true; add_logo := true;
     model_edicion := "kontext";
     POLLINATIONS_API_KEY := None;
     GOFILE_API_TOKEN := Some "token"; GOFILE_FOLDER_ID := Some "folder" |}.

Definition no_stats : Stats :=
  {| images_generated := 0; cache_hits := 0; total_generation_time := 0;
     errors := 0 |}.

Definition tool : ImageTool.t :=
  {| config_manager := config;
     cache := Some {| ImageCache.db := []; ImageCache.max_age_days := 30 |};
     stats := no_stats |}.

Definition reply (status : Z) (ct : string) : http_outcome :=
  Reply {| status_code := status; content_type := Some ct; content := [];
           readable := true |}.

Definition url : string := BASE_URL ++ "a+red+fox+in+snow".

Definition day : Z := 86400.

Definition row (h fp : string) (accessed : Z) : ImageCache.row :=
  {| ImageCache.prompt_hash := h; ImageCache.filepath := fp;
     ImageCache.last_accessed := accessed |}.

(** a cache with an old entry, an old entry whose file cannot be removed,
    an entry whose file is gone and an entry in use *)
Definition old_cache : ImageCache.t :=
  {| ImageCache.db :=
       [ row "h-old" "old.png" 0;
         row "h-lost" "lost.png" (40 * day);
         row "h-live" "live.png" (40 * day);
         row "h-locked" "locked.png" 0 ];
     ImageCache.max_age_days := 30 |}.

Definition old_disk : Os.disk :=
  {| Os.files := ["old.png"; "live.png"; "locked.png"];
     Os.locked := ["locked.png"] |}.

(** the string with the given code points *)
Definition latin1 (codes : list Z) : string :=
  string_of_list_ascii (List.map PyStr.chr codes).

(** ['niño'], and twenty times that *)
Definition nino : string := latin1 [110; 105; 241; 111].

Definition ninos : string :=
  String.concat EmptyString (repeat nino 20).

(** a cache with the entry of the fox, in use, and an old entry *)
Definition mixed_cache : ImageCache.t :=
  {| ImageCache.db :=
       [ row "4077e04a0cbed217e5573ad27649b630" "fox.png" (40 * day);
         row "h-old" "old.png" 0 ];
     ImageCache.max_age_days := 30 |}.

Definition mixed_disk : Os.disk :=
  {| Os.files := ["fox.png"; "old.png"]; Os.locked := [] |}.

(** a server that answers every request in the same way *)
Definition always (o : http_outcome) : nat -> http_outcome := fun _ => o.

Definition fox : string := "a red fox in snow".

Definition fox_kwargs : pydict :=
  [("width", VInt 512); ("height", VInt 512); ("model", VStr "flux");
   ("seed", VInt 42)].

Definition empty_disk : Os.disk := {| Os.files := []; Os.locked := [] |}.

(** the service answers with an image *)
Definition env_up : GenEnv :=
  {| gen_draw := 7; gen_lookup_time := 100; gen_translation := None;
     gen_server := always (reply 200 "image/png");
     gen_timestamp := "20240101_120000";
     gen_store_time := 103; gen_duration := 3 |}.

(** an edit during which the first model fails and the second answers *)
Definition edit_env (upload : option string) : EditEnv :=
  {| edit_upload := upload;
     edit_translation := None;
     edit_draw := fun turn => Z.of_nat turn;
     edit_server := fun turn =>
       match turn with
       | O => always (reply 404 "text/html")
       | _ => always (reply 200 "image/png")
       end;
     edit_timestamp := fun _ => "20240101_121000" |}.

(** an edit during which every model answers *)
Definition edit_env_up : EditEnv :=
  {| edit_upload := Some "https://store1.gofile.io/download/x/fox.png";
     edit_translation := None;
     edit_draw := fun turn => Z.of_nat turn;
     edit_server := fun _ => always (reply 200 "image/png");
     edit_timestamp := fun _ => "20240101_121000" |}.


Definition fox_disk : Os.disk :=
  {| Os.files := ["fox.png"]; Os.locked := [] |}.

Definition fox_url : string := "https://store1.gofile.io/download/x/fox.png".

(** the object without the credentials of GoFile *)
Definition bare_tool : ImageTool.t :=
  {| config_manager :=
       {| width := VInt 1024; height := VInt 768; model := VStr "flux";
          max_retries := 3; timeout := 120;
          output_dir := "generated_images"; image_format := "PNG";
          enable_cache := true; add_logo := true;
          model_edicion := "kontext";
          POLLINATIONS_API_KEY := None;
          GOFILE_API_TOKEN := None;
          GOFILE_FOLDER_ID := None |};
     cache := None;
     stats := no_stats |}.

(** the network is down *)
Definition env_down : GenEnv :=
  {| gen_draw := 8; gen_lookup_time := 200; gen_translation := None;
     gen_server := always RequestException;
     gen_timestamp := "20240101_120500";
     gen_store_time := 203; gen_duration := 3 |}.

(** a first call for the fox, on a new cache and an empty disk *)
Definition first_call : option string * ImageTool.t * Os.disk * list event :=
  generate_image tool empty_disk fox fox_kwargs env_up.

Definition fox_path : string :=
  "generated_images/a_red_fox_in_snow_20240101_120000.png".

(** the object and the disk after that call *)
Definition warm_tool : ImageTool.t := snd (fst (fst first_call)).
Definition warm_disk : Os.disk := snd (fst first_call).

Definition warm_cache : ImageCache.t :=
  {| ImageCache.db := [row "4077e04a0cbed217e5573ad27649b630" fox_path 103];
     ImageCache.max_age_days := 30 |}.

(** a server whose first answers are [first] and that fails afterwards *)
Definition answers (first : list http_outcome) : nat -> http_outcome :=
  fun attempt => nth attempt first RequestException.

(** a file of settings with a size, a token and a key of the environment *)
Definition settings_file : ConfigManager.config_file :=
  ConfigManager.Loaded
    [("width", VInt 512); ("api_token", VStr "from-file");
     ("GOFILE_API_TOKEN", VStr "from-file-too")].

(** an environment that only sets the token of GoFile *)
Definition environ (name : string) : option string :=
  if String.eqb name "GOFILE_API_TOKEN" then Some "from-env" else None.

Definition settings : ConfigManager.t :=
  {| ConfigManager.config_path := "config/config.json";
     ConfigManager.script_dir := "/app";
     ConfigManager.config :=
       ConfigManager._load_config settings_file environ |}.

Definition new_settings : pydict :=
  [("model", VStr "turbo"); ("add_logo", VBool false)].

End Sample.

Example md5_empty :
  Hashlib.md5_hexdigest [] = "d41d8cd98f00b204e9800998ecf8427e".
Proof. vm_compute. reflexivity. Qed.

Example md5_abc :
  Hashlib.md5_hexdigest (PyStr.encode "abc")
  = "900150983cd24fb0d6963f7d28e17f72".
Proof. vm_compute. reflexivity. Qed.

Example md5_two_blocks :
  Hashlib.md5_hexdigest (PyStr.encode Sample.ninos)
  = "561928d1d7f8686bd4a143579d86956d".
Proof. vm_compute. reflexivity. Qed.

Example quote_plus_nino :
  Urllib.quote_plus (Sample.nino ++ " +%") = "ni%C3%B1o+%2B%25".
Proof. vm_compute. reflexivity. Qed.

Example dumps_escapes :
  Json.dumps_sorted [("b", VBool true); (Sample.latin1 [97; 10; 241], VNone)]
  = "{" ++ Json.quote ++ "a\n\u00f1" ++ Json.quote ++ ": null, "
    ++ Json.quote ++ "b" ++ Json.quote ++ ": true}".
Proof. vm_compute. reflexivity. Qed.

Example get_hash_fox :
  ImageCache._get_hash "a red fox in snow"
    [("width", VInt 512); ("height", VInt 512); ("model", VStr "flux");
     ("seed", VInt 42); ("nologo", VBool false)]
  = "4077e04a0cbed217e5573ad27649b630".
Proof. vm_compute. reflexivity. Qed.

(* ================================================================== *)
(** ** Strings *)

Section Strings.

Lemma append_empty_r (s : string) : s ++ EmptyString = s.
Proof. induction s as [|c s IH]; simpl; [reflexivity | now rewrite IH]. Qed.


Lemma prefix_iff (p s : string) :
  String.prefix p s = true <-> exists rest, s = p ++ rest.
Proof.
  revert s; induction p as [|c p IH]; intros s.
  - destruct s; simpl; split; intros _; eauto.
  - destruct s as [|d s]; simpl.
    + split; [discriminate | intros [rest Hr]; discriminate].
    + destruct (ascii_dec c d) as [->|Hne].
      * rewrite IH. split; intros [rest Hr]; exists rest.
        -- now rewrite Hr.
        -- now injection Hr.
      * split; [discriminate | intros [rest Hr]; injection Hr; congruence].
Qed.

(** [in] on strings finds exactly the substrings *)
Lemma contains_iff (needle hay : string) :
  PyStr.contains needle hay = true <-> Spec.substring_of needle hay.
Proof.
  unfold Spec.substring_of.
  induction hay as [|c hay IH]; cbn [PyStr.contains].
  - rewrite orb_false_r, prefix_iff. split.
    + intros [rest Hr]. exists EmptyString, rest. exact Hr.
    + intros [pre [post Hp]]. destruct pre; simpl in Hp.
      * now exists post.
      * discriminate.
  - rewrite orb_true_iff, IH. split.
    + intros [Hp | [pre [post Hp]]].
      * apply prefix_iff in Hp. destruct Hp as [rest Hr].
        exists EmptyString, rest. exact Hr.
      * exists (String c pre), post. simpl. now rewrite Hp.
    + intros [pre [post Hp]]. destruct pre as [|d pre]; simpl in Hp.
      * left. apply prefix_iff. now exists post.
      * right. injection Hp as _ Hp. now exists pre, post.
Qed.

Lemma contains_false (needle hay : string) :
  ~ Spec.substring_of needle hay -> PyStr.contains needle hay = false.
Proof.
  intros Hn. destruct (PyStr.contains needle hay) eqn:E; [|reflexivity].
  apply contains_iff in E. contradiction.
Qed.

End Strings.

(* ================================================================== *)
(** ** The retry client: [_make_request] *)

(** the requests of a short explicit trace *)
Ltac count_requests :=
  unfold ImageTool.requests_made;
  cbn [List.filter ImageTool.is_get List.length]; lia.

(** the two ways the test of the content type can go *)
Ltac content_type_cases E :=
  match goal with
  | |- context [if negb ?a && negb ?b then _ else _] =>
      destruct (negb a && negb b) eqn:E
  end.

Section RetryClient.
Import ImageTool.
Variable max_retries : Z.
Variable url : string.
Variable params : pydict.
Variable headers : list (string * string).
Variable server : nat -> http_outcome.

Let loop := attempts max_retries url params headers server.
Let get := Get url params headers.

Let retried := Spec.retried max_retries url params headers.

Lemma attempts_retried (pre rest : list nat) :
  (forall a, In a pre -> Spec.retryable (server a) = true) ->
  loop (pre ++ rest)%list
  = (fst (loop rest), (retried pre ++ snd (loop rest))%list).
Proof.
  induction pre as [|a pre IH]; intros Hall.
  - simpl. now destruct (loop rest).
  - assert (Ha : Spec.retryable (server a) = true) by (apply Hall; now left).
    assert (IH' := IH (fun b Hb => Hall b (or_intror Hb))).
    unfold loop in *. simpl.
    destruct (server a) as [r|]; simpl in Ha.
    + apply andb_true_iff in Ha. destruct Ha as [Ha Hread].
      apply andb_true_iff in Ha. destruct Ha as [Hraise H500].
      rewrite Hraise, Hread. cbn [negb].
      apply Z.leb_le in H500.
      destruct (status_code r <? 500) eqn:Hlt; [apply Z.ltb_lt in Hlt; lia|].
      rewrite IH'. simpl. now rewrite <- app_assoc.
    + rewrite IH'. simpl. now rewrite <- app_assoc.
Qed.

Lemma retried_rounds (k : nat) :
  Z.of_nat k <= max_retries - 1 ->
  retried (seq 0 k) = Spec.retry_rounds url params headers k.
Proof.
  intros Hk. unfold retried, Spec.retried, Spec.retry_rounds.
  rewrite !flat_map_concat_map. f_equal.
  apply map_ext_in. intros a Ha. apply in_seq in Ha.
  unfold backoff.
  destruct (Z.of_nat a <? max_retries - 1) eqn:E; [reflexivity|].
  apply Z.ltb_ge in E. lia.
Qed.

Lemma requests_made_app (t1 t2 : list event) :
  requests_made (t1 ++ t2) = requests_made t1 + requests_made t2.
Proof.
  unfold requests_made. rewrite filter_app, length_app. lia.
Qed.

Lemma sleeps_app (t1 t2 : list event) :
  sleeps (t1 ++ t2) = (sleeps t1 ++ sleeps t2)%list.
Proof.
  induction t1 as [|e t1 IH]; simpl; [reflexivity|].
  destruct e; simpl; now rewrite IH.
Qed.

Lemma requests_made_rounds (k : nat) :
  requests_made (Spec.retry_rounds url params headers k) = Z.of_nat k.
Proof.
  unfold Spec.retry_rounds. generalize 0%nat as start.
  induction k as [|k IH]; intros start; [reflexivity|].
  cbn [seq flat_map]. rewrite requests_made_app, IH.
  count_requests.
Qed.

Lemma sleeps_rounds (k : nat) :
  sleeps (Spec.retry_rounds url params headers k) = Spec.powers_of_two k.
Proof.
  unfold Spec.retry_rounds, Spec.powers_of_two. generalize 0%nat as start.
  induction k as [|k IH]; intros start; [reflexivity|].
  cbn [seq flat_map List.map]. rewrite sleeps_app, IH. reflexivity.
Qed.

(** The loop up to a first attempt [k] that is not retried. *)
Lemma loop_upto (k : nat) :
  Z.of_nat k < max_retries ->
  (forall a, (a < k)%nat -> Spec.retryable (server a) = true) ->
  make_request_loop max_retries url params headers server
  = (fst (loop (seq k (Z.to_nat max_retries - k))),
     (Spec.retry_rounds url params headers k
        ++ snd (loop (seq k (Z.to_nat max_retries - k))))%list).
Proof.
  intros Hk Hall. unfold make_request_loop.
  replace (Z.to_nat max_retries) with (k + (Z.to_nat max_retries - k))%nat
    at 1 by lia.
  rewrite seq_app. fold loop.
  rewrite attempts_retried.
  - rewrite retried_rounds by lia. reflexivity.
  - intros a Ha. apply in_seq in Ha. apply Hall. lia.
Qed.

Lemma seq_next (k : nat) :
  Z.of_nat k < max_retries ->
  seq k (Z.to_nat max_retries - k)
  = k :: seq (S k) (Z.to_nat max_retries - S k).
Proof.
  intros Hk.
  replace (Z.to_nat max_retries - k)%nat
    with (S (Z.to_nat max_retries - S k)) by lia.
  reflexivity.
Qed.

(** A reply at attempt [k] that is not retried ends the fetch there: one
    request for it, no sleep and no request after it. *)
Lemma loop_stops (k : nat) (r : Response) :
  Z.of_nat k < max_retries ->
  (forall a, (a < k)%nat -> Spec.retryable (server a) = true) ->
  server k = Reply r ->
  status_code r < 500 \/ raise_for_status (status_code r) = false ->
  make_request_loop max_retries url params headers server
  = (Spec.settle r, (Spec.retry_rounds url params headers k ++ [get])%list).
Proof.
  intros Hk Hall Hr Hstop.
  rewrite (loop_upto k Hk Hall), (seq_next k Hk).
  unfold loop. cbn [attempts]. rewrite Hr.
  unfold Spec.settle, Spec.declared_content_type, Spec.is_image.
  destruct (raise_for_status (status_code r)) eqn:Hraise.
  - destruct (readable r); cbn [negb]; [|reflexivity].
    destruct Hstop as [Hlt | Hno]; [|discriminate].
    apply Z.ltb_lt in Hlt. rewrite Hlt. reflexivity.
  - destruct (content_type r) as [ct|]; content_type_cases E; reflexivity.
Qed.

(** So does an error reply whose body cannot be read, whatever its
    status: the exception of the read leaves the fetch. *)
Lemma loop_escapes (k : nat) (r : Response) :
  Z.of_nat k < max_retries ->
  (forall a, (a < k)%nat -> Spec.retryable (server a) = true) ->
  server k = Reply r ->
  raise_for_status (status_code r) = true ->
  readable r = false ->
  make_request_loop max_retries url params headers server
  = (Raise BodyReadError,
     (Spec.retry_rounds url params headers k ++ [get])%list).
Proof.
  intros Hk Hall Hr Hraise Hread.
  rewrite (loop_upto k Hk Hall), (seq_next k Hk).
  unfold loop. cbn [attempts]. rewrite Hr, Hraise, Hread. reflexivity.
Qed.

(** When every attempt is retried the loop runs to its end. *)
Lemma loop_exhausted :
  (forall a, Z.of_nat a < max_retries -> Spec.retryable (server a) = true) ->
  make_request_loop max_retries url params headers server
  = (Raise ConnectionError, retried (seq 0 (Z.to_nat max_retries))).
Proof.
  intros Hall. unfold make_request_loop.
  rewrite <- (app_nil_r (seq 0 (Z.to_nat max_retries))) at 1.
  fold loop. rewrite attempts_retried.
  - unfold loop. simpl. now rewrite app_nil_r.
  - intros a Ha. apply in_seq in Ha. apply Hall. lia.
Qed.

Lemma retried_last (n : nat) :
  Z.of_nat (S n) = max_retries ->
  retried (seq 0 (S n))
  = (Spec.retry_rounds url params headers n ++ [get])%list.
Proof.
  intros Hn. rewrite seq_S. unfold retried, Spec.retried.
  rewrite flat_map_app. fold (Spec.retried max_retries url params headers).
  fold retried. rewrite retried_rounds by lia.
  cbn [flat_map Nat.add]. unfold backoff.
  destruct (Z.of_nat n <? max_retries - 1) eqn:E.
  - apply Z.ltb_lt in E. lia.
  - now rewrite app_nil_r.
Qed.

(** A response that the fetch returns has passed the test of its content
    type. *)
Lemma returned_is_image (range : list nat) (r : Response) :
  fst (loop range) = Return r ->
  Spec.is_image (Spec.declared_content_type r) = true.
Proof.
  unfold loop. induction range as [|a range IH]; cbn [attempts].
  - discriminate.
  - destruct (server a) as [r'|].
    + destruct (raise_for_status (status_code r')).
      * destruct (readable r'); cbn [negb]; [|discriminate].
        destruct (status_code r' <? 500); [discriminate|].
        destruct (attempts _ _ _ _ _ range). exact IH.
      * unfold Spec.is_image, Spec.declared_content_type.
        destruct (content_type r') as [ct|] eqn:Hct;
          content_type_cases E; cbn [fst]; try discriminate;
          intros Heq; injection Heq as <-; rewrite Hct, E; reflexivity.
    + destruct (attempts _ _ _ _ _ range). exact IH.
Qed.

End RetryClient.

Section RetryClientClaims.
Import ImageTool.

(** C3, as the code has it.  When every attempt is retried, that is, fails
    with a transport failure or with an HTTP error of status 500 to 599
    whose body could be read for the log line, the fetch makes exactly
    [max_retries] requests, sleeps [2^attempt] after each failed attempt but
    the last, and then fails with the connection error. *)
Theorem retry_backoff_schedule
        (self : ImageTool.t) (url : string) (params : pydict)
        (headers : list (string * string)) (server : nat -> http_outcome) :
  0 <= max_retries (config_manager self) ->
  (forall attempt, Z.of_nat attempt < max_retries (config_manager self) ->
                   Spec.retryable (server attempt) = true) ->
  exists tr,
    _make_request self url params headers server = (Raise ConnectionError, tr)
    /\ requests_made tr = max_retries (config_manager self)
    /\ sleeps tr
       = Spec.powers_of_two (Z.to_nat (max_retries (config_manager self)) - 1)
    /\ (0 < max_retries (config_manager self) ->
        tr = (Spec.retry_rounds url params headers
                (Z.to_nat (max_retries (config_manager self)) - 1)
              ++ [Get url params headers])%list).
Proof.
  intros Hpos Hall. unfold _make_request.
  rewrite (loop_exhausted _ url params headers server Hall).
  eexists; split; [reflexivity|].
  destruct (Z.to_nat (max_retries (config_manager self))) as [|n] eqn:En.
  - split; [|split].
    + unfold requests_made; simpl; lia.
    + reflexivity.
    + lia.
  - rewrite (retried_last _ url params headers n) by lia.
    rewrite requests_made_app, requests_made_rounds, sleeps_app, sleeps_rounds.
    replace (S n - 1)%nat with n by lia.
    split; [|split].
    + count_requests.
    + cbn [sleeps]. now rewrite app_nil_r.
    + reflexivity.
Qed.

Lemma retry_backoff_schedule_witness :
  exists tr,
    _make_request Sample.tool Sample.url [] []
                  (Sample.always (Sample.reply 503 "text/html"))
    = (Raise ConnectionError, tr)
    /\ requests_made tr = 3
    /\ sleeps tr = [2 ^ 0; 2 ^ 1]
    /\ (0 < 3 ->
        tr = [Get Sample.url [] []; Sleep 1;
              Get Sample.url [] []; Sleep 2;
              Get Sample.url [] []]).
Proof.
  apply (retry_backoff_schedule Sample.tool Sample.url [] []
           (Sample.always (Sample.reply 503 "text/html"))).
  - simpl. lia.
  - intros attempt _. reflexivity.
Defined.

(** C3 as it is worded does not hold.  A status of 600 is 500 or more, but
    [raise_for_status] raises for the statuses from 400 to 599 only: the
    reply is settled after one request, here with the validation error.
    And a 503 whose body cannot be read for the log line ends the fetch
    after one request as well, with the exception of the read. *)
Lemma status_500_or_more_not_retried :
  let r600 := {| status_code := 600; content_type := Some "text/html";
                 content := []; readable := true |} in
  let r503 := {| status_code := 503; content_type := Some "text/html";
                 content := []; readable := false |} in
  max_retries (config_manager Sample.tool) = 3
  /\ 500 <= status_code r600
  /\ _make_request Sample.tool Sample.url [] [] (Sample.always (Reply r600))
     = (Raise (ValueError "text/html"), [Get Sample.url [] []])
  /\ 500 <= status_code r503
  /\ _make_request Sample.tool Sample.url [] [] (Sample.always (Reply r503))
     = (Raise BodyReadError, [Get Sample.url [] []]).
Proof.
  cbv zeta. split; [reflexivity|]. split; [simpl; lia|].
  split; [reflexivity|]. split; [simpl; lia | reflexivity].
Qed.

(** C4, as the code has it.  A reply whose status is below 500 and not 2xx
    costs exactly one request from that point on: no sleep follows it and
    the remaining attempts are not made.  When the status is a 4xx one the
    fetch aborts there: it fails and returns no response.  A 1xx or 3xx
    status is no error for [raise_for_status], and the reply is then
    settled as a 2xx one is. *)
Theorem non_retryable_short_circuit
        (self : ImageTool.t) (url : string) (params : pydict)
        (headers : list (string * string)) (server : nat -> http_outcome)
        (k : nat) (r : Response) :
  Z.of_nat k < max_retries (config_manager self) ->
  (forall a, (a < k)%nat -> Spec.retryable (server a) = true) ->
  server k = Reply r ->
  status_code r < 500 ->
  ~ (200 <= status_code r < 300) ->
  exists res tr,
    _make_request self url params headers server = (res, tr)
    /\ tr = (Spec.retry_rounds url params headers k
             ++ [Get url params headers])%list
    /\ requests_made tr = Z.of_nat k + 1
    /\ sleeps tr = Spec.powers_of_two k
    /\ (400 <= status_code r -> exists e, res = Raise e)
    /\ (status_code r < 400 ->
        res = if Spec.is_image (Spec.declared_content_type r)
              then Return r
              else Raise (ValueError (Spec.declared_content_type r))).
Proof.
  intros Hk Hall Hr Hlt _. unfold _make_request.
  rewrite (loop_stops _ url params headers server k r Hk Hall Hr
             (or_introl Hlt)).
  do 2 eexists; split; [reflexivity|]. split; [reflexivity|].
  rewrite requests_made_app, requests_made_rounds, sleeps_app, sleeps_rounds.
  split; [|split; [|split]].
  - count_requests.
  - cbn [sleeps]. now rewrite app_nil_r.
  - intros H400. unfold Spec.settle, raise_for_status.
    destruct (400 <=? status_code r) eqn:E1; [|apply Z.leb_gt in E1; lia].
    destruct (status_code r <? 600) eqn:E2; [|apply Z.ltb_ge in E2; lia].
    cbn [andb]. destruct (readable r); eexists; reflexivity.
  - intros H400. unfold Spec.settle, raise_for_status.
    destruct (400 <=? status_code r) eqn:E1; [apply Z.leb_le in E1; lia|].
    reflexivity.
Qed.

Lemma non_retryable_short_circuit_witness :
  exists res tr,
    _make_request Sample.tool Sample.url [] []
                  (Sample.always (Sample.reply 404 "text/html"))
    = (res, tr)
    /\ tr = [Get Sample.url [] []]
    /\ requests_made tr = 1
    /\ sleeps tr = []
    /\ (400 <= 404 -> exists e, res = Raise e)
    /\ (404 < 400 ->
        res = if Spec.is_image "text/html"
              then Return {| status_code := 404;
                             content_type := Some "text/html";
                             content := []; readable := true |}
              else Raise (ValueError "text/html")).
Proof.
  apply (non_retryable_short_circuit Sample.tool Sample.url [] []
           (Sample.always (Sample.reply 404 "text/html")) 0
           {| status_code := 404; content_type := Some "text/html";
              content := []; readable := true |}).
  - simpl. lia.
  - intros a Ha. lia.
  - reflexivity.
  - simpl. lia.
  - simpl. lia.
Defined.

(** C4 as it is worded does not hold: a 304 reply that declares an image is
    a non-2xx reply with a status below 500, and the fetch does not abort
    on it, it returns the reply as its result. *)
Lemma non_2xx_reply_returned :
  let r := {| status_code := 304; content_type := Some "image/png";
              content := []; readable := true |} in
  ~ (200 <= status_code r < 300)
  /\ status_code r < 500
  /\ _make_request Sample.tool Sample.url [] [] (Sample.always (Reply r))
     = (Return r, [Get Sample.url [] []]).
Proof.
  cbv zeta. split; [simpl; lia|]. split; [simpl; lia|]. reflexivity.
Qed.

Lemma settle_invalid (r : Response) :
  raise_for_status (status_code r) = false ->
  ~ Spec.substring_of "image" (Spec.declared_content_type r) ->
  ~ Spec.substring_of "octet-stream" (Spec.declared_content_type r) ->
  Spec.settle r = Raise (ValueError (Spec.declared_content_type r)).
Proof.
  intros Hok Hi Ho. unfold Spec.settle, Spec.is_image.
  rewrite Hok, (contains_false _ _ Hi), (contains_false _ _ Ho). reflexivity.
Qed.

Lemma status_2xx_passes (status : Z) :
  200 <= status < 300 -> raise_for_status status = false.
Proof.
  intros H2. unfold raise_for_status.
  destruct (400 <=? status) eqn:E; [apply Z.leb_le in E; lia | reflexivity].
Qed.

(** C5.  A 2xx reply whose declared content type contains neither "image"
    nor "octet-stream" makes the fetch fail with the validation error, which
    is not the connection error; and no response that fails this test is
    ever the result of a fetch. *)
Theorem content_type_guard
        (self : ImageTool.t) (url : string) (params : pydict)
        (headers : list (string * string)) (server : nat -> http_outcome)
        (k : nat) (r : Response) :
  Z.of_nat k < max_retries (config_manager self) ->
  (forall a, (a < k)%nat -> Spec.retryable (server a) = true) ->
  server k = Reply r ->
  200 <= status_code r < 300 ->
  ~ Spec.substring_of "image" (Spec.declared_content_type r) ->
  ~ Spec.substring_of "octet-stream" (Spec.declared_content_type r) ->
  fst (_make_request self url params headers server)
  = Raise (ValueError (Spec.declared_content_type r))
  /\ ValueError (Spec.declared_content_type r) <> ConnectionError
  /\ (forall r', fst (_make_request self url params headers server)
                 <> Return r')
  /\ (forall server' r',
        fst (_make_request self url params headers server') = Return r' ->
        Spec.substring_of "image" (Spec.declared_content_type r')
        \/ Spec.substring_of "octet-stream" (Spec.declared_content_type r')).
Proof.
  intros Hk Hall Hr H2 Hi Ho. unfold _make_request.
  rewrite (loop_stops _ url params headers server k r Hk Hall Hr
             (or_intror (status_2xx_passes _ H2))).
  cbn [fst]. rewrite (settle_invalid r (status_2xx_passes _ H2) Hi Ho).
  split; [reflexivity|]. split; [discriminate|]. split; [discriminate|].
  intros server' r' Hret.
  apply returned_is_image in Hret. unfold Spec.is_image in Hret.
  apply negb_true_iff, andb_false_iff in Hret.
  destruct Hret as [H|H]; apply negb_false_iff, contains_iff in H; auto.
Qed.

Lemma text_html_is_no_image :
  ~ Spec.substring_of "image" "text/html"
  /\ ~ Spec.substring_of "octet-stream" "text/html".
Proof.
  split; intros H; apply contains_iff in H; discriminate.
Qed.

Lemma content_type_guard_witness :
  fst (_make_request Sample.tool Sample.url [] []
         (Sample.always (Sample.reply 200 "text/html")))
  = Raise (ValueError "text/html")
  /\ ValueError "text/html" <> ConnectionError
  /\ (forall r', fst (_make_request Sample.tool Sample.url [] []
                        (Sample.always (Sample.reply 200 "text/html")))
                 <> Return r')
  /\ (forall server' r',
        fst (_make_request Sample.tool Sample.url [] [] server') = Return r' ->
        Spec.substring_of "image" (Spec.declared_content_type r')
        \/ Spec.substring_of "octet-stream" (Spec.declared_content_type r')).
Proof.
  apply (content_type_guard Sample.tool Sample.url [] []
           (Sample.always (Sample.reply 200 "text/html")) 0
           {| status_code := 200; content_type := Some "text/html";
              content := []; readable := true |}).
  - simpl. lia.
  - intros a Ha. lia.
  - reflexivity.
  - simpl. lia.
  - exact (proj1 text_html_is_no_image).
  - exact (proj2 text_html_is_no_image).
Defined.

(** C10.  The validation error is never retried: it leaves the fetch on the
    attempt where the offending 2xx reply arrives, with no sleep after that
    request and with the attempts that remain unused, whatever
    [max_retries] is. *)
Theorem validation_error_not_retried
        (self : ImageTool.t) (url : string) (params : pydict)
        (headers : list (string * string)) (server : nat -> http_outcome)
        (k : nat) (r : Response) :
  Z.of_nat k < max_retries (config_manager self) ->
  (forall a, (a < k)%nat -> Spec.retryable (server a) = true) ->
  server k = Reply r ->
  200 <= status_code r < 300 ->
  ~ Spec.substring_of "image" (Spec.declared_content_type r) ->
  ~ Spec.substring_of "octet-stream" (Spec.declared_content_type r) ->
  exists tr,
    _make_request self url params headers server
    = (Raise (ValueError (Spec.declared_content_type r)), tr)
    /\ tr = (Spec.retry_rounds url params headers k
             ++ [Get url params headers])%list
    /\ requests_made tr = Z.of_nat k + 1
    /\ sleeps tr = Spec.powers_of_two k.
Proof.
  intros Hk Hall Hr H2 Hi Ho. unfold _make_request.
  rewrite (loop_stops _ url params headers server k r Hk Hall Hr
             (or_intror (status_2xx_passes _ H2))).
  rewrite (settle_invalid r (status_2xx_passes _ H2) Hi Ho).
  eexists; split; [reflexivity|]. split; [reflexivity|].
  rewrite requests_made_app, requests_made_rounds, sleeps_app, sleeps_rounds.
  split.
  - count_requests.
  - cbn [sleeps]. now rewrite app_nil_r.
Qed.

Lemma validation_error_not_retried_witness :
  exists tr,
    _make_request Sample.tool Sample.url [] []
      (Sample.answers [Sample.reply 503 "text/html";
                       Sample.reply 200 "text/html"])
    = (Raise (ValueError "text/html"), tr)
    /\ tr = [Get Sample.url [] []; Sleep 1; Get Sample.url [] []]
    /\ requests_made tr = 2
    /\ sleeps tr = [1].
Proof.
  apply (validation_error_not_retried Sample.tool Sample.url [] []
           (Sample.answers [Sample.reply 503 "text/html";
                            Sample.reply 200 "text/html"]) 1
           {| status_code := 200; content_type := Some "text/html";
              content := []; readable := true |}).
  - simpl. lia.
  - intros a Ha. assert (a = 0%nat) as -> by lia. reflexivity.
  - reflexivity.
  - simpl. lia.
  - exact (proj1 text_html_is_no_image).
  - exact (proj2 text_html_is_no_image).
Defined.

End RetryClientClaims.

(* ================================================================== *)
(** ** The cache key: [_get_hash] *)

Section CacheKey.

Import Spec.

Lemma leb_cases (a b : string) :
  String.leb a b = true <-> a = b \/ String_as_OT.lt a b.
Proof.
  unfold String.leb. destruct (String.compare a b) eqn:E.
  - apply String.compare_eq_iff in E. tauto.
  - apply String_as_OT.cmp_lt in E. tauto.
  - split; [discriminate|]. intros [-> | Hlt].
    + assert (String.compare b b = Eq) by now apply String_as_OT.cmp_eq.
      congruence.
    + apply String_as_OT.cmp_lt in Hlt. unfold String_as_OT.cmp in Hlt.
      congruence.
Qed.

Lemma leb_trans (a b c : string) :
  String.leb a b = true -> String.leb b c = true -> String.leb a c = true.
Proof.
  rewrite !leb_cases. intros [-> | Hab] [-> | Hbc]; auto.
  right. eapply String_as_OT.lt_trans; eassumption.
Qed.

Lemma insert_perm (kv : string * value) (l : pydict) :
  Permutation (Json.insert kv l) (kv :: l).
Proof.
  induction l as [|kv' l IH]; simpl; [reflexivity|].
  destruct (String.leb (fst kv) (fst kv')); [reflexivity|].
  rewrite IH. apply perm_swap.
Qed.

Lemma sort_items_perm (d : pydict) : Permutation (Json.sort_items d) d.
Proof.
  induction d as [|kv d IH]; simpl; [reflexivity|].
  rewrite insert_perm. now apply perm_skip.
Qed.

Lemma insert_sorted (kv : string * value) (l : pydict) :
  StronglySorted key_le l -> StronglySorted key_le (Json.insert kv l).
Proof.
  induction 1 as [|kv' l Hs IH Hall]; simpl.
  - repeat constructor.
  - destruct (String.leb (fst kv) (fst kv')) eqn:E.
    + constructor; [now constructor|].
      constructor; [exact E|].
      eapply Forall_impl; [|exact Hall].
      intros x Hx. unfold key_le in *. eapply leb_trans; eassumption.
    + constructor; [exact IH|].
      eapply Permutation_Forall; [symmetry; apply insert_perm|].
      constructor; [|exact Hall].
      destruct (String.leb_total (fst kv) (fst kv')) as [H|H]; [congruence|].
      exact H.
Qed.

Lemma sort_items_sorted (d : pydict) :
  StronglySorted key_le (Json.sort_items d).
Proof.
  induction d as [|kv d IH]; simpl; [constructor | now apply insert_sorted].
Qed.

Lemma distinct_NoDup (ks : list string) :
  Dict.distinct ks = true <-> NoDup ks.
Proof.
  induction ks as [|k ks IH]; simpl.
  - split; [constructor | reflexivity].
  - rewrite andb_true_iff, negb_true_iff, IH, NoDup_cons_iff.
    assert (existsb (String.eqb k) ks = false <-> ~ In k ks) as ->; [|tauto].
    rewrite <- not_true_iff_false, existsb_exists. split.
    + intros Hn Hin. apply Hn. exists k.
      split; [exact Hin | apply String.eqb_refl].
    + intros Hn [x [Hin Heq]]. apply String.eqb_eq in Heq. now subst.
Qed.

Lemma same_key_same_item (l : pydict) (a b : string * value) :
  NoDup (Dict.keys l) -> In a l -> In b l -> fst a = fst b -> a = b.
Proof.
  unfold Dict.keys.
  induction l as [|x l IH]; simpl; intros Hnd Ha Hb Hk; [contradiction|].
  apply NoDup_cons_iff in Hnd. destruct Hnd as [Hx Hnd].
  destruct Ha as [-> | Ha], Hb as [-> | Hb]; auto.
  - exfalso. apply Hx. rewrite Hk. now apply in_map.
  - exfalso. apply Hx. rewrite <- Hk. now apply in_map.
Qed.

(** Two sorted dictionaries with the same items are the same list. *)
Lemma sorted_unique (l1 : pydict) :
  forall l2,
    StronglySorted key_le l1 -> StronglySorted key_le l2 ->
    NoDup (Dict.keys l1) -> Permutation l1 l2 -> l1 = l2.
Proof.
  induction l1 as [|a l1 IH]; intros l2 S1 S2 Hnd Hp.
  - apply Permutation_nil in Hp. now subst.
  - destruct l2 as [|b l2].
    + apply Permutation_sym, Permutation_nil in Hp. discriminate.
    + assert (a = b) as <-.
      { assert (Ha : In a (b :: l2))
          by (eapply Permutation_in; [exact Hp | now left]).
        assert (Hb : In b (a :: l1))
          by (eapply Permutation_in; [symmetry; exact Hp | now left]).
        destruct Ha as [Ha | Ha]; [now subst|].
        destruct Hb as [Hb | Hb]; [now subst|].
        apply StronglySorted_inv in S1, S2.
        destruct S1 as [_ F1], S2 as [_ F2].
        rewrite Forall_forall in F1, F2.
        apply (same_key_same_item (a :: l1)); simpl; auto.
        apply String.leb_antisym; [apply F1, Hb | apply F2, Ha]. }
      f_equal. apply IH.
      * now apply StronglySorted_inv in S1.
      * now apply StronglySorted_inv in S2.
      * unfold Dict.keys in *. simpl in Hnd. now apply NoDup_cons_iff in Hnd.
      * eapply Permutation_cons_inv; exact Hp.
Qed.

Lemma sort_items_canonical (A B : pydict) :
  Dict.distinct (Dict.keys A) = true ->
  Permutation A B ->
  Json.sort_items A = Json.sort_items B.
Proof.
  intros Hd Hp. apply sorted_unique; try apply sort_items_sorted.
  - apply distinct_NoDup in Hd. unfold Dict.keys in *.
    eapply Permutation_NoDup; [|exact Hd].
    apply Permutation_map. symmetry. apply sort_items_perm.
  - rewrite sort_items_perm, Hp. symmetry. apply sort_items_perm.
Qed.

(** C2.  Two parameter dictionaries with the same key-value pairs in a
    different insertion order give the same hash for every prompt: the hash
    is the digest of the prompt and of the serialization of the parameters
    with their keys sorted. *)
Theorem hash_key_ignores_insertion_order (P : string) (A B : pydict) :
  Dict.distinct (Dict.keys A) = true ->
  Permutation A B ->
  ImageCache._get_hash P A = ImageCache._get_hash P B
  /\ Json.dumps_sorted A = Json.dumps_sorted B
  /\ ImageCache._get_hash P A
     = Hashlib.md5_hexdigest (PyStr.encode (P ++ "_" ++ Json.dumps_sorted A)).
Proof.
  intros Hd Hp.
  assert (Hs : Json.dumps_sorted A = Json.dumps_sorted B)
    by (unfold Json.dumps_sorted; now rewrite (sort_items_canonical A B Hd Hp)).
  unfold ImageCache._get_hash. rewrite Hs. auto.
Qed.

Lemma hash_key_ignores_insertion_order_witness :
  ImageCache._get_hash "a red fox in snow"
    [("width", VInt 512); ("height", VInt 512); ("model", VStr "flux");
     ("seed", VInt 42)]
  = ImageCache._get_hash "a red fox in snow"
      [("seed", VInt 42); ("model", VStr "flux"); ("width", VInt 512);
       ("height", VInt 512)]
  /\ Json.dumps_sorted
       [("width", VInt 512); ("height", VInt 512); ("model", VStr "flux");
        ("seed", VInt 42)]
     = Json.dumps_sorted
         [("seed", VInt 42); ("model", VStr "flux"); ("width", VInt 512);
          ("height", VInt 512)]
  /\ ImageCache._get_hash "a red fox in snow"
       [("width", VInt 512); ("height", VInt 512); ("model", VStr "flux");
        ("seed", VInt 42)]
     = Hashlib.md5_hexdigest
         (PyStr.encode
            ("a red fox in snow" ++ "_"
             ++ Json.dumps_sorted
                  [("width", VInt 512); ("height", VInt 512);
                   ("model", VStr "flux"); ("seed", VInt 42)])).
Proof.
  apply (hash_key_ignores_insertion_order "a red fox in snow"
           [("width", VInt 512); ("height", VInt 512); ("model", VStr "flux");
            ("seed", VInt 42)]
           [("seed", VInt 42); ("model", VStr "flux"); ("width", VInt 512);
            ("height", VInt 512)]).
  - reflexivity.
  - apply Permutation_sym.
    apply (Permutation_cons_app
             [("width", VInt 512); ("height", VInt 512); ("model", VStr "flux")]
             [] ("seed", VInt 42)).
    apply (Permutation_cons_app
             [("width", VInt 512); ("height", VInt 512)] []
             ("model", VStr "flux")).
    reflexivity.
Defined.

End CacheKey.

(* ================================================================== *)
(** ** The seed *)

Section Seed.
Import ImageTool.

Lemma randint_bounds (a b draw : Z) :
  a <= b -> a <= Random.randint a b draw <= b.
Proof.
  intros Hab. unfold Random.randint, Random.randbelow.
  pose proof (Z.mod_pos_bound draw (b - a + 1)). lia.
Qed.

Lemma randint_onto (a b n : Z) :
  a <= n <= b -> Random.randint a b (n - a) = n.
Proof.
  intros Hn. unfold Random.randint, Random.randbelow.
  rewrite Z.mod_small by lia. lia.
Qed.

Lemma get_absent (d : pydict) (key : string) (default : value) :
  Dict.has d key = false -> Dict.get d key default = default.
Proof.
  unfold Dict.has, Dict.keys.
  induction d as [|[k v] d IH]; simpl; [reflexivity|].
  intros Hno. apply orb_false_iff in Hno. destruct Hno as [Hk Hd].
  rewrite Hk. now apply IH.
Qed.

(** C7, as the code has it.  Without a seed among the overrides the seed of
    [generate_image], and of each attempt of [edit_image], is
    [random.randint(0, 1_000_000_000)]: an integer [s] with
    [0 <= s <= 1_000_000_000], both ends included, and every such integer
    is the seed for some draw. *)
Theorem seed_range (self : ImageTool.t) (kwargs : pydict) (draw : Z)
        (m : method) (public_url : string) :
  Dict.has kwargs "seed" = false ->
  exists s,
    nth_error (generate_params self kwargs draw) 3 = Some ("seed", VInt s)
    /\ nth_error (edit_params self m public_url kwargs draw) 2
       = Some ("seed", VInt s)
    /\ 0 <= s <= 1000000000
    /\ (forall n, 0 <= n <= 1000000000 ->
                  nth_error (generate_params self kwargs n) 3
                  = Some ("seed", VInt n)
                  /\ nth_error (edit_params self m public_url kwargs n) 2
                     = Some ("seed", VInt n)).
Proof.
  intros Hno. exists (Random.randint 0 1000000000 draw).
  unfold generate_params, edit_params. cbn [nth_error].
  rewrite !(get_absent kwargs "seed" _ Hno).
  split; [reflexivity|]. split; [reflexivity|].
  split; [apply randint_bounds; lia|].
  intros n Hn. rewrite !(get_absent kwargs "seed" _ Hno).
  replace n with (n - 0) at 1 3 by lia.
  rewrite (randint_onto 0 1000000000 n Hn). split; reflexivity.
Qed.

Lemma seed_range_witness :
  exists s,
    nth_error (generate_params Sample.tool [("width", VInt 512)] 123456789012) 3
    = Some ("seed", VInt s)
    /\ nth_error
         (edit_params Sample.tool
            {| method_model := "flux"; method_param := "reference";
               method_prompt_prefix := "based on reference image, " |}
            "https://store1.gofile.io/download/x/fox.png"
            [("width", VInt 512)] 123456789012) 2
       = Some ("seed", VInt s)
    /\ 0 <= s <= 1000000000
    /\ (forall n, 0 <= n <= 1000000000 ->
                  nth_error
                    (generate_params Sample.tool [("width", VInt 512)] n) 3
                  = Some ("seed", VInt n)
                  /\ nth_error
                       (edit_params Sample.tool
                          {| method_model := "flux";
                             method_param := "reference";
                             method_prompt_prefix :=
                               "based on reference image, " |}
                          "https://store1.gofile.io/download/x/fox.png"
                          [("width", VInt 512)] n) 2
                     = Some ("seed", VInt n)).
Proof.
  apply (seed_range Sample.tool [("width", VInt 512)] 123456789012).
  reflexivity.
Defined.

(** C7 as it is worded does not hold: the draw can give 1_000_000_000
    itself, which is then the seed of the request. *)
Lemma seed_can_be_1000000000 :
  Dict.has [] "seed" = false
  /\ exists s,
       Spec.seed_of (generate_params Sample.tool [] 1000000000) = VInt s
       /\ ~ (0 <= s < 1000000000).
Proof.
  split; [reflexivity|]. exists 1000000000. split; [reflexivity | lia].
Qed.

End Seed.

(* ================================================================== *)
(** ** The orchestrator: [generate_image] *)

Section Orchestrator.
Import ImageTool.
Context {FS : Type} `{Filesystem FS}.

Lemma select_filepath_in (tb : ImageCache.table) (h fp : string) :
  ImageCache.select_filepath tb h = Some fp ->
  exists r, In r tb /\ ImageCache.prompt_hash r = h
            /\ ImageCache.filepath r = fp.
Proof.
  unfold ImageCache.select_filepath.
  destruct (find (ImageCache.has_hash h) tb) as [r|] eqn:E; [|discriminate].
  intros Hfp. injection Hfp as <-.
  apply find_some in E. destruct E as [Hin Hh].
  exists r. repeat split; auto. now apply String.eqb_eq.
Qed.

Lemma stored_path_truthy (tb : ImageCache.table) (h fp : string) :
  Spec.paths_truthy tb = true ->
  ImageCache.select_filepath tb h = Some fp ->
  PyStr.truthy fp = true.
Proof.
  intros Hinv Hsel. apply select_filepath_in in Hsel.
  destruct Hsel as [r [Hin [_ <-]]].
  unfold Spec.paths_truthy in Hinv. rewrite forallb_forall in Hinv.
  now apply Hinv.
Qed.

(** Under the primary key the [SELECT] of a key finds the row that has it. *)
Lemma select_filepath_row (tb : ImageCache.table) (entry : ImageCache.row) :
  ImageCache.primary_key_ok tb = true ->
  In entry tb ->
  ImageCache.select_filepath tb (ImageCache.prompt_hash entry)
  = Some (ImageCache.filepath entry).
Proof.
  unfold ImageCache.select_filepath, ImageCache.primary_key_ok.
  induction tb as [|r0 tb IH]; intros Hpk Hin; [contradiction|].
  cbn [List.map Dict.distinct] in Hpk. apply andb_true_iff in Hpk.
  destruct Hpk as [Hfresh Hpk]. apply negb_true_iff in Hfresh.
  cbn [find]. destruct Hin as [-> | Hin].
  - unfold ImageCache.has_hash at 1. now rewrite String.eqb_refl.
  - destruct (ImageCache.has_hash (ImageCache.prompt_hash entry) r0) eqn:E.
    + exfalso. unfold ImageCache.has_hash in E. apply String.eqb_eq in E.
      assert (Hex : existsb (String.eqb (ImageCache.prompt_hash r0))
                      (List.map ImageCache.prompt_hash tb) = true).
      { apply existsb_exists. exists (ImageCache.prompt_hash entry).
        split; [now apply in_map | now apply String.eqb_eq]. }
      congruence.
    + now apply IH.
Qed.

(** C1.  When the cache has an entry under the key of the request, which is
    the hash of the prompt as it was passed and of the merged parameters,
    and the file of that entry exists, [generate_image] returns the path of
    that entry with an empty trace (no request, no translation, no sleep),
    adds one to [cache_hits] and leaves the other counters alone.  The
    table is one the object can be in ([run_cache_ok]): no two rows share a
    key, which the database sees to, and no path is the empty string,
    which [generate_image] sees to before it stores one. *)
Theorem cache_hit_skips_network
        (self : ImageTool.t) (fs : FS) (prompt : string) (kwargs : pydict)
        (env : GenEnv) (c : ImageCache.t) (entry : ImageCache.row) :
  cache self = Some c ->
  Spec.table_ok (ImageCache.db c) = true ->
  In entry (ImageCache.db c) ->
  ImageCache.prompt_hash entry
  = ImageCache._get_hash prompt
      (generate_params self kwargs (gen_draw env)) ->
  path_exists fs (ImageCache.filepath entry) = true ->
  exists self',
    generate_image self fs prompt kwargs env
    = (Some (ImageCache.filepath entry), self', fs, [])
    /\ cache_hits (stats self') = cache_hits (stats self) + 1
    /\ images_generated (stats self') = images_generated (stats self)
    /\ errors (stats self') = errors (stats self)
    /\ total_generation_time (stats self')
       = total_generation_time (stats self)
    /\ option_map ImageCache.db (cache self')
       = Some (ImageCache.update_last_accessed (ImageCache.db c)
                 (ImageCache.prompt_hash entry) (gen_lookup_time env)).
Proof.
  intros Hc Hok Hin Hkey Hex.
  unfold Spec.table_ok in Hok. apply andb_true_iff in Hok.
  destruct Hok as [Hinv Hpk].
  pose proof (select_filepath_row _ _ Hpk Hin) as Hsel.
  pose proof (stored_path_truthy _ _ _ Hinv Hsel) as Ht.
  rewrite Hkey in *.
  unfold generate_image. rewrite Hc.
  unfold ImageCache.get. rewrite Hsel, Hex.
  cbn [truthy]. rewrite Ht.
  eexists. split; [reflexivity|]. cbn. repeat split.
Qed.

(** Each call moves at most one of the two counters, by one. *)
Lemma generate_image_counts
      (self : ImageTool.t) (fs : FS) (prompt : string) (kwargs : pydict)
      (env : GenEnv) :
  let self' := snd (fst (fst (generate_image self fs prompt kwargs env))) in
  (images_generated (stats self') = images_generated (stats self)
   /\ cache_hits (stats self') = cache_hits (stats self))
  \/ (images_generated (stats self') = images_generated (stats self) + 1
      /\ cache_hits (stats self') = cache_hits (stats self))
  \/ (images_generated (stats self') = images_generated (stats self)
      /\ cache_hits (stats self') = cache_hits (stats self) + 1).
Proof.
  unfold generate_image.
  destruct (match cache self with
            | Some c => _
            | None => _
            end) as [cached_path cache1].
  destruct (truthy cached_path).
  - right. right. split; reflexivity.
  - destruct (_translate_prompt prompt (gen_translation env)) as [tp ev1].
    destruct (_make_request _ _ _ _ _) as [[response|e] ev2].
    + destruct (_save_image _ _ _ _) as [[saved_path|e] fs'].
      * destruct (PyStr.truthy saved_path).
        -- right. left. split; reflexivity.
        -- left. split; reflexivity.
      * left. split; reflexivity.
    + left. split; reflexivity.
Qed.

Lemma edit_image_counts
      (self : ImageTool.t) (fs : FS) (prompt image_path : string)
      (kwargs : pydict) (env : EditEnv) :
  let self' :=
    snd (fst (fst (edit_image self fs prompt image_path kwargs env))) in
  images_generated (stats self') = images_generated (stats self)
  /\ cache_hits (stats self') = cache_hits (stats self).
Proof.
  unfold edit_image.
  destruct (negb (path_exists fs image_path)); [split; reflexivity|].
  destruct (_upload_to_gofile _ _ _) as [[public_url|] ev0];
    [|split; reflexivity].
  destruct (negb (PyStr.truthy public_url)); [split; reflexivity|].
  destruct (_translate_prompt _ _) as [tp ev1].
  destruct (try_methods _ _ _ _ _ _ _ _) as [[[p|] fs'] ev2];
    split; reflexivity.
Qed.

Lemma step_counts (w : ImageTool.t * FS) (c : call) :
  let before := stats (fst w) in
  let after := stats (fst (step w c)) in
  images_generated before <= images_generated after
  /\ cache_hits before <= cache_hits after
  /\ images_generated after + cache_hits after
     <= images_generated before + cache_hits before
        + (if is_generate c then 1 else 0).
Proof.
  destruct w as [self fs]. destruct c as [p k e | p i k e | tm | fs'];
    cbn [step fst is_generate].
  - pose proof (generate_image_counts self fs p k e) as Hc. cbv zeta in Hc.
    destruct (generate_image self fs p k e) as [[[r self'] fs'] tr].
    cbn [fst snd] in *. lia.
  - pose proof (edit_image_counts self fs p i k e) as Hc. cbv zeta in Hc.
    destruct (edit_image self fs p i k e) as [[[r self'] fs'] tr].
    cbn [fst snd] in *. lia.
  - destruct (cache self); cbn; lia.
  - lia.
Qed.

Lemma run_counts (calls : list call) (w : ImageTool.t * FS) :
  let before := stats (fst w) in
  let after := stats (fst (run calls w)) in
  images_generated before <= images_generated after
  /\ cache_hits before <= cache_hits after
  /\ images_generated after + cache_hits after
     <= images_generated before + cache_hits before + generate_calls calls.
Proof.
  revert w. unfold run, generate_calls.
  induction calls as [|c calls IH]; intros w; cbn [fold_left List.filter].
  - cbn. lia.
  - pose proof (step_counts w c) as Hs. pose proof (IH (step w c)) as Hr.
    cbv zeta in *. destruct (is_generate c); cbn [List.length] in *; lia.
Qed.

(** C9.  After any sequence of calls on a new [ImageTool],
    [images_generated + cache_hits] is at most the number of calls of
    [generate_image] among them; a call of [generate_image] adds one to at
    most one of the two counters. *)
Theorem counters_bounded_by_generate_calls
        (config : Config) (persisted : ImageCache.table) (fs : FS) (now : Z)
        (calls : list call) :
  let s := stats (fst (run calls (__init__ config persisted fs now))) in
  0 <= images_generated s
  /\ 0 <= cache_hits s
  /\ images_generated s + cache_hits s <= generate_calls calls
  /\ (forall (self : ImageTool.t) (fs' : FS) (prompt : string)
             (kwargs : pydict) (env : GenEnv),
        let self' :=
          snd (fst (fst (generate_image self fs' prompt kwargs env))) in
        (images_generated (stats self') = images_generated (stats self)
         /\ cache_hits (stats self') = cache_hits (stats self))
        \/ (images_generated (stats self')
              = images_generated (stats self) + 1
            /\ cache_hits (stats self') = cache_hits (stats self))
        \/ (images_generated (stats self') = images_generated (stats self)
            /\ cache_hits (stats self') = cache_hits (stats self) + 1)).
Proof.
  pose proof (run_counts calls (__init__ config persisted fs now)) as Hr.
  cbv zeta in *.
  assert (H0 : images_generated
                 (stats (fst (__init__ config persisted fs now))) = 0
               /\ cache_hits
                    (stats (fst (__init__ config persisted fs now))) = 0).
  { unfold __init__. destruct (enable_cache config).
    - destruct (ImageCache.__init__ persisted fs now 30). split; reflexivity.
    - split; reflexivity. }
  destruct H0 as [Hg Hh]. rewrite Hg, Hh in Hr.
  repeat split; try lia.
  intros self fs' prompt kwargs env. apply generate_image_counts.
Qed.

End Orchestrator.

Section OrchestratorExamples.
Import ImageTool.

(** The first call for the fox: one request, one file, one entry. *)
Example first_call_generates :
  Sample.first_call
  = (Some Sample.fox_path,
     {| config_manager := Sample.config;
        cache := Some Sample.warm_cache;
        stats := {| images_generated := 1; cache_hits := 0;
                    total_generation_time := 3; errors := 0 |} |},
     {| Os.files := [Sample.fox_path]; Os.locked := [] |},
     [Get Sample.url
          [("width", VInt 512); ("height", VInt 512); ("model", VStr "flux");
           ("seed", VInt 42); ("nologo", VBool false)] []]).
Proof. vm_compute. reflexivity. Qed.

Lemma cache_hit_skips_network_witness :
  let entry := Sample.row "4077e04a0cbed217e5573ad27649b630"
                          Sample.fox_path 103 in
  exists self',
    generate_image Sample.warm_tool Sample.warm_disk Sample.fox
                   Sample.fox_kwargs Sample.env_down
    = (Some (ImageCache.filepath entry), self', Sample.warm_disk, [])
    /\ cache_hits (stats self') = cache_hits (stats Sample.warm_tool) + 1
    /\ images_generated (stats self')
       = images_generated (stats Sample.warm_tool)
    /\ errors (stats self') = errors (stats Sample.warm_tool)
    /\ total_generation_time (stats self')
       = total_generation_time (stats Sample.warm_tool)
    /\ option_map ImageCache.db (cache self')
       = Some (ImageCache.update_last_accessed
                 (ImageCache.db Sample.warm_cache)
                 (ImageCache.prompt_hash entry)
                 (gen_lookup_time Sample.env_down)).
Proof.
  apply (cache_hit_skips_network Sample.warm_tool Sample.warm_disk Sample.fox
           Sample.fox_kwargs Sample.env_down Sample.warm_cache
           (Sample.row "4077e04a0cbed217e5573ad27649b630"
                       Sample.fox_path 103)).
  - vm_compute. reflexivity.
  - vm_compute. reflexivity.
  - left. reflexivity.
  - vm_compute. reflexivity.
  - vm_compute. reflexivity.
Defined.

End OrchestratorExamples.

(* ================================================================== *)
(** ** The cache: [clean_cache] *)

Section Sweep.
Import ImageCache.
Context {FS : Type} `{Filesystem FS}.

Lemma filter_filter {A : Type} (f g : A -> bool) (l : list A) :
  List.filter f (List.filter g l) = List.filter (fun x => g x && f x) l.
Proof.
  induction l as [|x l IH]; simpl; [reflexivity|].
  destruct (g x); simpl; [destruct (f x)|]; now rewrite IH.
Qed.

Lemma filter_length_split {A : Type} (f : A -> bool) (l : list A) :
  (List.length (List.filter f l)
   + List.length (List.filter (fun x => negb (f x)) l)
   = List.length l)%nat.
Proof.
  induction l as [|x l IH]; simpl; [reflexivity|].
  destruct (f x); simpl; lia.
Qed.

Lemma same_image_same_item {A B : Type} (g : A -> B) (l : list A) (a b : A) :
  NoDup (List.map g l) -> In a l -> In b l -> g a = g b -> a = b.
Proof.
  induction l as [|x l IH]; simpl; intros Hnd Ha Hb Hk; [contradiction|].
  apply NoDup_cons_iff in Hnd. destruct Hnd as [Hx Hnd].
  destruct Ha as [-> | Ha], Hb as [-> | Hb]; auto.
  - exfalso. apply Hx. rewrite Hk. now apply in_map.
  - exfalso. apply Hx. rewrite <- Hk. now apply in_map.
Qed.

Lemma NoDup_map_filter {A B : Type} (g : A -> B) (f : A -> bool) (l : list A) :
  NoDup (List.map g l) -> NoDup (List.map g (List.filter f l)).
Proof.
  induction l as [|x l IH]; simpl; intros Hnd; [constructor|].
  apply NoDup_cons_iff in Hnd. destruct Hnd as [Hx Hnd].
  destruct (f x); simpl; [|now apply IH].
  constructor; [|now apply IH].
  intros Hin. apply Hx. apply in_map_iff in Hin.
  destruct Hin as [y [Hy Hin]]. apply filter_In in Hin.
  rewrite <- Hy. apply in_map. tauto.
Qed.

Lemma mem_In (p : string) (l : list string) :
  Os.mem p l = true <-> In p l.
Proof.
  unfold Os.mem. rewrite existsb_exists. split.
  - intros [x [Hin Heq]]. apply String.eqb_eq in Heq. now subst.
  - intros Hin. exists p. split; [exact Hin | apply String.eqb_refl].
Qed.

(** Deleting the keys of [rows] one after the other. *)
Lemma delete_each (rows tb : table) :
  fold_left (fun tb r => delete tb (prompt_hash r)) rows tb
  = List.filter
      (fun r => negb (Os.mem (prompt_hash r) (List.map prompt_hash rows))) tb.
Proof.
  revert tb. induction rows as [|r0 rows IH]; intros tb; cbn [fold_left].
  - simpl. symmetry. apply filter_true.
  - rewrite IH. unfold delete. rewrite filter_filter.
    apply filter_ext. intros r. unfold has_hash. cbn [List.map Os.mem existsb].
    fold (Os.mem (prompt_hash r) (List.map prompt_hash rows)).
    now rewrite negb_orb.
Qed.

(** Under the primary key, the rows whose key is that of a selected row are
    the selected rows. *)
Lemma delete_selected (p : row -> bool) (tb : table) :
  primary_key_ok tb = true ->
  List.filter
    (fun r => negb (Os.mem (prompt_hash r)
                      (List.map prompt_hash (List.filter p tb)))) tb
  = List.filter (fun r => negb (p r)) tb.
Proof.
  intros Hpk. apply distinct_NoDup in Hpk.
  apply filter_ext_in. intros r Hr. f_equal.
  destruct (p r) eqn:Hp.
  - apply mem_In, in_map, filter_In. tauto.
  - apply not_true_iff_false. rewrite mem_In, in_map_iff.
    intros [r' [Hh Hin]]. apply filter_In in Hin. destruct Hin as [Hin Hp'].
    assert (r' = r) by (eapply same_image_same_item; eauto).
    congruence.
Qed.

Lemma remove_old_eq (rows tb : table) (fs : FS) (count : Z) :
  remove_old rows tb fs count
  = (fold_left (fun tb r => delete tb (prompt_hash r)) rows tb,
     Spec.unlink rows fs,
     count + Z.of_nat (List.length rows)).
Proof.
  revert tb fs count. unfold Spec.unlink.
  induction rows as [|r rows IH]; intros tb fs count.
  - simpl. now rewrite Z.add_0_r.
  - cbn [remove_old fold_left List.length]. rewrite IH.
    f_equal. lia.
Qed.

Lemma remove_missing_eq (rows tb : table) (fs : FS) (count : Z) :
  remove_missing rows tb fs count
  = (List.filter
       (fun r =>
          negb (Os.mem (prompt_hash r)
                  (List.map prompt_hash
                     (List.filter
                        (fun r => negb (path_exists fs (filepath r))) rows))))
       tb,
     count
     + Z.of_nat
         (List.length
            (List.filter (fun r => negb (path_exists fs (filepath r))) rows))).
Proof.
  revert tb count. induction rows as [|r0 rows IH]; intros tb count.
  - simpl. now rewrite filter_true, Z.add_0_r.
  - cbn [remove_missing List.filter].
    destruct (negb (path_exists fs (filepath r0))).
    + rewrite IH. unfold delete. rewrite filter_filter. f_equal.
      * apply filter_ext. intros r. unfold has_hash.
        cbn [List.map Os.mem existsb].
        fold (Os.mem (prompt_hash r)
                (List.map prompt_hash
                   (List.filter
                      (fun r => negb (path_exists fs (filepath r))) rows))).
        now rewrite negb_orb.
      * cbn [List.length]. lia.
    + apply IH.
Qed.

Lemma primary_key_filter (f : row -> bool) (tb : table) :
  primary_key_ok tb = true -> primary_key_ok (List.filter f tb) = true.
Proof.
  unfold primary_key_ok. rewrite !distinct_NoDup. apply NoDup_map_filter.
Qed.

(** What a sweep does to the table, to the files and to its counter. *)
Lemma clean_cache_eq (self : ImageCache.t) (fs : FS) (now days : Z) :
  primary_key_ok (db self) = true ->
  let limit := Spec.cutoff self now days in
  let fs1 := Spec.unlink (select_older (db self) limit) fs in
  let kept :=
    List.filter
      (fun r => negb (Spec.older_than limit r) && path_exists fs1 (filepath r))
      (db self) in
  clean_cache self fs now days
  = {| returned := VNone;
       deleted_count :=
         Z.of_nat (List.length (db self)) - Z.of_nat (List.length kept);
       cache_after := {| db := kept; max_age_days := max_age_days self |};
       fs_after := fs1 |}.
Proof.
  intros Hpk limit fs1 kept. unfold clean_cache.
  fold (Spec.age_limit self days). unfold seconds_per_day.
  fold (Spec.cutoff self now days). fold limit.
  rewrite remove_old_eq. fold fs1.
  set (tb1 := List.filter (fun r => negb (Spec.older_than limit r)) (db self)).
  assert (Hpk1 : primary_key_ok tb1 = true) by now apply primary_key_filter.
  assert (H1 : fold_left (fun tb r => delete tb (prompt_hash r))
                 (select_older (db self) limit) (db self) = tb1).
  { rewrite delete_each.
    change (select_older (db self) limit)
      with (List.filter (Spec.older_than limit) (db self)).
    now apply delete_selected. }
  rewrite H1, remove_missing_eq.
  rewrite (delete_selected
             (fun r => negb (path_exists fs1 (filepath r))) tb1 Hpk1).
  assert (Hkept :
    List.filter (fun r => negb (negb (path_exists fs1 (filepath r)))) tb1
    = kept).
  { unfold tb1, kept. rewrite filter_filter. apply filter_ext. intros r.
    now rewrite negb_involutive. }
  rewrite Hkept. f_equal.
  pose proof (filter_length_split (Spec.older_than limit) (db self)) as L1.
  pose proof (filter_length_split
                (fun r => negb (path_exists fs1 (filepath r))) tb1) as L2.
  cbv beta in L1, L2. fold tb1 in L1. rewrite Hkept in L2.
  change (select_older (db self) limit)
    with (List.filter (Spec.older_than limit) (db self)).
  lia.
Qed.

(** The two passes of a sweep, in terms of the reading that the rows are
    compared with. *)
Lemma sweep_passes (self : ImageCache.t) (fs : FS) (now days : Z) :
  primary_key_ok (db self) = true ->
  let limit := Spec.cutoff self now days in
  let c := clean_cache self fs now days in
  returned c = VNone
  /\ fs_after c = Spec.unlink (select_older (db self) limit) fs
  /\ db (cache_after c)
     = List.filter
         (fun r => negb (Spec.older_than limit r)
                   && path_exists (fs_after c) (filepath r))
         (db self)
  /\ deleted_count c
     = Z.of_nat (List.length (db self))
       - Z.of_nat (List.length (db (cache_after c))).
Proof.
  intros Hpk limit c. unfold c.
  rewrite (clean_cache_eq self fs now days Hpk). cbn [returned fs_after
    cache_after db deleted_count]. fold limit.
  repeat split; reflexivity.
Qed.

(** The test of the first pass in terms of the age of the row: in a time
    zone ahead of UTC the limit is that much shorter, behind UTC that much
    longer. *)
Lemma older_than_offset (self : ImageCache.t) (utc_now utc_offset days : Z)
      (r : row) :
  Spec.older_than
    (Spec.cutoff self (Spec.local_clock utc_offset utc_now) days) r
  = (Spec.age_limit self days * 86400 - utc_offset <? Spec.age utc_now r).
Proof.
  unfold Spec.older_than, Spec.cutoff, Spec.local_clock, Spec.age.
  destruct (last_accessed r
            <? utc_now + utc_offset - Spec.age_limit self days * 86400)
    eqn:E1;
    destruct (Spec.age_limit self days * 86400 - utc_offset
              <? utc_now - last_accessed r) eqn:E2;
    try reflexivity;
    [apply Z.ltb_lt in E1; apply Z.ltb_ge in E2
    |apply Z.ltb_ge in E1; apply Z.ltb_lt in E2]; lia.
Qed.

(** C8, as the code has it.  On a machine whose clock is set to UTC (the
    local clock shows what the UTC clock shows), a sweep makes two passes.
    The first hands the file of every entry older than the age limit to
    [os.remove], when the file is there, and deletes the entry whether or
    not the removal worked; the second deletes every entry that is left
    and whose file does not exist.  The entries that
    stay are the ones that are not too old and whose file exists.  The
    number of entries removed is counted for the log line; the call itself
    returns [None]. *)
Theorem sweep_two_passes
        (self : ImageCache.t) (fs : FS) (utc_now days : Z) :
  primary_key_ok (db self) = true ->
  let c := clean_cache self fs (Spec.local_clock 0 utc_now) days in
  let old := Spec.too_old self utc_now days in
  returned c = VNone
  /\ fs_after c = Spec.unlink (List.filter old (db self)) fs
  /\ db (cache_after c)
     = List.filter
         (fun r => negb (old r) && path_exists (fs_after c) (filepath r))
         (db self)
  /\ (forall r, In r (db self) -> old r = true ->
                ~ In r (db (cache_after c)))
  /\ (forall r, In r (db self) ->
                path_exists (fs_after c) (filepath r) = false ->
                ~ In r (db (cache_after c)))
  /\ deleted_count c
     = Z.of_nat (List.length (db self))
       - Z.of_nat (List.length (db (cache_after c))).
Proof.
  intros Hpk c old.
  assert (Hold : forall r,
            Spec.older_than
              (Spec.cutoff self (Spec.local_clock 0 utc_now) days) r
            = old r).
  { intros r. rewrite older_than_offset. unfold old, Spec.too_old.
    now rewrite Z.sub_0_r. }
  destruct (sweep_passes self fs (Spec.local_clock 0 utc_now) days Hpk)
    as [Hret [Hfs [Hdb Hcount]]].
  fold c in Hret, Hfs, Hdb, Hcount.
  assert (Hkept : db (cache_after c)
                  = List.filter
                      (fun r => negb (old r)
                                && path_exists (fs_after c) (filepath r))
                      (db self)).
  { rewrite Hdb. apply filter_ext. intros r. now rewrite Hold. }
  split; [exact Hret|]. split; [|split; [exact Hkept|]].
  - rewrite Hfs. unfold select_older. f_equal.
    apply filter_ext. intros r. apply Hold.
  - split; [|split; [|exact Hcount]].
    + intros r _ Ho Hin. rewrite Hkept in Hin. apply filter_In in Hin.
      destruct Hin as [_ Hk]. rewrite Ho in Hk. discriminate.
    + intros r _ Hgone Hin. rewrite Hkept in Hin. apply filter_In in Hin.
      destruct Hin as [_ Hk]. rewrite Hgone, andb_false_r in Hk.
      discriminate.
Qed.

End Sweep.

Section SweepExamples.
Import ImageCache.

Lemma sweep_two_passes_witness :
  let c := clean_cache Sample.old_cache Sample.old_disk
             (Spec.local_clock 0 (41 * Sample.day)) 0 in
  let old := Spec.too_old Sample.old_cache (41 * Sample.day) 0 in
  returned c = VNone
  /\ fs_after c
     = Spec.unlink (List.filter old (db Sample.old_cache)) Sample.old_disk
  /\ db (cache_after c)
     = List.filter
         (fun r => negb (old r) && path_exists (fs_after c) (filepath r))
         (db Sample.old_cache)
  /\ (forall r, In r (db Sample.old_cache) -> old r = true ->
                ~ In r (db (cache_after c)))
  /\ (forall r, In r (db Sample.old_cache) ->
                path_exists (fs_after c) (filepath r) = false ->
                ~ In r (db (cache_after c)))
  /\ deleted_count c
     = Z.of_nat (List.length (db Sample.old_cache))
       - Z.of_nat (List.length (db (cache_after c))).
Proof.
  apply (sweep_two_passes Sample.old_cache Sample.old_disk
           (41 * Sample.day) 0).
  reflexivity.
Defined.

(** The old entry and the entry whose file cannot be removed go in the
    first pass, the entry whose file is gone goes in the second. *)
Example sweep_of_old_cache :
  let c := clean_cache Sample.old_cache Sample.old_disk (41 * Sample.day) 0 in
  db (cache_after c) = [Sample.row "h-live" "live.png" (40 * Sample.day)]
  /\ Os.files (fs_after c) = ["live.png"; "locked.png"]
  /\ deleted_count c = 3.
Proof. vm_compute. repeat split. Qed.

(** C8 as it is worded does not hold: the sweep removes three entries
    here, and what the call returns is [None], not that number. *)
Lemma sweep_returns_none :
  let c := clean_cache Sample.old_cache Sample.old_disk (41 * Sample.day) 0 in
  deleted_count c = 3
  /\ Z.of_nat (List.length (db Sample.old_cache))
     - Z.of_nat (List.length (db (cache_after c))) = 3
  /\ returned c = VNone
  /\ returned c <> VInt 3.
Proof.
  vm_compute. repeat split; discriminate.
Qed.

End SweepExamples.

(* ================================================================== *)
(** ** What the methods keep up in the table *)

Section TableInvariant.
Import ImageCache.
Context {FS : Type} `{Filesystem FS}.

Lemma paths_truthy_filter (f : row -> bool) (tb : table) :
  Spec.paths_truthy tb = true -> Spec.paths_truthy (List.filter f tb) = true.
Proof.
  unfold Spec.paths_truthy. rewrite !forallb_forall.
  intros Hall r Hin. apply filter_In in Hin. now apply Hall.
Qed.

Lemma table_ok_filter (f : row -> bool) (tb : table) :
  Spec.table_ok tb = true -> Spec.table_ok (List.filter f tb) = true.
Proof.
  unfold Spec.table_ok. rewrite !andb_true_iff. intros [Hp Hk].
  split; [now apply paths_truthy_filter | now apply primary_key_filter].
Qed.

Lemma table_ok_update (tb : table) (h : string) (now : Z) :
  Spec.table_ok tb = true ->
  Spec.table_ok (update_last_accessed tb h now) = true.
Proof.
  unfold Spec.table_ok, Spec.paths_truthy, primary_key_ok,
    update_last_accessed.
  rewrite !andb_true_iff. intros [Hp Hk]. split.
  - rewrite forallb_forall in *. intros r Hin. apply in_map_iff in Hin.
    destruct Hin as [r0 [<- Hin]]. specialize (Hp r0 Hin).
    now destruct (has_hash h r0).
  - rewrite map_map.
    erewrite map_ext; [exact Hk|].
    intros r. now destruct (has_hash h r).
Qed.

Lemma table_ok_insert (tb : table) (h fp : string) (now : Z) :
  PyStr.truthy fp = true ->
  Spec.table_ok tb = true ->
  Spec.table_ok (insert_or_replace tb h fp now) = true.
Proof.
  intros Hfp Hok. unfold insert_or_replace.
  pose proof (table_ok_filter (fun r => negb (has_hash h r)) tb Hok) as Hd.
  fold (delete tb h) in Hd. revert Hd.
  unfold Spec.table_ok, Spec.paths_truthy, primary_key_ok.
  rewrite !andb_true_iff, !distinct_NoDup. intros [Hp Hk]. split.
  - rewrite forallb_app, Hp. simpl. now rewrite Hfp.
  - rewrite map_app. apply NoDup_app; [exact Hk | repeat constructor; auto |].
    intros a Ha [<- | []]. apply in_map_iff in Ha.
    destruct Ha as [r [Hr Hin]]. apply filter_In in Hin.
    destruct Hin as [_ Hne]. unfold has_hash in Hne.
    rewrite Hr, String.eqb_refl in Hne. discriminate.
Qed.

Lemma table_ok_clean_cache (self : ImageCache.t) (fs : FS) (now days : Z) :
  Spec.table_ok (db self) = true ->
  Spec.table_ok (db (cache_after (clean_cache self fs now days))) = true.
Proof.
  intros Hok. assert (Hpk : primary_key_ok (db self) = true).
  { unfold Spec.table_ok in Hok. apply andb_true_iff in Hok. tauto. }
  rewrite (clean_cache_eq self fs now days Hpk). cbn [cache_after db].
  now apply table_ok_filter.
Qed.

End TableInvariant.

(* ================================================================== *)
(** ** What the object keeps up over a session *)

Section ToolInvariant.
Import ImageTool.
Context {FS : Type} `{Filesystem FS}.

Lemma table_ok_get (c : ImageCache.t) (fs : FS) (now : Z) (prompt : string)
      (parameters : pydict) :
  Spec.table_ok (ImageCache.db c) = true ->
  Spec.table_ok
    (ImageCache.db (snd (ImageCache.get c fs now prompt parameters))) = true.
Proof.
  intros Hok. unfold ImageCache.get.
  destruct (ImageCache.select_filepath _ _) as [fp|]; [|exact Hok].
  destruct (path_exists fs fp); [|exact Hok].
  cbn. now apply table_ok_update.
Qed.

Lemma generate_image_cache_ok
      (self : ImageTool.t) (fs : FS) (prompt : string) (kwargs : pydict)
      (env : GenEnv) :
  Spec.cache_ok self = true ->
  Spec.cache_ok (snd (fst (fst (generate_image self fs prompt kwargs env))))
  = true.
Proof.
  intros Hok. unfold generate_image, Spec.cache_ok in *.
  destruct (cache self) as [c|].
  - pose proof (table_ok_get c fs (gen_lookup_time env) prompt
                  (generate_params self kwargs (gen_draw env)) Hok) as Hget.
    destruct (ImageCache.get c fs _ prompt _) as [r c']. cbn [snd] in Hget.
    destruct (truthy r); [exact Hget|].
    destruct (_translate_prompt prompt (gen_translation env)) as [tp ev1].
    destruct (_make_request _ _ _ _ _) as [[response|e] ev2];
      [|exact Hget].
    destruct (_save_image _ _ _ _) as [[saved_path|e] fs']; [|exact Hget].
    destruct (PyStr.truthy saved_path) eqn:Ht; [|exact Hget].
    cbn. now apply table_ok_insert.
  - destruct (_translate_prompt prompt (gen_translation env)) as [tp ev1].
    destruct (_make_request _ _ _ _ _) as [[response|e] ev2];
      [|reflexivity].
    destruct (_save_image _ _ _ _) as [[saved_path|e] fs']; [|reflexivity].
    destruct (PyStr.truthy saved_path); reflexivity.
Qed.

Lemma edit_image_cache_ok
      (self : ImageTool.t) (fs : FS) (prompt image_path : string)
      (kwargs : pydict) (env : EditEnv) :
  Spec.cache_ok self = true ->
  Spec.cache_ok
    (snd (fst (fst (edit_image self fs prompt image_path kwargs env))))
  = true.
Proof.
  intros Hok. unfold edit_image.
  destruct (negb (path_exists fs image_path)); [exact Hok|].
  destruct (_upload_to_gofile _ _ _) as [[public_url|] ev0]; [|exact Hok].
  destruct (negb (PyStr.truthy public_url)); [exact Hok|].
  destruct (_translate_prompt _ _) as [tp ev1].
  destruct (try_methods _ _ _ _ _ _ _ _) as [[[p|] fs'] ev2]; exact Hok.
Qed.

Lemma step_cache_ok (w : ImageTool.t * FS) (c : call) :
  Spec.cache_ok (fst w) = true -> Spec.cache_ok (fst (step w c)) = true.
Proof.
  destruct w as [self fs]. cbn [fst]. intros Hok.
  destruct c as [p k e | p i k e | tm | fs']; cbn [step].
  - pose proof (generate_image_cache_ok self fs p k e Hok) as Hg.
    destruct (generate_image self fs p k e) as [[[r self'] fs'] tr].
    exact Hg.
  - pose proof (edit_image_cache_ok self fs p i k e Hok) as He.
    destruct (edit_image self fs p i k e) as [[[r self'] fs'] tr].
    exact He.
  - unfold Spec.cache_ok in *. destruct (cache self) as [c|] eqn:Hc.
    + cbn. now apply table_ok_clean_cache.
    + cbn [fst]. now rewrite Hc.
  - exact Hok.
Qed.

(** A table that is in order when the object is created stays in order
    whatever is called afterwards; a table that does not exist yet is in
    order. *)
Lemma run_cache_ok (config : Config) (persisted : ImageCache.table)
      (fs : FS) (now : Z) (calls : list call) :
  Spec.table_ok persisted = true ->
  Spec.cache_ok (fst (run calls (__init__ config persisted fs now))) = true.
Proof.
  intros Hok.
  assert (H0 : Spec.cache_ok (fst (__init__ config persisted fs now)) = true).
  { unfold __init__, ImageCache.__init__, Spec.cache_ok.
    destruct (enable_cache config); [|reflexivity].
    cbn. now apply table_ok_clean_cache. }
  revert H0. generalize (__init__ config persisted fs now).
  unfold run. induction calls as [|c calls IH]; intros w Hw; [exact Hw|].
  cbn [fold_left]. apply IH. now apply step_cache_ok.
Qed.

End ToolInvariant.

(* ================================================================== *)
(** ** File names *)

Section FileNames.
Import ImageTool.










End FileNames.

(* ================================================================== *)
(** ** The fallback chain: [edit_image] *)

Section EditChain.
Import ImageTool.
Context {FS : Type} `{Filesystem FS}.

Lemma attempted_app (t1 t2 : list event) :
  attempted (t1 ++ t2) = (attempted t1 ++ attempted t2)%list.
Proof.
  induction t1 as [|e t1 IH]; simpl; [reflexivity|].
  destruct e; simpl; now rewrite IH.
Qed.


Variable self : ImageTool.t.
Variable public_url : string.
Variable translated_prompt : string.
Variable kwargs : pydict.
Variable env : EditEnv.






End EditChain.

Section EditChainClaims.
Import ImageTool.



(** With a known model as the preferred one, the attempts go to it first
    and then to the other known models in their own order. *)
Lemma methods_order (preferred_model : string) :
  In preferred_model Spec.known_models ->
  List.map method_model (methods preferred_model)
  = preferred_model
      :: List.filter (fun m => negb (String.eqb m preferred_model))
                     Spec.known_models
  /\ NoDup (List.map method_model (methods preferred_model))
  /\ (forall m, In m Spec.known_models <->
                In m (List.map method_model (methods preferred_model))).
Proof.
  intros [<- | [<- | [<- | []]]]; (split; [reflexivity|]); split;
    try (repeat constructor; simpl; intuition discriminate);
    intros m; simpl; tauto.
Qed.



(** Three models, the first fails, the second answers: two attempts, and
    the file carries the name of the second model. *)
Example second_of_three_succeeds :
  let '(r, self', _, tr) :=
    edit_image Sample.tool Sample.fox_disk Sample.fox "fox.png" []
               (Sample.edit_env (Some Sample.fox_url)) in
  List.map method_model (methods "kontext")
  = ["kontext"; "flux"; "flux-kontext"]
  /\ attempted tr = ["kontext"; "flux"]
  /\ r = Some "generated_images/edit_flux_a_red_fox_in_snow_20240101_121000.png"
  /\ requests_made tr = 2.
Proof. vm_compute. repeat split. Qed.


End EditChainClaims.

(* ================================================================== *)
(** ** The cache: storing and looking up *)

Section CacheLookup.
Import ImageCache.
Context {FS : Type} `{Filesystem FS}.

Lemma find_app_none {A : Type} (f : A -> bool) (l1 l2 : list A) :
  find f l1 = None -> find f (l1 ++ l2) = find f l2.
Proof.
  induction l1 as [|x l1 IH]; simpl; [reflexivity|].
  destruct (f x); [discriminate | exact IH].
Qed.

Lemma find_app_some {A : Type} (f : A -> bool) (l1 l2 : list A) (x : A) :
  find f l1 = Some x -> find f (l1 ++ l2) = Some x.
Proof.
  induction l1 as [|y l1 IH]; simpl; [discriminate|].
  destruct (f y); [trivial | exact IH].
Qed.

Lemma find_delete_same (tb : table) (h : string) :
  find (has_hash h) (delete tb h) = None.
Proof.
  unfold delete. induction tb as [|r tb IH]; simpl; [reflexivity|].
  destruct (has_hash h r) eqn:E; simpl; [exact IH|]. now rewrite E.
Qed.

Lemma has_hash_other (h h' : string) (r : row) :
  h' <> h -> has_hash h' r = true -> has_hash h r = false.
Proof.
  unfold has_hash. intros Hne H1.
  apply String.eqb_eq in H1. apply String.eqb_neq. congruence.
Qed.

Lemma find_delete_other (tb : table) (h h' : string) :
  h' <> h -> find (has_hash h') (delete tb h) = find (has_hash h') tb.
Proof.
  intros Hne. unfold delete.
  induction tb as [|r tb IH]; simpl; [reflexivity|].
  destruct (has_hash h' r) eqn:E'.
  - rewrite (has_hash_other h h' r Hne E'). simpl. now rewrite E'.
  - destruct (has_hash h r); simpl; [exact IH|]. now rewrite E'.
Qed.

Lemma select_insert_same (tb : table) (h fp : string) (now : Z) :
  select_filepath (insert_or_replace tb h fp now) h = Some fp.
Proof.
  unfold select_filepath, insert_or_replace.
  rewrite find_app_none by apply find_delete_same.
  simpl. unfold has_hash. simpl. now rewrite String.eqb_refl.
Qed.

Lemma select_insert_other (tb : table) (h h' fp : string) (now : Z) :
  h' <> h ->
  select_filepath (insert_or_replace tb h fp now) h' = select_filepath tb h'.
Proof.
  intros Hne. unfold select_filepath, insert_or_replace.
  destruct (find (has_hash h') (delete tb h)) as [r|] eqn:E.
  - rewrite (find_app_some _ _ _ _ E).
    rewrite <- (find_delete_other tb h h' Hne), E. reflexivity.
  - rewrite (find_app_none _ _ _ E).
    rewrite <- (find_delete_other tb h h' Hne), E.
    simpl. unfold has_hash. simpl.
    apply String.eqb_neq in Hne. rewrite String.eqb_sym in Hne.
    now rewrite Hne.
Qed.

(** X1.  What [store] puts under a prompt and its parameters is what [get]
    finds there: the stored path when the file exists, nothing when it does
    not; and the lookup of any other key is what it was before. *)
Theorem store_then_get
        (self : ImageCache.t) (fs : FS) (t_store t_get : Z)
        (prompt : string) (parameters : pydict) (fp : string) :
  fst (get (store self t_store prompt parameters fp) fs t_get
           prompt parameters)
  = (if path_exists fs fp then Some fp else None)
  /\ (forall prompt' parameters',
        _get_hash prompt' parameters' <> _get_hash prompt parameters ->
        fst (get (store self t_store prompt parameters fp) fs t_get
                 prompt' parameters')
        = fst (get self fs t_get prompt' parameters')).
Proof.
  split.
  - unfold get, store. cbn [db]. rewrite select_insert_same.
    now destruct (path_exists fs fp).
  - intros prompt' parameters' Hne. unfold get, store. cbn [db].
    rewrite (select_insert_other _ _ _ _ _ Hne).
    destruct (select_filepath (db self) _) as [fp'|]; [|reflexivity].
    now destruct (path_exists fs fp').
Qed.

Lemma delete_insert (tb : table) (h fp : string) (now : Z) :
  delete (insert_or_replace tb h fp now) h = delete tb h.
Proof.
  unfold insert_or_replace, delete. rewrite filter_app, filter_filter.
  simpl. unfold has_hash at 3. simpl. rewrite String.eqb_refl. simpl.
  rewrite app_nil_r. apply filter_ext. intros r.
  now destruct (has_hash h r).
Qed.

(** X2.  [store] is an upsert.  Storing twice under one key leaves what the
    second call alone would leave; after a call there is one row with the
    key, the rows of the other keys are the ones that were there, in their
    order, and the key stays a key. *)
Theorem store_overwrites
        (self : ImageCache.t) (t1 t2 : Z) (prompt : string)
        (parameters : pydict) (fp1 fp2 : string) :
  let h := _get_hash prompt parameters in
  store (store self t1 prompt parameters fp1) t2 prompt parameters fp2
  = store self t2 prompt parameters fp2
  /\ List.filter (has_hash h) (db (store self t1 prompt parameters fp1))
     = [{| prompt_hash := h; filepath := fp1; last_accessed := t1 |}]
  /\ List.filter (fun r => negb (has_hash h r))
                 (db (store self t1 prompt parameters fp1))
     = List.filter (fun r => negb (has_hash h r)) (db self)
  /\ (primary_key_ok (db self) = true ->
      primary_key_ok (db (store self t1 prompt parameters fp1)) = true).
Proof.
  intros h. unfold store. cbn [db max_age_days]. fold h.
  split; [|split; [|split]].
  - f_equal. unfold insert_or_replace at 1. now rewrite delete_insert.
  - unfold insert_or_replace, delete. rewrite filter_app, filter_filter.
    rewrite (filter_ext _ (fun _ => false)), filter_false
      by (intros r; now destruct (has_hash h r)).
    simpl. unfold has_hash. simpl. now rewrite String.eqb_refl.
  - fold (delete (insert_or_replace (db self) h fp1 t1) h).
    now rewrite delete_insert.
  - intros Hpk. unfold primary_key_ok in *.
    rewrite distinct_NoDup in *. unfold insert_or_replace.
    rewrite map_app. apply NoDup_app.
    + now apply NoDup_map_filter.
    + repeat constructor. simpl. tauto.
    + intros a Ha [<- | []]. apply in_map_iff in Ha.
      destruct Ha as [r [Hr Hin]]. apply filter_In in Hin.
      destruct Hin as [_ Hn]. unfold has_hash in Hn.
      rewrite Hr, String.eqb_refl in Hn. discriminate.
Qed.

Lemma entries_update (tb : table) (h : string) (now : Z) :
  Spec.entries (update_last_accessed tb h now) = Spec.entries tb.
Proof.
  unfold Spec.entries, update_last_accessed. rewrite map_map.
  apply map_ext. intros r. now destruct (has_hash h r).
Qed.

Lemma other_rows_update (tb : table) (h : string) (now : Z) :
  List.filter (fun r => negb (has_hash h r)) (update_last_accessed tb h now)
  = List.filter (fun r => negb (has_hash h r)) tb.
Proof.
  unfold update_last_accessed.
  induction tb as [|r tb IH]; cbn [List.map List.filter]; [reflexivity|].
  destruct (has_hash h r) eqn:E.
  - unfold has_hash at 1. cbn [prompt_hash]. unfold has_hash in E.
    rewrite E. cbn [negb]. exact IH.
  - rewrite E. cbn [negb]. now rewrite IH.
Qed.

Lemma stamped_rows_update (tb : table) (h : string) (now : Z) (r : row) :
  In r (update_last_accessed tb h now) -> has_hash h r = true ->
  last_accessed r = now.
Proof.
  unfold update_last_accessed. intros Hin Hh. apply in_map_iff in Hin.
  destruct Hin as [r0 [Heq _]].
  destruct (has_hash h r0) eqn:E; subst r; [reflexivity | congruence].
Qed.

(** X3.  A lookup adds no row, removes none and changes no key and no path:
    at most the time of last access of the row it hits moves.  The rows of
    the other keys are what they were, time of last access included, and
    on a hit a row with the key has the time of the lookup.  When the
    lookup finds nothing, also because the file of the row is gone, the
    cache is left as it was, and the row stays.  A path it returns is the
    path of a row with that key, and its file exists. *)
Theorem get_keeps_entries
        (self : ImageCache.t) (fs : FS) (now : Z) (prompt : string)
        (parameters : pydict) :
  let key := _get_hash prompt parameters in
  let r := get self fs now prompt parameters in
  Spec.entries (db (snd r)) = Spec.entries (db self)
  /\ max_age_days (snd r) = max_age_days self
  /\ List.filter (fun row => negb (has_hash key row)) (db (snd r))
     = List.filter (fun row => negb (has_hash key row)) (db self)
  /\ (forall row fp, fst r = Some fp -> In row (db (snd r)) ->
                     prompt_hash row = key -> last_accessed row = now)
  /\ (fst r = None -> snd r = self)
  /\ (forall fp, fst r = Some fp ->
                 path_exists fs fp = true
                 /\ In (key, fp) (Spec.entries (db self))).
Proof.
  intros key. unfold get. fold key.
  destruct (select_filepath (db self) key) as [fp|] eqn:Hsel.
  - destruct (path_exists fs fp) eqn:Hex; cbn [fst snd db max_age_days].
    + rewrite entries_update, other_rows_update.
      split; [reflexivity|]. split; [reflexivity|]. split; [reflexivity|].
      split.
      * intros row fp' _ Hin Hkey.
        apply (stamped_rows_update (db self) key now row Hin).
        unfold has_hash. rewrite Hkey. apply String.eqb_refl.
      * split; [discriminate|].
        intros fp' Hfp. injection Hfp as <-. split; [exact Hex|].
        apply select_filepath_in in Hsel.
        destruct Hsel as [r [Hin [Hh Hp]]]. unfold Spec.entries.
        apply in_map_iff. exists r.
        split; [now rewrite Hh, Hp | exact Hin].
    + split; [reflexivity|]. split; [reflexivity|]. split; [reflexivity|].
      split; [discriminate|]. split; [reflexivity | discriminate].
  - cbn [fst snd].
    split; [reflexivity|]. split; [reflexivity|]. split; [reflexivity|].
    split; [discriminate|]. split; [reflexivity | discriminate].
Qed.

Lemma filter_all {A : Type} (f : A -> bool) (l : list A) :
  (forall x, In x l -> f x = true) -> List.filter f l = l.
Proof.
  intros Hall. apply forallb_filter_id. apply forallb_forall. exact Hall.
Qed.

Lemma filter_none {A : Type} (f : A -> bool) (l : list A) :
  (forall x, In x l -> f x = false) -> List.filter f l = [].
Proof.
  induction l as [|x l IH]; intros Hall; simpl; [reflexivity|].
  rewrite (Hall x (or_introl eq_refl)). apply IH.
  intros y Hy. apply Hall. now right.
Qed.

(** X4.  A second sweep removes nothing.  After a sweep, a sweep whose age
    limit reaches no further back (the same instant and the same number of
    days, for one) deletes no row, hands no file to [os.remove] and counts
    zero. *)
Theorem sweep_idempotent
        (self : ImageCache.t) (fs : FS) (now days now2 days2 : Z) :
  primary_key_ok (db self) = true ->
  Spec.cutoff self now2 days2 <= Spec.cutoff self now days ->
  let c1 := clean_cache self fs now days in
  let c2 := clean_cache (cache_after c1) (fs_after c1) now2 days2 in
  deleted_count c2 = 0
  /\ cache_after c2 = cache_after c1
  /\ fs_after c2 = fs_after c1.
Proof.
  intros Hpk Hcut c1 c2. unfold c2, c1.
  rewrite (clean_cache_eq self fs now days Hpk).
  cbn [cache_after fs_after].
  set (limit := Spec.cutoff self now days) in *.
  set (fs1 := Spec.unlink (select_older (db self) limit) fs).
  set (kept :=
         List.filter
           (fun r => negb (Spec.older_than limit r)
                     && path_exists fs1 (filepath r)) (db self)).
  assert (Hpk1 : primary_key_ok kept = true) by now apply primary_key_filter.
  rewrite (clean_cache_eq {| db := kept; max_age_days := max_age_days self |}
             fs1 now2 days2 Hpk1).
  cbn [db max_age_days].
  change (Spec.cutoff {| db := kept; max_age_days := max_age_days self |}
            now2 days2) with (Spec.cutoff self now2 days2).
  set (limit2 := Spec.cutoff self now2 days2) in *.
  assert (Hkept : forall r, In r kept ->
            Spec.older_than limit2 r = false
            /\ path_exists fs1 (filepath r) = true).
  { intros r Hin. apply filter_In in Hin. destruct Hin as [_ Hk].
    apply andb_true_iff in Hk. destruct Hk as [Hold Hex].
    split; [|exact Hex]. apply negb_true_iff in Hold.
    unfold Spec.older_than in *. apply Z.ltb_ge in Hold. apply Z.ltb_ge.
    lia. }
  assert (Hnone : select_older kept limit2 = []).
  { apply filter_none. intros r Hin. now apply Hkept. }
  rewrite Hnone. cbn [Spec.unlink fold_left].
  assert (Hsame :
    List.filter
      (fun r => negb (Spec.older_than limit2 r)
                && path_exists fs1 (filepath r)) kept = kept).
  { apply filter_all. intros r Hin. destruct (Hkept r Hin) as [-> ->].
    reflexivity. }
  rewrite Hsame. cbn [deleted_count cache_after fs_after].
  split; [lia|]. split; reflexivity.
Qed.

(** X5.  After a sweep every key that is still in the table is a hit: [get]
    returns its path for as long as the files stay as the sweep left
    them. *)
Theorem swept_entries_hit
        (self : ImageCache.t) (fs : FS) (now days t_get : Z)
        (prompt : string) (parameters : pydict) (fp : string) :
  primary_key_ok (db self) = true ->
  let c := clean_cache self fs now days in
  select_filepath (db (cache_after c)) (_get_hash prompt parameters)
  = Some fp ->
  fst (get (cache_after c) (fs_after c) t_get prompt parameters) = Some fp.
Proof.
  intros Hpk c Hsel. unfold get. rewrite Hsel.
  assert (Hex : path_exists (fs_after c) fp = true).
  { apply select_filepath_in in Hsel. destruct Hsel as [r [Hin [_ <-]]].
    unfold c in *. rewrite (clean_cache_eq self fs now days Hpk) in *.
    cbn [cache_after fs_after db] in *.
    apply filter_In in Hin. destruct Hin as [_ Hk].
    apply andb_true_iff in Hk. tauto. }
  now rewrite Hex.
Qed.

End CacheLookup.

Section CacheLookupExamples.
Import ImageCache.

Lemma sweep_idempotent_witness :
  let c1 :=
    clean_cache Sample.old_cache Sample.old_disk (41 * Sample.day) 0 in
  let c2 := clean_cache (cache_after c1) (fs_after c1) (41 * Sample.day) 0 in
  deleted_count c2 = 0
  /\ cache_after c2 = cache_after c1
  /\ fs_after c2 = fs_after c1.
Proof.
  apply (sweep_idempotent Sample.old_cache Sample.old_disk
           (41 * Sample.day) 0 (41 * Sample.day) 0).
  - reflexivity.
  - vm_compute. discriminate.
Defined.

Lemma swept_entries_hit_witness :
  let c :=
    clean_cache Sample.mixed_cache Sample.mixed_disk (41 * Sample.day) 0 in
  select_filepath (db (cache_after c))
                  (_get_hash Sample.fox
                     (("nologo", VBool false) :: Sample.fox_kwargs))
  = Some "fox.png"
  /\ fst (get (cache_after c) (fs_after c) (42 * Sample.day) Sample.fox
              (("nologo", VBool false) :: Sample.fox_kwargs))
     = Some "fox.png".
Proof.
  split; [vm_compute; reflexivity|].
  apply (swept_entries_hit Sample.mixed_cache Sample.mixed_disk
           (41 * Sample.day) 0 (42 * Sample.day) Sample.fox
           (("nologo", VBool false) :: Sample.fox_kwargs) "fox.png").
  - reflexivity.
  - vm_compute. reflexivity.
Defined.

End CacheLookupExamples.

(* ================================================================== *)
(** ** The digest *)

Section Digest.

Lemma all_chars_append (p : ascii -> bool) (a b : string) :
  Spec.all_chars p (a ++ b) = Spec.all_chars p a && Spec.all_chars p b.
Proof.
  induction a as [|c a IH]; simpl; [reflexivity|].
  now rewrite IH, andb_assoc.
Qed.

Lemma length_append (a b : string) :
  String.length (a ++ b) = (String.length a + String.length b)%nat.
Proof. induction a as [|c a IH]; simpl; [reflexivity | now rewrite IH]. Qed.

Lemma le_bytes_range (n : nat) (x b : Z) :
  In b (Hashlib.le_bytes n x) -> 0 <= b < 256.
Proof.
  revert x. induction n as [|n IH]; intros x; simpl; [contradiction|].
  intros [<- | Hin]; [apply Z.mod_pos_bound; lia | eapply IH; eassumption].
Qed.

Lemma le_bytes_length (n : nat) (x : Z) :
  List.length (Hashlib.le_bytes n x) = n.
Proof.
  revert x. induction n as [|n IH]; intros x; simpl; [reflexivity|].
  now rewrite IH.
Qed.

Lemma hex_digit_is_hex (n : Z) :
  0 <= n < 16 -> Spec.hex_char (PyStr.hex_digit n) = true.
Proof.
  intros Hn.
  assert (Hall : forallb (fun k => Spec.hex_char
                                     (PyStr.hex_digit (Z.of_nat k)))
                         (seq 0 16) = true) by reflexivity.
  rewrite forallb_forall in Hall.
  specialize (Hall (Z.to_nat n)). rewrite Z2Nat.id in Hall by lia.
  apply Hall. apply in_seq. lia.
Qed.

Lemma hex2_is_hex (b : Z) :
  0 <= b < 256 ->
  Spec.all_chars Spec.hex_char (PyStr.hex2 b) = true
  /\ String.length (PyStr.hex2 b) = 2%nat.
Proof.
  intros Hb. unfold PyStr.hex2. cbn [Spec.all_chars String.length].
  rewrite !hex_digit_is_hex.
  - auto.
  - apply Z.mod_pos_bound. lia.
  - split; [apply Z.div_pos; lia | apply Z.div_lt_upper_bound; lia].
Qed.

Lemma hexdigest_of_bytes (bs : list Z) :
  (forall b, In b bs -> 0 <= b < 256) ->
  Spec.all_chars Spec.hex_char
    (String.concat EmptyString (List.map PyStr.hex2 bs)) = true
  /\ String.length (String.concat EmptyString (List.map PyStr.hex2 bs))
     = (2 * List.length bs)%nat.
Proof.
  induction bs as [|b bs IH]; intros Hall; [split; reflexivity|].
  destruct (hex2_is_hex b (Hall b (or_introl eq_refl))) as [Hc Hl].
  destruct (IH (fun x Hx => Hall x (or_intror Hx))) as [IHc IHl].
  cbn [List.map String.concat].
  destruct (List.map PyStr.hex2 bs) as [|s rest] eqn:E.
  - destruct bs; [|discriminate]. split; [exact Hc | exact Hl].
  - cbn [append]. rewrite all_chars_append, length_append.
    cbn [append] in *. rewrite Hc, IHc, Hl, IHl.
    split; [reflexivity|]. cbn [List.length]. lia.
Qed.

(** X6.  The key of the cache is always 32 lower-case hexadecimal digits,
    whatever the prompt and the parameters are. *)
Theorem hash_is_32_hex_digits (prompt : string) (parameters : pydict) :
  String.length (ImageCache._get_hash prompt parameters) = 32%nat
  /\ Spec.all_chars Spec.hex_char (ImageCache._get_hash prompt parameters)
     = true.
Proof.
  unfold ImageCache._get_hash, Hashlib.md5_hexdigest, Hashlib.digest.
  destruct (fold_left Hashlib.block _ _) as [[[a b] c] d].
  destruct (hexdigest_of_bytes
              (Hashlib.le_bytes 4 a ++ Hashlib.le_bytes 4 b
               ++ Hashlib.le_bytes 4 c ++ Hashlib.le_bytes 4 d)%list)
    as [Hc Hl].
  - intros x Hx. repeat (apply in_app_or in Hx; destruct Hx as [Hx | Hx]);
      eapply le_bytes_range; eassumption.
  - rewrite Hl, Hc, !length_app, !le_bytes_length. split; reflexivity.
Qed.

End Digest.

(* ================================================================== *)
(** ** The retry client, whatever the server does *)

Section FetchShape.
Import ImageTool.
Variable max_retries : Z.
Variable url : string.
Variable params : pydict.
Variable headers : list (string * string).
Variable server : nat -> http_outcome.

Let loop := attempts max_retries url params headers server.
Let get := Get url params headers.
Let retried := Spec.retried max_retries url params headers.

Lemma retried_cons (a : nat) (l : list nat) :
  retried (a :: l) = (get :: backoff max_retries a ++ retried l)%list.
Proof. reflexivity. Qed.

Lemma backoff_last (a : nat) :
  Z.of_nat a = max_retries - 1 -> backoff max_retries a = [].
Proof.
  intros Ha. unfold backoff.
  destruct (Z.of_nat a <? max_retries - 1) eqn:E; [|reflexivity].
  apply Z.ltb_lt in E. lia.
Qed.

(** The events of the loop: some attempts that are retried, each with its
    sleep, and one last request. *)
Lemma attempts_shape (m : nat) :
  forall a : nat,
    Z.of_nat (a + m) = max_retries -> (0 < m)%nat ->
    exists j, (j < m)%nat
              /\ snd (loop (seq a m)) = (retried (seq a j) ++ [get])%list.
Proof.
  induction m as [|m IH]; intros a Hn Hm; [lia|].
  assert (Hstop : exists j, (j < S m)%nat
                   /\ [get] = (retried (seq a j) ++ [get])%list)
    by (exists 0%nat; split; [lia | reflexivity]).
  assert (Hretry :
    exists j, (j < S m)%nat
              /\ (get :: backoff max_retries a ++ snd (loop (seq (S a) m)))%list
                 = (retried (seq a j) ++ [get])%list).
  { destruct m as [|m'].
    - exists 0%nat. split; [lia|]. rewrite backoff_last by lia. reflexivity.
    - destruct (IH (S a)) as [j [Hj Htr]]; [lia | lia |].
      exists (S j). split; [lia|].
      rewrite Htr. cbn [seq]. rewrite retried_cons.
      cbn [app]. now rewrite app_assoc. }
  unfold loop in *. cbn [seq attempts].
  destruct (server a) as [r|].
  - destruct (raise_for_status (status_code r)).
    + destruct (negb (readable r)); [exact Hstop|].
      destruct (status_code r <? 500); [exact Hstop|].
      destruct (attempts _ _ _ _ _ (seq (S a) m)) as [res tr]. exact Hretry.
    + content_type_cases E; exact Hstop.
  - destruct (attempts _ _ _ _ _ (seq (S a) m)) as [res tr]. exact Hretry.
Qed.

(** A response that comes back is the reply to the last request, and the
    attempts before it were all retried. *)
Lemma attempts_return (m : nat) (r : Response) :
  forall a : nat,
    fst (loop (seq a m)) = Return r ->
    exists j, (j < m)%nat
              /\ (forall i, (a <= i < a + j)%nat ->
                            Spec.retryable (server i) = true)
              /\ server (a + j) = Reply r
              /\ Spec.settle r = Return r.
Proof.
  induction m as [|m IH]; intros a; unfold loop in *; cbn [seq attempts].
  - discriminate.
  - assert (Hnext :
      Spec.retryable (server a) = true ->
      fst (attempts max_retries url params headers server (seq (S a) m))
      = Return r ->
      exists j, (j < S m)%nat
                /\ (forall i, (a <= i < a + j)%nat ->
                              Spec.retryable (server i) = true)
                /\ server (a + j) = Reply r
                /\ Spec.settle r = Return r).
    { intros Ha Hret. destruct (IH (S a) Hret) as [j [Hj [Hall [Hr Hs]]]].
      exists (S j). split; [lia|]. split; [|split].
      - intros i Hi. destruct (Nat.eq_dec i a) as [-> | Hne]; [exact Ha|].
        apply Hall. lia.
      - now replace (a + S j)%nat with (S a + j)%nat by lia.
      - exact Hs. }
    destruct (server a) as [r'|] eqn:Hsa.
    + destruct (raise_for_status (status_code r')) eqn:Hraise.
      * destruct (readable r') eqn:Hread; cbn [negb]; [|discriminate].
        destruct (status_code r' <? 500) eqn:Hlt; [discriminate|].
        destruct (attempts _ _ _ _ _ (seq (S a) m)) as [res tr] eqn:Hl.
        cbn [fst]. intros Hret. apply Hnext.
        -- cbn [Spec.retryable]. rewrite Hraise, Hread.
           apply Z.ltb_ge in Hlt. apply Z.leb_le in Hlt. now rewrite Hlt.
        -- exact Hret.
      * content_type_cases E; cbn [fst]; [discriminate|].
        intros Hret. injection Hret as <-.
        exists 0%nat. split; [lia|]. split; [intros i Hi; lia|].
        rewrite Nat.add_0_r. split; [exact Hsa|].
        unfold Spec.settle, Spec.is_image, Spec.declared_content_type.
        now rewrite Hraise, E.
    + destruct (attempts _ _ _ _ _ (seq (S a) m)) as [res tr] eqn:Hl.
      cbn [fst]. intros Hret. apply Hnext; [reflexivity | exact Hret].
Qed.

End FetchShape.

Section FetchShapeClaims.
Import ImageTool.

Lemma total_app (l1 l2 : list Z) :
  Spec.total (l1 ++ l2) = Spec.total l1 + Spec.total l2.
Proof.
  unfold Spec.total. induction l1 as [|x l1 IH]; simpl; [reflexivity|].
  rewrite IH. lia.
Qed.

Lemma total_powers_of_two (k : nat) :
  Spec.total (Spec.powers_of_two k) = 2 ^ Z.of_nat k - 1.
Proof.
  unfold Spec.powers_of_two. induction k as [|k IH]; [reflexivity|].
  rewrite seq_S, map_app, total_app, IH. cbn [Nat.add List.map Spec.total
    fold_right].
  rewrite Nat2Z.inj_succ, Z.pow_succ_r by lia. lia.
Qed.

(** X7.  Whatever the server answers, a fetch is some attempts that are
    retried, each followed by its sleep, and one last request: it makes at
    most [max_retries] requests, it never sleeps after its last request,
    and with [k] retried attempts it has slept [2^k - 1] in all.  With
    [max_retries] at zero or below it fails with the connection error
    without a request. *)
Theorem fetch_trace_shape
        (self : ImageTool.t) (url : string) (params : pydict)
        (headers : list (string * string)) (server : nat -> http_outcome) :
  let n := max_retries (config_manager self) in
  let res := fst (_make_request self url params headers server) in
  let tr := snd (_make_request self url params headers server) in
  (n <= 0 -> res = Raise ConnectionError /\ tr = [])
  /\ (0 < n ->
      exists k,
        Z.of_nat k < n
        /\ tr = (Spec.retry_rounds url params headers k
                 ++ [Get url params headers])%list
        /\ requests_made tr = Z.of_nat k + 1
        /\ Spec.total (sleeps tr) = 2 ^ Z.of_nat k - 1)
  /\ requests_made tr <= Z.max 0 n.
Proof.
  intros n res tr.
  assert (Hneg : n <= 0 -> res = Raise ConnectionError /\ tr = []).
  { intros Hn. unfold res, tr, _make_request, make_request_loop. fold n.
    replace (Z.to_nat n) with 0%nat by lia. split; reflexivity. }
  assert (Hpos : 0 < n ->
      exists k,
        Z.of_nat k < n
        /\ tr = (Spec.retry_rounds url params headers k
                 ++ [Get url params headers])%list
        /\ requests_made tr = Z.of_nat k + 1
        /\ Spec.total (sleeps tr) = 2 ^ Z.of_nat k - 1).
  { intros Hn.
    destruct (attempts_shape n url params headers server (Z.to_nat n) 0%nat)
      as [k [Hk Htr]]; [lia | lia |].
    exists k. split; [lia|].
    rewrite (retried_rounds n url params headers k) in Htr by lia.
    assert (Heq : tr = (Spec.retry_rounds url params headers k
                        ++ [Get url params headers])%list) by exact Htr.
    split; [exact Heq|]. rewrite Heq.
    rewrite requests_made_app, requests_made_rounds, sleeps_app,
      sleeps_rounds, total_app, total_powers_of_two.
    split; [count_requests | cbn; lia]. }
  split; [exact Hneg|]. split; [exact Hpos|].
  destruct (Z_le_gt_dec n 0) as [Hle | Hgt].
  - destruct (Hneg Hle) as [_ ->]. unfold requests_made. simpl. lia.
  - destruct Hpos as [k [Hk [_ [Hreq _]]]]; [lia|]. rewrite Hreq. lia.
Qed.

(** X8.  A fetch returns a response exactly when some attempt within the
    budget, reached through attempts that were all retried, gets a reply
    that [raise_for_status] accepts and whose content type passes the test;
    the response returned is that reply.  An attempt is retried when it
    fails in transport, or with an HTTP error of status 500 to 599 whose
    body could be read for the log line: an error reply whose body cannot
    be read ends the fetch with no response. *)
Theorem fetch_success_iff
        (self : ImageTool.t) (url : string) (params : pydict)
        (headers : list (string * string)) (server : nat -> http_outcome)
        (r : Response) :
  fst (_make_request self url params headers server) = Return r
  <-> exists k,
        Z.of_nat k < max_retries (config_manager self)
        /\ (forall a, (a < k)%nat -> Spec.retryable (server a) = true)
        /\ server k = Reply r
        /\ raise_for_status (status_code r) = false
        /\ Spec.is_image (Spec.declared_content_type r) = true.
Proof.
  split.
  - intros Hret. unfold _make_request, make_request_loop in Hret.
    apply attempts_return in Hret.
    destruct Hret as [k [Hk [Hall [Hr Hs]]]].
    exists k. split; [lia|]. split; [intros a Ha; apply Hall; lia|].
    split; [exact Hr|]. unfold Spec.settle in Hs.
    destruct (raise_for_status (status_code r));
      [destruct (readable r); discriminate|].
    split; [reflexivity|].
    destruct (Spec.is_image (Spec.declared_content_type r));
      [reflexivity | discriminate].
  - intros [k [Hk [Hall [Hr [Hraise Himg]]]]]. unfold _make_request.
    rewrite (loop_stops _ url params headers server k r Hk Hall Hr
               (or_intror Hraise)).
    cbn [fst]. unfold Spec.settle. now rewrite Hraise, Himg.
Qed.

End FetchShapeClaims.

(* ================================================================== *)
(** ** Prompts, file names and URLs *)

Section Text.
Import ImageTool.

Lemma take_length (n : nat) (s : string) :
  (String.length (PyStr.take n s) <= n)%nat.
Proof.
  revert s. induction n as [|n IH]; intros s; [simpl; lia|].
  destruct s as [|c s]; simpl; [lia|]. specialize (IH s). lia.
Qed.

(** X9.  The translation service is only asked about a prompt that has a
    character outside ASCII among its first 490, and it is never sent more
    than those 490 characters.  A prompt without such a character comes
    back cut to 490 characters with no request made; so does a prompt
    whose translation fails. *)
Theorem translate_prompt_bounds (text : string) (reply : option string) :
  let sent := PyStr.take 490 text in
  let result := fst (_translate_prompt text reply) in
  let tr := snd (_translate_prompt text reply) in
  (String.length sent <= 490)%nat
  /\ (PyStr.is_ascii sent = true -> tr = [] /\ result = sent)
  /\ (PyStr.is_ascii sent = false ->
      tr = [Translate sent]
      /\ result = match reply with Some translated => translated
                  | None => sent end)
  /\ (forall q, In (Translate q) tr ->
                (String.length q <= 490)%nat /\ PyStr.is_ascii q = false).
Proof.
  intros sent result tr. unfold result, tr, _translate_prompt. fold sent.
  pose proof (take_length 490 text) as Hlen. fold sent in Hlen.
  split; [exact Hlen|].
  destruct (PyStr.is_ascii sent) eqn:E; cbn [negb fst snd].
  - split; [auto|]. split; [discriminate|]. intros q [].
  - split; [discriminate|]. split.
    + intros _. now destruct reply.
    + intros q Hq. destruct reply; destruct Hq as [Hq | []];
        injection Hq as <-; auto.
Qed.

Lemma all_chars_filter (p : ascii -> bool) (s : string) :
  Spec.all_chars p (PyStr.filter p s) = true.
Proof.
  induction s as [|c s IH]; simpl; [reflexivity|].
  destruct (p c) eqn:E; simpl; [now rewrite E|exact IH].
Qed.

Lemma all_chars_lstrip (p : ascii -> bool) (s : string) :
  Spec.all_chars p s = true -> Spec.all_chars p (PyStr.lstrip s) = true.
Proof.
  induction s as [|c s IH]; simpl; [trivial|].
  intros Hs. apply andb_true_iff in Hs. destruct Hs as [Hc Hs].
  destruct (PyStr.isspace c); [now apply IH|]. simpl. now rewrite Hc, Hs.
Qed.

Lemma all_chars_rstrip (p : ascii -> bool) (s : string) :
  Spec.all_chars p s = true -> Spec.all_chars p (PyStr.rstrip s) = true.
Proof.
  induction s as [|c s IH]; [trivial|]. cbn [Spec.all_chars PyStr.rstrip].
  intros Hs. apply andb_true_iff in Hs. destruct Hs as [Hc Hs].
  specialize (IH Hs). destruct (PyStr.rstrip s) as [|d r].
  - destruct (PyStr.isspace c); [reflexivity|]. simpl. now rewrite Hc.
  - cbn [Spec.all_chars] in *. now rewrite Hc, IH.
Qed.

Lemma all_chars_take (p : ascii -> bool) (n : nat) (s : string) :
  Spec.all_chars p s = true -> Spec.all_chars p (PyStr.take n s) = true.
Proof.
  revert s. induction n as [|n IH]; intros s; [reflexivity|].
  destruct s as [|c s]; [reflexivity|]. simpl.
  intros Hs. apply andb_true_iff in Hs. destruct Hs as [Hc Hs].
  now rewrite Hc, IH.
Qed.

Lemma all_chars_replace_space (s : string) :
  Spec.all_chars keep_in_filename s = true ->
  Spec.all_chars Spec.filename_char (PyStr.replace_char " " "_" s) = true.
Proof.
  unfold PyStr.replace_char.
  induction s as [|c s IH]; [reflexivity|]. simpl.
  intros Hs. apply andb_true_iff in Hs. destruct Hs as [Hc Hs].
  rewrite (IH Hs), andb_true_r.
  destruct (Ascii.eqb_spec c " ") as [-> | Hne]; [reflexivity|].
  unfold Spec.filename_char. rewrite Hc. cbn [andb].
  apply negb_true_iff, Z.eqb_neq. intros Hord. apply Hne.
  unfold PyStr.ord in Hord.
  rewrite <- (ascii_N_embedding c), <- (ascii_N_embedding " ").
  f_equal. apply N2Z.inj. exact Hord.
Qed.

Lemma all_chars_excludes (p : ascii -> bool) (c : ascii) (s : string) :
  Spec.all_chars p s = true -> p c = false ->
  PyStr.contains (String c EmptyString) s = false.
Proof.
  intros Hs Hc. induction s as [|d s IH]; [reflexivity|].
  cbn [Spec.all_chars] in Hs. apply andb_true_iff in Hs.
  destruct Hs as [Hd Hs]. cbn [PyStr.contains String.prefix].
  rewrite (IH Hs), orb_false_r.
  destruct (ascii_dec c d) as [-> | Hne]; [congruence | reflexivity].
Qed.

(** X10.  A file name is the cleaned prompt, an underscore, the time stamp,
    a dot and the format in lower case.  The cleaned prompt has at most 50
    characters, each one a word character, a hyphen or white space other
    than the space: it holds no slash, no dot and no space, whatever the
    prompt was. *)
Theorem filename_shape
        (self : ImageTool.t) (prompt timestamp : string) :
  exists clean_prompt,
    _generate_filename self prompt timestamp
    = clean_prompt ++ "_" ++ timestamp ++ "."
      ++ PyStr.lower (image_format (config_manager self))
    /\ (String.length clean_prompt <= 50)%nat
    /\ Spec.all_chars Spec.filename_char clean_prompt = true
    /\ PyStr.contains "/" clean_prompt = false
    /\ PyStr.contains "." clean_prompt = false
    /\ PyStr.contains " " clean_prompt = false.
Proof.
  unfold _generate_filename. eexists. split; [reflexivity|].
  split; [apply take_length|].
  assert (Hall : Spec.all_chars Spec.filename_char
            (PyStr.take 50
               (PyStr.replace_char " " "_"
                  (PyStr.strip
                     (PyStr.filter keep_in_filename (PyStr.lower prompt)))))
            = true).
  { apply all_chars_take, all_chars_replace_space. unfold PyStr.strip.
    apply all_chars_rstrip, all_chars_lstrip, all_chars_filter. }
  split; [exact Hall|].
  repeat split; apply (all_chars_excludes _ _ _ Hall); reflexivity.
Qed.

Lemma quote_plus_char (c : ascii) :
  Spec.all_chars Spec.url_char
    (if Urllib.always_safe c then String c EmptyString
     else if PyStr.ord c =? 32 then "+"
     else String.concat EmptyString
            (List.map Urllib.percent (PyStr.encode (String c EmptyString))))
  = true.
Proof.
  destruct c as [[] [] [] [] [] [] [] []]; vm_compute; reflexivity.
Qed.

(** X11.  The encoded prompt is made of letters, digits and the characters
    [_ . - ~ + %] only, so no character of a prompt can reach the URL as a
    slash, a question mark, an ampersand or a space; a prompt made of
    letters, digits and [_ . - ~] is left as it is. *)
Theorem quote_plus_is_url_safe (s : string) :
  Spec.all_chars Spec.url_char (Urllib.quote_plus s) = true
  /\ PyStr.contains "/" (Urllib.quote_plus s) = false
  /\ PyStr.contains "?" (Urllib.quote_plus s) = false
  /\ PyStr.contains "&" (Urllib.quote_plus s) = false
  /\ PyStr.contains " " (Urllib.quote_plus s) = false
  /\ (Spec.all_chars Urllib.always_safe s = true -> Urllib.quote_plus s = s).
Proof.
  assert (Hall : Spec.all_chars Spec.url_char (Urllib.quote_plus s) = true).
  { induction s as [|c s IH]; [reflexivity|]. cbn [Urllib.quote_plus].
    now rewrite all_chars_append, quote_plus_char, IH. }
  split; [exact Hall|].
  repeat split; try (apply (all_chars_excludes _ _ _ Hall); reflexivity).
  clear Hall. induction s as [|c s IH]; [reflexivity|].
  cbn [Spec.all_chars Urllib.quote_plus]. intros Hs.
  apply andb_true_iff in Hs. destruct Hs as [Hc Hs].
  rewrite Hc, (IH Hs). reflexivity.
Qed.

End Text.

(* ================================================================== *)
(** ** The orchestrator: what a call leaves behind *)

Section Outcome.
Import ImageTool.
Context {FS : Type} `{Filesystem FS}.

Lemma select_update (tb : ImageCache.table) (h h' : string) (now : Z) :
  ImageCache.select_filepath (ImageCache.update_last_accessed tb h now) h'
  = ImageCache.select_filepath tb h'.
Proof.
  unfold ImageCache.select_filepath, ImageCache.update_last_accessed.
  induction tb as [|r tb IH]; [reflexivity|]. cbn [List.map find].
  destruct (ImageCache.has_hash h r);
    unfold ImageCache.has_hash at 1; cbn [ImageCache.prompt_hash];
    fold (ImageCache.has_hash h' r);
    destruct (ImageCache.has_hash h' r); try reflexivity; exact IH.
Qed.



(** What a call of [generate_image] returns, counts and stores, case by
    case. *)
Lemma generate_image_result
        (self : ImageTool.t) (fs : FS) (prompt : string) (kwargs : pydict)
        (env : GenEnv) :
  let key := ImageCache._get_hash prompt
               (generate_params self kwargs (gen_draw env)) in
  let '(r, self', fs', tr) := generate_image self fs prompt kwargs env in
  config_manager self' = config_manager self
  /\ (cache self = None <-> cache self' = None)
  /\ match r with
     | Some p =>
         PyStr.truthy p = true
         /\ errors (stats self') = errors (stats self)
         /\ ((stats self' = count_cache_hit (stats self)
              /\ tr = [] /\ fs' = fs /\ cache self <> None)
             \/ stats self'
                = count_generated (stats self) (gen_duration env))
         /\ (forall c', cache self' = Some c' ->
                        ImageCache.select_filepath (ImageCache.db c') key
                        = Some p)
     | None =>
         images_generated (stats self') = images_generated (stats self)
         /\ cache_hits (stats self') = cache_hits (stats self)
         /\ total_generation_time (stats self')
            = total_generation_time (stats self)
         /\ (errors (stats self') = errors (stats self)
             \/ errors (stats self') = errors (stats self) + 1)
         /\ Spec.cache_entries self' = Spec.cache_entries self
     end.
Proof.
  intros key. unfold generate_image. fold key.
  assert (Hget : forall c,
            let g := ImageCache.get c fs (gen_lookup_time env) prompt
                       (generate_params self kwargs (gen_draw env)) in
            Spec.entries (ImageCache.db (snd g))
            = Spec.entries (ImageCache.db c)
            /\ (forall fp, fst g = Some fp ->
                  ImageCache.select_filepath (ImageCache.db (snd g)) key
                  = Some fp)).
  { intros c. cbv zeta. unfold ImageCache.get. fold key.
    destruct (ImageCache.select_filepath (ImageCache.db c) key)
      as [fp|] eqn:Hsel; [|split; [reflexivity | discriminate]].
    destruct (path_exists fs fp); cbn [fst snd ImageCache.db];
      [|split; [reflexivity | discriminate]].
    split; [apply entries_update|].
    intros fp' Hfp. injection Hfp as <-. now rewrite select_update. }
  destruct (cache self) as [c|] eqn:Hc.
  - specialize (Hget c). cbv zeta in Hget.
    destruct (ImageCache.get c fs _ prompt _) as [cached c'].
    cbn [fst snd] in Hget. destruct Hget as [Hent Hsel].
    destruct (truthy cached) eqn:Ht.
    + destruct cached as [fp|]; [|discriminate]. cbn [truthy] in Ht.
      split; [reflexivity|]. split; [split; discriminate|].
      split; [exact Ht|]. split; [reflexivity|].
      split; [left; repeat split; discriminate|].
      intros c'' Hc''. cbn in Hc''. injection Hc'' as <-. now apply Hsel.
    + destruct (_translate_prompt prompt (gen_translation env)) as [tp ev1].
      destruct (_make_request _ _ _ _ _) as [[response|e] ev2].
      * destruct (_save_image _ _ _ _) as [[saved_path|e] fs'].
        -- destruct (PyStr.truthy saved_path) eqn:Hs.
           ++ split; [reflexivity|]. split; [split; discriminate|].
              split; [exact Hs|]. split; [reflexivity|].
              split; [right; reflexivity|].
              intros c'' Hc''. cbn in Hc''. injection Hc'' as <-.
              cbn [ImageCache.db ImageCache.store]. unfold ImageCache.store.
              cbn [ImageCache.db]. apply select_insert_same.
           ++ split; [reflexivity|]. split; [split; discriminate|].
              cbn. unfold Spec.cache_entries. rewrite Hc. cbn.
              rewrite Hent. repeat split; auto.
        -- split; [reflexivity|]. split; [split; discriminate|].
           cbn. unfold Spec.cache_entries. rewrite Hc. cbn.
           rewrite Hent. repeat split; auto.
      * split; [reflexivity|]. split; [split; discriminate|].
        cbn. unfold Spec.cache_entries. rewrite Hc. cbn.
        rewrite Hent. repeat split; auto.
  - cbn [truthy].
    destruct (_translate_prompt prompt (gen_translation env)) as [tp ev1].
    destruct (_make_request _ _ _ _ _) as [[response|e] ev2].
    + destruct (_save_image _ _ _ _) as [[saved_path|e] fs'].
      * destruct (PyStr.truthy saved_path) eqn:Hs.
        -- split; [reflexivity|]. split; [split; reflexivity|].
           split; [exact Hs|]. split; [reflexivity|].
           split; [right; reflexivity|]. intros c'' Hc''. discriminate.
        -- split; [reflexivity|]. split; [split; reflexivity|].
           cbn. unfold Spec.cache_entries. rewrite Hc. repeat split; auto.
      * split; [reflexivity|]. split; [split; reflexivity|].
        cbn. unfold Spec.cache_entries. rewrite Hc. repeat split; auto.
    + split; [reflexivity|]. split; [split; reflexivity|].
      cbn. unfold Spec.cache_entries. rewrite Hc. repeat split; auto.
Qed.



End Outcome.

Section OutcomeExamples.
Import ImageTool.


End OutcomeExamples.

(* ================================================================== *)
(** ** The fallback chain: what an edit leaves behind *)

Section EditOutcome.
Import ImageTool.
Context {FS : Type} `{Filesystem FS}.

(** X14.  An edit needs its source and its upload.  When the source file
    does not exist nothing at all is done; when the upload gives no URL
    (no credentials, a failed exchange, an empty link) no model is tried
    and no request for an image is made.  In both cases nothing comes
    back, the object and the disk are left as they were, and no error is
    counted. *)
Theorem edit_without_source_or_upload
        (self : ImageTool.t) (fs : FS) (prompt image_path : string)
        (kwargs : pydict) (env : EditEnv) :
  path_exists fs image_path = false
  \/ truthy (fst (_upload_to_gofile self image_path (edit_upload env)))
     = false ->
  exists tr,
    edit_image self fs prompt image_path kwargs env = (None, self, fs, tr)
    /\ attempted tr = []
    /\ requests_made tr = 0
    /\ (path_exists fs image_path = false -> tr = [])
    /\ (truthy (gofile_token self) = false
        \/ truthy (gofile_folder self) = false -> tr = []).
Proof.
  intros Hcase. unfold edit_image.
  destruct (path_exists fs image_path) eqn:Hex; cbn [negb].
  - destruct Hcase as [Hno | Hup]; [discriminate|].
    assert (Hev : forall u ev0,
              _upload_to_gofile self image_path (edit_upload env) = (u, ev0) ->
              attempted ev0 = [] /\ requests_made ev0 = 0
              /\ (truthy (gofile_token self) = false
                  \/ truthy (gofile_folder self) = false -> ev0 = [])).
    { unfold _upload_to_gofile. intros u ev0.
      destruct (truthy (gofile_token self)), (truthy (gofile_folder self));
        cbn [negb orb]; intros Heq; injection Heq as _ <-;
        repeat split; try reflexivity; intros [Hf | Hf]; discriminate. }
    destruct (_upload_to_gofile self image_path (edit_upload env))
      as [u ev0] eqn:Eu.
    destruct (Hev u ev0 eq_refl) as [Ha [Hr Hc]]. cbn [fst] in Hup.
    destruct u as [public_url|].
    + cbn [truthy] in Hup. rewrite Hup. cbn [negb].
      exists ev0. repeat split; auto. discriminate.
    + exists ev0. repeat split; auto. discriminate.
  - exists []. repeat split; reflexivity.
Qed.

(** X15.  An edit never touches the cache and never counts as an image or
    as a hit: the cache, the configuration, [images_generated],
    [cache_hits] and the time are what they were.  The only counter it can
    move is [errors], by one, and only when nothing comes back. *)
Theorem edit_leaves_cache_alone
        (self : ImageTool.t) (fs : FS) (prompt image_path : string)
        (kwargs : pydict) (env : EditEnv) :
  let '(r, self', _, _) := edit_image self fs prompt image_path kwargs env in
  cache self' = cache self
  /\ config_manager self' = config_manager self
  /\ images_generated (stats self') = images_generated (stats self)
  /\ cache_hits (stats self') = cache_hits (stats self)
  /\ total_generation_time (stats self')
     = total_generation_time (stats self)
  /\ (errors (stats self') = errors (stats self)
      \/ (errors (stats self') = errors (stats self) + 1 /\ r = None))
  /\ (forall p, r = Some p -> self' = self).
Proof.
  unfold edit_image.
  destruct (negb (path_exists fs image_path)); [repeat split; auto|].
  destruct (_upload_to_gofile _ _ _) as [[public_url|] ev0];
    [|repeat split; auto].
  destruct (negb (PyStr.truthy public_url)); [repeat split; auto|].
  destruct (_translate_prompt _ _) as [tp ev1].
  destruct (try_methods _ _ _ _ _ _ _ _) as [[[p|] fs'] ev2].
  - repeat split; auto.
  - cbn. repeat split; auto. discriminate.
Qed.

End EditOutcome.

Section EditOutcomeExamples.
Import ImageTool.

Lemma edit_without_source_or_upload_witness :
  exists tr,
    edit_image Sample.bare_tool Sample.fox_disk Sample.fox "fox.png" []
               Sample.edit_env_up
    = (None, Sample.bare_tool, Sample.fox_disk, tr)
    /\ attempted tr = []
    /\ requests_made tr = 0
    /\ (path_exists Sample.fox_disk "fox.png" = false -> tr = [])
    /\ (truthy (gofile_token Sample.bare_tool) = false
        \/ truthy (gofile_folder Sample.bare_tool) = false -> tr = []).
Proof.
  apply (edit_without_source_or_upload Sample.bare_tool Sample.fox_disk
           Sample.fox "fox.png" [] Sample.edit_env_up).
  right. reflexivity.
Defined.

Lemma known_models_NoDup : NoDup Spec.known_models.
Proof. repeat constructor; simpl; intuition discriminate. Qed.

Lemma methods_unknown (preferred_model : string) :
  ~ In preferred_model Spec.known_models ->
  List.map method_model (methods preferred_model) = Spec.known_models.
Proof.
  intros Hn.
  assert (H1 : String.eqb "kontext" preferred_model = false)
    by (apply String.eqb_neq; intros <-; apply Hn; cbn; tauto).
  assert (H2 : String.eqb "flux" preferred_model = false)
    by (apply String.eqb_neq; intros <-; apply Hn; cbn; tauto).
  assert (H3 : String.eqb "flux-kontext" preferred_model = false)
    by (apply String.eqb_neq; intros <-; apply Hn; cbn; tauto).
  unfold methods, methods_to_try, model_params_get.
  cbn [model_params List.map fst List.filter find flat_map].
  rewrite H1, H2, H3. reflexivity.
Qed.

(** X16.  Every known model is in the list of attempts once, whatever the
    configuration names as the preferred model; a name that is not known
    leaves the list in the order of [model_params].  Each attempt carries
    the parameter name and the prefix that [model_params] gives for its
    model. *)
Theorem methods_cover_known_models (preferred_model : string) :
  Permutation (List.map method_model (methods preferred_model))
              Spec.known_models
  /\ NoDup (List.map method_model (methods preferred_model))
  /\ (~ In preferred_model Spec.known_models ->
      List.map method_model (methods preferred_model) = Spec.known_models)
  /\ (forall m, In m (methods preferred_model) ->
                model_params_get (method_model m)
                = Some {| param := method_param m;
                          prompt_prefix := method_prompt_prefix m |}).
Proof.
  assert (Hentry : forall m, In m (methods preferred_model) ->
                model_params_get (method_model m)
                = Some {| param := method_param m;
                          prompt_prefix := method_prompt_prefix m |}).
  { intros m Hin. unfold methods in Hin. apply in_flat_map in Hin.
    destruct Hin as [name [_ Hm]].
    destruct (model_params_get name) as [e|] eqn:E; [|contradiction].
    destruct Hm as [<- | []]. cbn. rewrite E. now destruct e. }
  destruct (in_dec string_dec preferred_model Spec.known_models)
    as [Hin | Hn].
  - destruct (methods_order preferred_model Hin) as [_ [Hnd Hall]].
    split; [|split; [exact Hnd | split; [contradiction | exact Hentry]]].
    apply NoDup_Permutation; [exact Hnd | exact known_models_NoDup |].
    intros m. symmetry. apply Hall.
  - rewrite (methods_unknown preferred_model Hn).
    split; [reflexivity|]. split; [exact known_models_NoDup|].
    split; [reflexivity | exact Hentry].
Qed.

End EditOutcomeExamples.

(* ================================================================== *)
(** ** A session: the table and the counters *)

Section Session.
Import ImageTool.
Context {FS : Type} `{Filesystem FS}.

Lemma step_cache_presence (w : ImageTool.t * FS) (c : call) :
  cache (fst (step w c)) = None <-> cache (fst w) = None.
Proof.
  destruct w as [self fs]. cbn [fst].
  destruct c as [p k e | p i k e | tm | fs']; cbn [step].
  - pose proof (generate_image_result self fs p k e) as Hg. cbv zeta in Hg.
    destruct (generate_image self fs p k e) as [[[r self'] fs'] tr].
    destruct Hg as [_ [Hnone _]]. cbn [fst]. symmetry. exact Hnone.
  - unfold edit_image.
    destruct (negb (path_exists fs i)); [reflexivity|].
    destruct (_upload_to_gofile _ _ _) as [[public_url|] ev0];
      [|reflexivity].
    destruct (negb (PyStr.truthy public_url)); [reflexivity|].
    destruct (_translate_prompt _ _) as [tp ev1].
    destruct (try_methods _ _ _ _ _ _ _ _) as [[[q|] fs'] ev2]; reflexivity.
  - destruct (cache self) as [c|] eqn:Hc; cbn [fst].
    + cbn. split; discriminate.
    + now rewrite Hc.
  - reflexivity.
Qed.

Lemma run_cache_presence (calls : list call) (w : ImageTool.t * FS) :
  cache (fst (run calls w)) = None <-> cache (fst w) = None.
Proof.
  revert w. unfold run.
  induction calls as [|c calls IH]; intros w; cbn [fold_left];
    [reflexivity|].
  rewrite IH. apply step_cache_presence.
Qed.

(** X17.  The cache stays in order through a session.  When the table
    found at start-up has one row per key and no empty path, then after
    any sequence of calls (generations, edits, sweeps, files that come and
    go in between) no two rows share a key and no row has an empty path;
    and the object has a cache exactly when [enable_cache] is set. *)
Theorem session_keeps_cache_in_order
        (config : Config) (persisted : ImageCache.table) (fs : FS) (now : Z)
        (calls : list call) :
  Spec.table_ok persisted = true ->
  match cache (fst (run calls (__init__ config persisted fs now))) with
  | Some c =>
      enable_cache config = true
      /\ NoDup (List.map ImageCache.prompt_hash (ImageCache.db c))
      /\ (forall r, In r (ImageCache.db c) ->
                    ImageCache.filepath r <> EmptyString)
  | None => enable_cache config = false
  end.
Proof.
  intros Hok.
  pose proof (run_cache_ok config persisted fs now calls Hok) as Hinv.
  pose proof (run_cache_presence calls (__init__ config persisted fs now))
    as Hpres.
  assert (Hinit : cache (fst (__init__ config persisted fs now)) = None
                  <-> enable_cache config = false).
  { unfold __init__. destruct (enable_cache config).
    - destruct (ImageCache.__init__ persisted fs now 30).
      split; discriminate.
    - split; reflexivity. }
  unfold Spec.cache_ok in Hinv.
  destruct (cache (fst (run calls (__init__ config persisted fs now))))
    as [c|].
  - split.
    + destruct (enable_cache config); [reflexivity|].
      assert (Hn : Some c = None) by (apply Hpres; now apply Hinit).
      discriminate.
    + unfold Spec.table_ok in Hinv. apply andb_true_iff in Hinv.
      destruct Hinv as [Hpaths Hpk]. split.
      * now apply distinct_NoDup.
      * intros r Hin Hempty. unfold Spec.paths_truthy in Hpaths.
        rewrite forallb_forall in Hpaths. specialize (Hpaths r Hin).
        rewrite Hempty in Hpaths. discriminate.
  - apply Hinit. now apply Hpres.
Qed.

Lemma step_all_counts (w : ImageTool.t * FS) (c : call) :
  let before := stats (fst w) in
  let after := stats (fst (step w c)) in
  errors before <= errors after
  /\ images_generated after + cache_hits after + errors after
     <= images_generated before + cache_hits before + errors before
        + (if Spec.can_fail c then 1 else 0).
Proof.
  destruct w as [self fs]. cbn [fst].
  destruct c as [p k e | p i k e | tm | fs']; cbn [step Spec.can_fail].
  - pose proof (generate_image_result self fs p k e) as Hg. cbv zeta in Hg.
    destruct (generate_image self fs p k e) as [[[r self'] fs'] tr].
    cbn [fst]. destruct Hg as [_ [_ Hg]]. destruct r as [q|].
    + destruct Hg as [_ [He [[[Hs _] | Hs] _]]]; rewrite Hs in *; cbn in *;
        lia.
    + destruct Hg as [Hi [Hh [_ [[He | He] _]]]]; lia.
  - unfold edit_image.
    destruct (negb (path_exists fs i)); [cbn [fst]; lia|].
    destruct (_upload_to_gofile _ _ _) as [[public_url|] ev0];
      [|cbn [fst]; lia].
    destruct (negb (PyStr.truthy public_url)); [cbn [fst]; lia|].
    destruct (_translate_prompt _ _) as [tp ev1].
    destruct (try_methods _ _ _ _ _ _ _ _) as [[[q|] fs'] ev2]; cbn; lia.
  - destruct (cache self); cbn; lia.
  - cbn [fst]. lia.
Qed.

Lemma run_all_counts (calls : list call) (w : ImageTool.t * FS) :
  let before := stats (fst w) in
  let after := stats (fst (run calls w)) in
  errors before <= errors after
  /\ images_generated after + cache_hits after + errors after
     <= images_generated before + cache_hits before + errors before
        + Spec.failable_calls calls.
Proof.
  revert w. unfold run, Spec.failable_calls.
  induction calls as [|c calls IH]; intros w; cbn [fold_left List.filter].
  - cbn. lia.
  - pose proof (step_all_counts w c) as Hs.
    pose proof (IH (step w c)) as Hr.
    cbv zeta in *. destruct (Spec.can_fail c); cbn [List.length] in *; lia.
Qed.

(** X18.  The three counters account for the calls.  After any sequence
    of calls on a new object, [errors] is not negative and
    [images_generated + cache_hits + errors] is at most the number of
    calls of [generate_image] and [edit_image] among them: a call moves at
    most one counter, by one, and a sweep moves none.  [errors] never goes
    down when the session goes on. *)
Theorem errors_bounded_by_calls
        (config : Config) (persisted : ImageCache.table) (fs : FS) (now : Z)
        (calls more : list call) :
  let start := __init__ config persisted fs now in
  let s := stats (fst (run calls start)) in
  0 <= errors s
  /\ images_generated s + cache_hits s + errors s
     <= Spec.failable_calls calls
  /\ errors s <= errors (stats (fst (run (calls ++ more)%list start))).
Proof.
  cbv zeta.
  pose proof (run_all_counts calls (__init__ config persisted fs now)) as Hr.
  pose proof (run_all_counts more
                (run calls (__init__ config persisted fs now))) as Hm.
  cbv zeta in *.
  assert (H0 : stats (fst (__init__ config persisted fs now))
               = {| images_generated := 0; cache_hits := 0;
                    total_generation_time := 0; errors := 0 |}).
  { unfold __init__. destruct (enable_cache config).
    - destruct (ImageCache.__init__ persisted fs now 30). reflexivity.
    - reflexivity. }
  rewrite H0 in Hr. cbn in Hr.
  unfold run in *. rewrite fold_left_app. lia.
Qed.

End Session.

Section SessionExamples.
Import ImageTool.

Lemma session_keeps_cache_in_order_witness :
  match cache (fst (run [CleanCache (60 * Sample.day);
                         Generate Sample.fox Sample.fox_kwargs Sample.env_up]
                        (__init__ Sample.config
                           (ImageCache.db Sample.old_cache) Sample.old_disk
                           (50 * Sample.day)))) with
  | Some c =>
      enable_cache Sample.config = true
      /\ NoDup (List.map ImageCache.prompt_hash (ImageCache.db c))
      /\ (forall r, In r (ImageCache.db c) ->
                    ImageCache.filepath r <> EmptyString)
  | None => enable_cache Sample.config = false
  end.
Proof.
  apply (session_keeps_cache_in_order Sample.config
           (ImageCache.db Sample.old_cache) Sample.old_disk
           (50 * Sample.day)
           [CleanCache (60 * Sample.day);
            Generate Sample.fox Sample.fox_kwargs Sample.env_up]).
  reflexivity.
Defined.

End SessionExamples.

(* ================================================================== *)
(** ** The settings *)

Section Settings.
Import ConfigManager.

Lemma get_set (d : pydict) (k : string) (v : value) (key : string)
      (default : value) :
  Dict.get (Dict.set d k v) key default
  = if String.eqb k key then v else Dict.get d key default.
Proof.
  induction d as [|[k0 v0] d IH]; cbn [Dict.set Dict.get]; [reflexivity|].
  destruct (String.eqb k0 k) eqn:E0.
  - apply String.eqb_eq in E0. subst k0. cbn [Dict.get].
    now destruct (String.eqb k key).
  - cbn [Dict.get]. rewrite IH.
    destruct (String.eqb k0 key) eqn:E1; [|reflexivity].
    apply String.eqb_eq in E1. subst key. apply String.eqb_neq in E0.
    assert (String.eqb k k0 = false) as ->; [|reflexivity].
    apply String.eqb_neq. congruence.
Qed.

Lemma has_In (d : pydict) (key : string) :
  Dict.has d key = true <-> In key (Dict.keys d).
Proof.
  unfold Dict.has. rewrite existsb_exists. split.
  - intros [x [Hin Heq]]. apply String.eqb_eq in Heq. now subst.
  - intros Hin. exists key. split; [exact Hin | apply String.eqb_refl].
Qed.

Lemma has_false (d : pydict) (key : string) :
  Dict.has d key = false <-> ~ In key (Dict.keys d).
Proof.
  rewrite <- has_In. destruct (Dict.has d key); split; intros Hx;
    try reflexivity; try discriminate; try (intros Hy; discriminate).
  exfalso. now apply Hx.
Qed.

Lemma keys_set (d : pydict) (k : string) (v : value) :
  Dict.keys (Dict.set d k v)
  = if Dict.has d k then Dict.keys d else (Dict.keys d ++ [k])%list.
Proof.
  unfold Dict.has, Dict.keys.
  induction d as [|[k0 v0] d IH]; cbn [Dict.set List.map existsb fst];
    [reflexivity|].
  destruct (String.eqb k0 k) eqn:E0; cbn [orb List.map fst].
  - reflexivity.
  - rewrite IH. now destruct (existsb _ _).
Qed.

Lemma distinct_set (d : pydict) (k : string) (v : value) :
  Dict.distinct (Dict.keys d) = true ->
  Dict.distinct (Dict.keys (Dict.set d k v)) = true.
Proof.
  rewrite keys_set. destruct (Dict.has d k) eqn:Hk; [trivial|].
  rewrite !distinct_NoDup. intros Hnd. apply has_false in Hk.
  apply NoDup_app; [exact Hnd | repeat constructor; intros [] |].
  intros x Hx [<- | []]. now apply Hk.
Qed.

Lemma distinct_update (d u : pydict) :
  Dict.distinct (Dict.keys d) = true ->
  Dict.distinct (Dict.keys (Dict.update d u)) = true.
Proof.
  unfold Dict.update. revert d.
  induction u as [|[k v] u IH]; intros d Hd; cbn [fold_left fst snd];
    [exact Hd|].
  apply IH. now apply distinct_set.
Qed.

Lemma get_update (d u : pydict) (key : string) (default : value) :
  Dict.distinct (Dict.keys u) = true ->
  Dict.get (Dict.update d u) key default
  = Dict.get u key (Dict.get d key default).
Proof.
  unfold Dict.update. revert d.
  induction u as [|[k v] u IH]; intros d Hu; cbn [fold_left fst snd];
    [reflexivity|].
  cbn [Dict.keys List.map fst Dict.distinct] in Hu.
  apply andb_true_iff in Hu. destruct Hu as [Hk Hu].
  rewrite (IH _ Hu), get_set. cbn [Dict.get].
  destruct (String.eqb k key) eqn:E; [|reflexivity].
  apply String.eqb_eq in E. subst key. apply get_absent.
  apply negb_true_iff in Hk. apply has_false. intros Hin.
  assert (Hex : existsb (String.eqb k) (List.map fst u) = true).
  { apply existsb_exists. exists k. split; [exact Hin|].
    apply String.eqb_refl. }
  fold (Dict.keys u) in Hk. unfold Dict.keys in Hk. congruence.
Qed.

Lemma has_set (d : pydict) (k : string) (v : value) (key : string) :
  Dict.has (Dict.set d k v) key = Dict.has d key || String.eqb k key.
Proof.
  unfold Dict.has at 1. rewrite keys_set. destruct (Dict.has d k) eqn:Hk.
  - fold (Dict.has d key).
    destruct (String.eqb k key) eqn:E; [|now rewrite orb_false_r].
    apply String.eqb_eq in E. subst key. now rewrite Hk.
  - rewrite existsb_app. fold (Dict.has d key). cbn [existsb].
    now rewrite orb_false_r.
Qed.

Lemma keys_update (d u : pydict) :
  Dict.distinct (Dict.keys u) = true ->
  Dict.keys (Dict.update d u) = (Dict.keys d ++ Spec.new_keys d u)%list.
Proof.
  unfold Dict.update, Spec.new_keys. revert d.
  induction u as [|[k v] u IH]; intros d Hu;
    cbn [fold_left fst snd Dict.keys List.map List.filter].
  - now rewrite app_nil_r.
  - cbn [Dict.keys List.map fst Dict.distinct] in Hu.
    apply andb_true_iff in Hu. destruct Hu as [Hk Hu].
    apply negb_true_iff in Hk.
    fold (Dict.keys u) in *. rewrite (IH _ Hu).
    assert (Hsame : List.filter
                      (fun k0 => negb (Dict.has (Dict.set d k v) k0))
                      (Dict.keys u)
                    = List.filter (fun k0 => negb (Dict.has d k0))
                                  (Dict.keys u)).
    { apply filter_ext_in. intros k0 Hin. rewrite has_set.
      assert (String.eqb k k0 = false) as ->;
        [|now rewrite orb_false_r].
      apply String.eqb_neq. intros <-.
      assert (Hex : existsb (String.eqb k) (Dict.keys u) = true).
      { apply existsb_exists. exists k. split; [exact Hin|].
        apply String.eqb_refl. }
      congruence. }
    rewrite Hsame, keys_set.
    destruct (Dict.has d k); cbn [negb]; [reflexivity|].
    now rewrite <- app_assoc.
Qed.

Lemma default_config_distinct :
  Dict.distinct (Dict.keys default_config) = true.
Proof. reflexivity. Qed.





(** X20.  The credentials come from the environment first.  Each of
    [POLLINATIONS_API_KEY], [GOFILE_API_TOKEN] and [GOFILE_FOLDER_ID] is
    always a key of the loaded configuration; its value is the variable
    of that name when the environment sets it, and otherwise what the
    file has under [api_token], [gofile_api_token] or [gofile_folder_id],
    [None] when it has not.  What the file has under the name of the
    variable itself is never used. *)
Theorem credentials_from_environment
        (file : config_file) (environ : string -> option string)
        (default : value) :
  Dict.distinct (Dict.keys (Spec.user_config file)) = true ->
  let c := _load_config file environ in
  Dict.get c "POLLINATIONS_API_KEY" default
  = Spec.credential file environ "POLLINATIONS_API_KEY" "api_token"
  /\ Dict.get c "GOFILE_API_TOKEN" default
     = Spec.credential file environ "GOFILE_API_TOKEN" "gofile_api_token"
  /\ Dict.get c "GOFILE_FOLDER_ID" default
     = Spec.credential file environ "GOFILE_FOLDER_ID" "gofile_folder_id".
Proof.
  intros Hu.
  assert (Hbase : forall key,
            Dict.get match file with
                     | Loaded u => Dict.update default_config u
                     | _ => default_config
                     end key VNone
            = Dict.get (Spec.user_config file) key
                (Dict.get default_config key VNone)).
  { intros key. destruct file as [| |u]; cbn [Spec.user_config];
      [reflexivity | reflexivity | now apply get_update]. }
  cbv zeta. unfold _load_config, Spec.credential, _get_env_key.
  replace (match file with
           | Loaded user_config => Dict.update default_config user_config
           | _ => default_config
           end)
    with (match file with
          | Loaded u => Dict.update default_config u
          | _ => default_config
          end) by now destruct file.
  cbv zeta. rewrite !get_set. cbn [String.eqb Ascii.eqb Bool.eqb].
  rewrite !Hbase. cbn [Dict.get default_config String.eqb Ascii.eqb Bool.eqb].
  repeat split; reflexivity.
Qed.

Context {FS : Type} `{Filesystem FS}.

(** X21.  Saved settings take effect in the running object, whatever
    becomes of the file.  After [save_config] a key of the new settings
    has its new value and every other key the value it had; the keys that
    were there keep their places, the new ones follow in the order they
    were given, and no key appears twice if none did.  This holds for
    every file system, also one on which the write fails. *)
Theorem save_config_takes_effect
        (self : ConfigManager.t) (fs : FS) (new_settings : pydict)
        (key : string) (default : value) :
  Dict.distinct (Dict.keys new_settings) = true ->
  let self' := fst (save_config self fs new_settings) in
  get self' key default = Dict.get new_settings key (get self key default)
  /\ Dict.keys (config self')
     = (Dict.keys (config self)
          ++ Spec.new_keys (config self) new_settings)%list
  /\ (Dict.distinct (Dict.keys (config self)) = true ->
      Dict.distinct (Dict.keys (config self')) = true)
  /\ config_path self' = config_path self
  /\ script_dir self' = script_dir self.
Proof.
  intros Hu. cbv zeta. unfold save_config, get.
  destruct (write_file fs _ _) as [fs' ok]. cbn [fst config config_path
                                                 script_dir].
  split; [now apply get_update|].
  split; [now apply keys_update|].
  split; [apply distinct_update|]. split; reflexivity.
Qed.

End Settings.

Section SettingsExamples.
Import ConfigManager.


Lemma credentials_from_environment_witness :
  let c := _load_config Sample.settings_file Sample.environ in
  Dict.get c "POLLINATIONS_API_KEY" VNone
  = Spec.credential Sample.settings_file Sample.environ
      "POLLINATIONS_API_KEY" "api_token"
  /\ Dict.get c "GOFILE_API_TOKEN" VNone
     = Spec.credential Sample.settings_file Sample.environ
         "GOFILE_API_TOKEN" "gofile_api_token"
  /\ Dict.get c "GOFILE_FOLDER_ID" VNone
     = Spec.credential Sample.settings_file Sample.environ
         "GOFILE_FOLDER_ID" "gofile_folder_id".
Proof.
  apply (credentials_from_environment Sample.settings_file Sample.environ
           VNone).
  reflexivity.
Defined.

Lemma save_config_takes_effect_witness :
  let self' :=
    fst (save_config Sample.settings Sample.empty_disk Sample.new_settings) in
  get self' "model" VNone
  = Dict.get Sample.new_settings "model" (get Sample.settings "model" VNone)
  /\ Dict.keys (config self')
     = (Dict.keys (config Sample.settings)
          ++ Spec.new_keys (config Sample.settings) Sample.new_settings)%list
  /\ (Dict.distinct (Dict.keys (config Sample.settings)) = true ->
      Dict.distinct (Dict.keys (config self')) = true)
  /\ config_path self' = config_path Sample.settings
  /\ script_dir self' = script_dir Sample.settings.
Proof.
  apply (save_config_takes_effect Sample.settings Sample.empty_disk
           Sample.new_settings "model" VNone).
  reflexivity.
Defined.

End SettingsExamples.

(* ================================================================== *)
(** ** The command line *)

Section CommandLine.
Import ImageTool Cli.
Context {FS : Type} `{Filesystem FS}.

Lemma lstrip_blank (s : string) :
  Spec.all_chars PyStr.isspace s = true -> PyStr.lstrip s = EmptyString.
Proof.
  induction s as [|c s IH]; cbn [Spec.all_chars PyStr.lstrip];
    [reflexivity|].
  intros Hall. apply andb_true_iff in Hall. destruct Hall as [Hc Hs].
  rewrite Hc. now apply IH.
Qed.

Lemma lstrip_head (s : string) :
  Spec.all_chars PyStr.isspace s = false ->
  exists c rest,
    PyStr.lstrip s = String c rest /\ PyStr.isspace c = false.
Proof.
  induction s as [|c s IH]; cbn [Spec.all_chars PyStr.lstrip];
    [discriminate|].
  destruct (PyStr.isspace c) eqn:Hc; cbn [andb].
  - exact IH.
  - intros _. now exists c, s.
Qed.

Lemma rstrip_head (c : ascii) (rest : string) :
  PyStr.isspace c = false ->
  exists r, PyStr.rstrip (String c rest) = String c r.
Proof.
  intros Hc. cbn [PyStr.rstrip]. rewrite Hc.
  destruct (PyStr.rstrip rest); eexists; reflexivity.
Qed.

Lemma rstrip_idempotent (s : string) :
  PyStr.rstrip (PyStr.rstrip s) = PyStr.rstrip s.
Proof.
  induction s as [|c s IH]; [reflexivity|].
  cbn [PyStr.rstrip]. destruct (PyStr.rstrip s) as [|a r] eqn:Hr.
  - destruct (PyStr.isspace c) eqn:Hc; [reflexivity|].
    cbn [PyStr.rstrip]. now rewrite Hc.
  - change (PyStr.rstrip (String c (String a r)))
      with (match PyStr.rstrip (String a r) with
            | EmptyString =>
                if PyStr.isspace c then EmptyString
                else String c EmptyString
            | String _ _ as r0 => String c r0
            end).
    now rewrite IH.
Qed.

(** X22.  The prompt typed at the command line is stripped before it is
    used.  A line that is empty or all white space changes nothing: no
    request, no file, no counter.  Any other line goes to
    [generate_image] without overrides, as a prompt that is not empty
    and neither starts nor ends with white space. *)
Theorem handle_generate_strips
        (image_tool : ImageTool.t) (fs : FS) (line : string) (env : GenEnv) :
  let prompt := PyStr.strip line in
  if Spec.all_chars PyStr.isspace line
  then handle_generate image_tool fs line env = (image_tool, fs, [])
  else PyStr.truthy prompt = true
       /\ PyStr.lstrip prompt = prompt
       /\ PyStr.rstrip prompt = prompt
       /\ handle_generate image_tool fs line env
          = (let '(_, image_tool', fs', tr) :=
               generate_image image_tool fs prompt [] env in
             (image_tool', fs', tr)).
Proof.
  cbv zeta. unfold handle_generate, PyStr.strip.
  destruct (Spec.all_chars PyStr.isspace line) eqn:Hall.
  - now rewrite (lstrip_blank line Hall).
  - destruct (lstrip_head line Hall) as [c [rest [Hl Hc]]]. rewrite Hl.
    destruct (rstrip_head c rest Hc) as [r Hr].
    split; [now rewrite Hr|].
    split; [rewrite Hr; cbn [PyStr.lstrip]; now rewrite Hc|].
    split; [apply rstrip_idempotent|].
    rewrite Hr. reflexivity.
Qed.

End CommandLine.

(* ================================================================== *)
(** ** What one call can cost *)

Section Budget.
Import ImageTool.
Context {FS : Type} `{Filesystem FS}.

Lemma count_app (p : event -> bool) (t1 t2 : list event) :
  Spec.count p (t1 ++ t2) = Spec.count p t1 + Spec.count p t2.
Proof. unfold Spec.count. rewrite filter_app, length_app. lia. Qed.

Lemma count_rounds (p : event -> bool) (url : string) (params : pydict)
      (headers : list (string * string)) (k : nat) :
  (forall u q h, p (Get u q h) = false) ->
  (forall s, p (Sleep s) = false) ->
  Spec.count p (Spec.retry_rounds url params headers k) = 0.
Proof.
  intros Hg Hs. unfold Spec.retry_rounds, Spec.count.
  generalize 0%nat as start.
  induction k as [|k IH]; intros start; [reflexivity|].
  cbn [seq flat_map app List.filter]. rewrite Hg, Hs. apply IH.
Qed.

Lemma attempted_rounds (url : string) (params : pydict)
      (headers : list (string * string)) (k : nat) :
  attempted (Spec.retry_rounds url params headers k) = [].
Proof.
  unfold Spec.retry_rounds. generalize 0%nat as start.
  induction k as [|k IH]; intros start; [reflexivity|].
  cbn [seq flat_map app attempted]. apply IH.
Qed.

Lemma sleep_budget_nonneg (n : Z) : 0 <= Spec.sleep_budget n.
Proof.
  unfold Spec.sleep_budget.
  assert (0 < 2 ^ (Z.max 1 n - 1)) by (apply Z.pow_pos_nonneg; lia). lia.
Qed.

(** The trace of a fetch is empty, or some rounds and a last request. *)
Lemma make_request_trace
      (self : ImageTool.t) (url : string) (params : pydict)
      (headers : list (string * string)) (server : nat -> http_outcome) :
  let n := max_retries (config_manager self) in
  let tr := snd (_make_request self url params headers server) in
  (n <= 0 /\ tr = [])
  \/ (exists k, Z.of_nat k < n
                /\ tr = (Spec.retry_rounds url params headers k
                         ++ [Get url params headers])%list).
Proof.
  intros n tr. destruct (Z_le_gt_dec n 0) as [Hle | Hgt].
  - left. split; [exact Hle|].
    unfold tr, _make_request, make_request_loop. fold n.
    now replace (Z.to_nat n) with 0%nat by lia.
  - right.
    destruct (attempts_shape n url params headers server (Z.to_nat n) 0%nat)
      as [k [Hk Htr]]; [lia | lia |].
    exists k. split; [lia|].
    rewrite (retried_rounds n url params headers k) in Htr by lia.
    exact Htr.
Qed.

Lemma make_request_budget
      (self : ImageTool.t) (url : string) (params : pydict)
      (headers : list (string * string)) (server : nat -> http_outcome) :
  let n := max_retries (config_manager self) in
  let tr := snd (_make_request self url params headers server) in
  requests_made tr <= Z.max 0 n
  /\ Spec.total (sleeps tr) <= Spec.sleep_budget n
  /\ Spec.translations tr = 0
  /\ Spec.uploads tr = 0
  /\ attempted tr = [].
Proof.
  intros n tr.
  destruct (make_request_trace self url params headers server)
    as [[Hn Htr] | [k [Hk Htr]]]; fold n in Hn || fold n in Hk;
    fold tr in Htr; rewrite Htr.
  - pose proof (sleep_budget_nonneg n). repeat split; try reflexivity.
    + unfold requests_made. cbn. lia.
    + cbn. lia.
  - unfold Spec.translations, Spec.uploads.
    rewrite requests_made_app, requests_made_rounds, sleeps_app,
      sleeps_rounds, total_app, total_powers_of_two, !count_app,
      !count_rounds, attempted_app, attempted_rounds by reflexivity.
    repeat split; try reflexivity.
    + unfold requests_made. cbn. lia.
    + unfold Spec.sleep_budget. cbn [sleeps Spec.total fold_right].
      assert (2 ^ Z.of_nat k <= 2 ^ (Z.max 1 n - 1))
        by (apply Z.pow_le_mono_r; lia).
      lia.
Qed.

Lemma translate_prompt_events (text : string) (reply : option string) :
  let tr := snd (_translate_prompt text reply) in
  requests_made tr = 0
  /\ sleeps tr = []
  /\ Spec.uploads tr = 0
  /\ attempted tr = []
  /\ Spec.translations tr
     = if PyStr.is_ascii (PyStr.take 490 text) then 0 else 1.
Proof.
  unfold _translate_prompt.
  destruct (PyStr.is_ascii (PyStr.take 490 text)); cbn [negb];
    [repeat split; reflexivity|].
  destruct reply; repeat split; reflexivity.
Qed.

(** X23.  What a generation can cost.  One call of [generate_image] makes
    at most [max_retries] requests for the image, sleeps at most
    [2^0 + ... + 2^(max_retries - 2)] seconds between them, calls the
    translation service at most once, and never when the first 490
    characters of the prompt are all ASCII, and uploads nothing. *)
Theorem generate_image_budget
        (self : ImageTool.t) (fs : FS) (prompt : string) (kwargs : pydict)
        (env : GenEnv) :
  let n := max_retries (config_manager self) in
  let tr := snd (generate_image self fs prompt kwargs env) in
  requests_made tr <= Z.max 0 n
  /\ Spec.total (sleeps tr) <= Spec.sleep_budget n
  /\ Spec.translations tr
     <= (if PyStr.is_ascii (PyStr.take 490 prompt) then 0 else 1)
  /\ Spec.uploads tr = 0.
Proof.
  intros n tr.
  pose proof (sleep_budget_nonneg n) as Hb.
  assert (Hnone : requests_made [] <= Z.max 0 n
                  /\ Spec.total (sleeps []) <= Spec.sleep_budget n
                  /\ Spec.translations []
                     <= (if PyStr.is_ascii (PyStr.take 490 prompt)
                         then 0 else 1)
                  /\ Spec.uploads [] = 0).
  { repeat split; try reflexivity.
    - unfold requests_made. cbn. lia.
    - cbn. lia.
    - destruct (PyStr.is_ascii _); cbn; lia. }
  unfold tr, generate_image.
  destruct (match cache self with
            | Some c =>
                let '(r, c') :=
                  ImageCache.get c fs (gen_lookup_time env) prompt
                    (generate_params self kwargs (gen_draw env)) in
                (r, Some c')
            | None => (None, None)
            end) as [cached_path cache1].
  destruct (truthy cached_path); [exact Hnone|].
  pose proof (translate_prompt_events prompt (gen_translation env)) as Ht.
  cbv zeta in Ht.
  destruct (_translate_prompt prompt (gen_translation env)) as [tp ev1].
  cbn [snd] in Ht. destruct Ht as [Hr1 [Hs1 [Hu1 [_ Ht1]]]].
  pose proof (make_request_budget self
                (BASE_URL ++ Urllib.quote_plus tp)
                (generate_params self kwargs (gen_draw env))
                (auth_headers self) (gen_server env)) as Hm.
  cbv zeta in Hm. fold n in Hm.
  destruct (_make_request self _ _ _ _) as [res ev2].
  cbn [snd] in Hm. destruct Hm as [Hr2 [Hs2 [Ht2 [Hu2 _]]]].
  assert (Hall : requests_made (ev1 ++ ev2) <= Z.max 0 n
                 /\ Spec.total (sleeps (ev1 ++ ev2)) <= Spec.sleep_budget n
                 /\ Spec.translations (ev1 ++ ev2)
                    <= (if PyStr.is_ascii (PyStr.take 490 prompt)
                        then 0 else 1)
                 /\ Spec.uploads (ev1 ++ ev2) = 0).
  { unfold Spec.translations, Spec.uploads in *.
    rewrite requests_made_app, sleeps_app, Hs1, !count_app.
    cbn [app]. repeat split; lia. }
  destruct res as [response|e]; [|exact Hall].
  destruct (_save_image _ _ _ _) as [[saved_path|e] fs']; [|exact Hall].
  destruct (PyStr.truthy saved_path); exact Hall.
Qed.

Section Attempts.
Variable self : ImageTool.t.
Variable public_url translated_prompt : string.
Variable kwargs : pydict.
Variable env : EditEnv.

Let n := max_retries (config_manager self).

Lemma edit_attempt_budget (fs : FS) (turn : nat) (m : method) :
  let tr := snd (edit_attempt self fs public_url translated_prompt kwargs
                              env turn m) in
  requests_made tr <= Z.max 0 n
  /\ Spec.total (sleeps tr) <= Spec.sleep_budget n
  /\ Spec.translations tr = 0
  /\ Spec.uploads tr = 0
  /\ attempted tr = [method_model m].
Proof.
  unfold edit_attempt.
  pose proof (make_request_budget self
                (BASE_URL ++ Urllib.quote_plus
                               (method_prompt_prefix m ++ translated_prompt))
                (edit_params self m public_url kwargs (edit_draw env turn))
                (auth_headers self) (edit_server env turn)) as Hm.
  cbv zeta in Hm. fold n in Hm.
  destruct (_make_request self _ _ _ _) as [res ev].
  cbn [snd] in Hm. destruct Hm as [Hr [Hs [Ht [Hu Ha]]]].
  assert (Hall : requests_made (Attempt (method_model m) :: ev)
                 <= Z.max 0 n
                 /\ Spec.total (sleeps (Attempt (method_model m) :: ev))
                    <= Spec.sleep_budget n
                 /\ Spec.translations (Attempt (method_model m) :: ev) = 0
                 /\ Spec.uploads (Attempt (method_model m) :: ev) = 0
                 /\ attempted (Attempt (method_model m) :: ev)
                    = [method_model m]).
  { cbn [attempted sleeps]. rewrite Ha. repeat split; assumption. }
  destruct res as [response|e]; [|exact Hall].
  destruct (_save_image _ _ _ _) as [saved fs']. exact Hall.
Qed.

Lemma try_methods_budget (ms : list method) :
  forall (fs : FS) (turn : nat),
    let tr := snd (try_methods self fs public_url translated_prompt kwargs
                               env turn ms) in
    requests_made tr <= Z.of_nat (List.length ms) * Z.max 0 n
    /\ Spec.total (sleeps tr)
       <= Z.of_nat (List.length ms) * Spec.sleep_budget n
    /\ Spec.translations tr = 0
    /\ Spec.uploads tr = 0
    /\ (List.length (attempted tr) <= List.length ms)%nat.
Proof.
  pose proof (sleep_budget_nonneg n) as Hb.
  induction ms as [|m ms IH]; intros fs turn; cbn [try_methods].
  - cbn. repeat split; try reflexivity; lia.
  - pose proof (edit_attempt_budget fs turn m) as Ha. cbv zeta in Ha.
    destruct (edit_attempt self fs public_url translated_prompt kwargs env
                           turn m) as [[r fs'] ev].
    cbn [snd] in Ha. destruct Ha as [Hr [Hs [Ht [Hu Ha]]]].
    assert (Hn : Z.of_nat (List.length (m :: ms))
                 = 1 + Z.of_nat (List.length ms))
      by (cbn [List.length]; lia).
    rewrite Hn.
    assert (Hms : 0 <= Z.of_nat (List.length ms) * Z.max 0 n
                  /\ 0 <= Z.of_nat (List.length ms) * Spec.sleep_budget n)
      by (split; apply Z.mul_nonneg_nonneg; lia).
    destruct r as [saved_path|e].
    + cbn [snd]. rewrite Ha. cbn [List.length].
      repeat split; try assumption; lia.
    + specialize (IH fs' (S turn)). cbv zeta in IH.
      destruct (try_methods self fs' public_url translated_prompt kwargs
                            env (S turn) ms) as [[r' fs''] tr'].
      cbn [snd] in *. destruct IH as [Hr' [Hs' [Ht' [Hu' Ha']]]].
      unfold Spec.translations, Spec.uploads in *.
      rewrite requests_made_app, sleeps_app, total_app, !count_app,
        attempted_app, length_app, Ha.
      cbn [List.length]. repeat split; lia.
Qed.

End Attempts.

Lemma methods_length (preferred_model : string) :
  (List.length (methods preferred_model) <= 3)%nat.
Proof.
  rewrite <- (length_map method_model).
  destruct (in_dec string_dec preferred_model Spec.known_models)
    as [Hin | Hn].
  - destruct (methods_order preferred_model Hin) as [_ [Hnd Hall]].
    change 3%nat with (List.length Spec.known_models).
    apply NoDup_incl_length; [exact Hnd|].
    intros m Hm. now apply Hall.
  - rewrite (methods_unknown preferred_model Hn). cbn. lia.
Qed.

(** X24.  What an edit can cost.  One call of [edit_image] uploads the
    source at most once, calls the translation service at most once, tries
    at most three models, and so makes at most [3 * max_retries] requests
    for an image and sleeps at most three times what one fetch can. *)
Theorem edit_image_budget
        (self : ImageTool.t) (fs : FS) (prompt image_path : string)
        (kwargs : pydict) (env : EditEnv) :
  let n := max_retries (config_manager self) in
  let tr := snd (edit_image self fs prompt image_path kwargs env) in
  requests_made tr <= 3 * Z.max 0 n
  /\ Spec.total (sleeps tr) <= 3 * Spec.sleep_budget n
  /\ (List.length (attempted tr) <= 3)%nat
  /\ Spec.translations tr <= 1
  /\ Spec.uploads tr <= 1.
Proof.
  intros n tr.
  pose proof (sleep_budget_nonneg n) as Hb.
  assert (Hup : forall u ev0,
            _upload_to_gofile self image_path (edit_upload env) = (u, ev0) ->
            requests_made ev0 = 0 /\ sleeps ev0 = [] /\ attempted ev0 = []
            /\ Spec.translations ev0 = 0 /\ Spec.uploads ev0 <= 1).
  { unfold _upload_to_gofile. intros u ev0.
    destruct (negb (truthy (gofile_token self))
              || negb (truthy (gofile_folder self)));
      intros Heq; injection Heq as _ <-; repeat split; cbn; lia. }
  unfold tr, edit_image.
  destruct (negb (path_exists fs image_path)).
  { cbn [snd attempted sleeps List.length Spec.total fold_right].
    unfold requests_made, Spec.translations, Spec.uploads, Spec.count.
    cbn [List.filter List.length Z.of_nat]. repeat split; lia. }
  destruct (_upload_to_gofile self image_path (edit_upload env))
    as [u ev0] eqn:Eu.
  destruct (Hup u ev0 eq_refl) as [Hr0 [Hs0 [Ha0 [Ht0 Hu0]]]].
  assert (Hstop : requests_made ev0 <= 3 * Z.max 0 n
                  /\ Spec.total (sleeps ev0) <= 3 * Spec.sleep_budget n
                  /\ (List.length (attempted ev0) <= 3)%nat
                  /\ Spec.translations ev0 <= 1
                  /\ Spec.uploads ev0 <= 1).
  { rewrite Hs0, Ha0. cbn [Spec.total fold_right List.length].
    assert (0 <= Z.max 0 n) by lia. repeat split; lia. }
  destruct u as [public_url|]; [|exact Hstop].
  destruct (negb (PyStr.truthy public_url)); [exact Hstop|].
  pose proof (translate_prompt_events prompt (edit_translation env)) as Ht.
  cbv zeta in Ht.
  destruct (_translate_prompt prompt (edit_translation env)) as [tp ev1].
  cbn [snd] in Ht. destruct Ht as [Hr1 [Hs1 [Hu1 [Ha1 Ht1]]]].
  pose proof (try_methods_budget self public_url tp kwargs env
                (methods (model_edicion (config_manager self))) fs 0%nat)
    as Hm.
  pose proof (methods_length (model_edicion (config_manager self))) as Hl.
  cbv zeta in Hm. fold n in Hm.
  destruct (try_methods self fs public_url tp kwargs env 0
                        (methods (model_edicion (config_manager self))))
    as [[r fs'] ev2].
  cbn [snd] in Hm. destruct Hm as [Hr2 [Hs2 [Ht2 [Hu2 Ha2]]]].
  assert (Hall : requests_made (ev0 ++ ev1 ++ ev2) <= 3 * Z.max 0 n
                 /\ Spec.total (sleeps (ev0 ++ ev1 ++ ev2))
                    <= 3 * Spec.sleep_budget n
                 /\ (List.length (attempted (ev0 ++ ev1 ++ ev2)) <= 3)%nat
                 /\ Spec.translations (ev0 ++ ev1 ++ ev2) <= 1
                 /\ Spec.uploads (ev0 ++ ev1 ++ ev2) <= 1).
  { unfold Spec.translations, Spec.uploads in *.
    rewrite !requests_made_app, !sleeps_app, !attempted_app, !count_app,
      Hs0, Hs1, Ha0, Ha1.
    cbn [app].
    assert (Z.of_nat (List.length
                        (methods (model_edicion (config_manager self))))
            <= 3) by lia.
    assert (0 <= Z.max 0 n) by lia.
    destruct (PyStr.is_ascii (PyStr.take 490 prompt));
      repeat split; try lia; try nia. }
  destruct r as [saved_path|]; exact Hall.
Qed.

End Budget.
